(** * Webpage phishing detector: a shallow embedding and its properties

    The development follows [page_phishing.py] (class
    [WebpagePhishingDetector]) and [page_api.py] (the [/predict/] endpoint).

    - Python floats are IEEE 754 binary64 values, taken from the Standard
      Library's executable specification ([SpecFloat], precision 53,
      maximal exponent 1024, round to nearest even).
    - Python ints are [Z]; lists are [list]; dicts are association lists in
      insertion order.
    - Strings are sequences of characters with a code below 256; [lower]
      and [title] change the letters a-z and A-Z only.
    - Exceptions are an error monad ([outcome]).
    - The document tree (BeautifulSoup), the text-generation service and the
      JSON decoder are collaborators: the code is a function of their
      answers. *)

From Stdlib Require Import ZArith List String Ascii Bool Lia.
From Stdlib Require Import Floats.SpecFloat.
From Stdlib Require Floats.
Import ListNotations.

Open Scope Z_scope.
Open Scope string_scope.

(* ================================================================== *)
(** * Python floats *)
(* ================================================================== *)

Module Py64.

Definition prec : Z := 53.
Definition emax : Z := 1024.

Definition float := spec_float.

(** [float(n)] for an int [n], rounded to nearest even.  Beyond the float
    range the rounding gives an infinity; Python raises there, see
    [float_of_int] below. *)
Definition of_Z (n : Z) : float := binary_normalize prec emax n 0 false.

(** The binary64 nearest to [a / b], for integers [a] and [b > 0]. *)
Definition ratio (a b : Z) : float :=
  match a with
  | Z0 => S754_zero false
  | _ =>
      let '(mz, ez, lz) := SFdiv_core_binary prec emax (Z.abs a) 0 b 0 in
      binary_round_aux prec emax (Z.ltb a 0) mz ez lz
  end.

(** The float a decimal literal with digits [m] and [k] decimals denotes:
    the binary64 nearest to [m / 10^k]. *)
Definition dec (m : Z) (k : nat) : float := ratio m (10 ^ Z.of_nat k).

Definition of_number (n : Number.number) : option float :=
  match n with
  | Number.Decimal (Decimal.Decimal i f) =>
      Some (dec (Z.of_int (Decimal.app_int i f)) (Decimal.nb_digits f))
  | _ => None
  end.

Definition to_number (x : float) : option Number.number := None.

Definition add : float -> float -> float := SFadd prec emax.
Definition sub : float -> float -> float := SFsub prec emax.
Definition mul : float -> float -> float := SFmul prec emax.
Definition div : float -> float -> float := SFdiv prec emax.
Definition abs : float -> float := SFabs.
Definition ltb : float -> float -> bool := SFltb.
Definition leb : float -> float -> bool := SFleb.
Definition eqb : float -> float -> bool := SFeqb.

Definition is_nan (x : float) : bool :=
  match x with S754_nan => true | _ => false end.

Definition is_infinity (x : float) : bool :=
  match x with S754_infinity _ => true | _ => false end.

(** Python's [min(a, b)]: the first argument is kept unless the second
    compares strictly less. *)
Definition min (a b : float) : float := if ltb b a then b else a.

(** A number that is zero (of either sign) or positive, infinity included. *)
Definition nonneg (x : float) : bool :=
  match x with
  | S754_nan => false
  | S754_zero _ => true
  | S754_infinity s => negb s
  | S754_finite s _ _ => negb s
  end.

End Py64.

Declare Scope py_scope.
Delimit Scope py_scope with py.
Bind Scope py_scope with Py64.float.
Number Notation spec_float Py64.of_number Py64.to_number : py_scope.
Infix "+" := Py64.add : py_scope.
Infix "-" := Py64.sub : py_scope.
Infix "*" := Py64.mul : py_scope.
Infix "/" := Py64.div : py_scope.
Infix "<?" := Py64.ltb : py_scope.
Infix "<=?" := Py64.leb : py_scope.
Infix "=?" := Py64.eqb : py_scope.

(* ================================================================== *)
(** * Exceptions *)
(* ================================================================== *)

Inductive exn : Type :=
| OverflowError
| KeyError (key : string)
| TypeError (msg : string)
| ValueError (msg : string)
| ValidationError (msg : string)       (* the response model refused a field *)
| JSONDecodeError (msg : string)
| RequestException (msg : string)      (* the page could not be fetched *)
| ResponseError (msg : string)         (* the text-generation service failed *)
| HTTPException (status_code : Z) (detail : string).

(** [str(e)] *)
Definition exn_str (e : exn) : string :=
  match e with
  | OverflowError => "int too large to convert to float"
  | KeyError key => String "'" (key ++ "'")
  | TypeError msg => msg
  | ValueError msg => msg
  | ValidationError msg => msg
  | JSONDecodeError msg => msg
  | RequestException msg => msg
  | ResponseError msg => msg
  | HTTPException _ detail => detail
  end.

Inductive outcome (A : Type) : Type :=
| Return (a : A)
| Raise (e : exn).

Arguments Return {A} a.
Arguments Raise {A} e.

Definition bind {A B : Type} (m : outcome A) (k : A -> outcome B) : outcome B :=
  match m with
  | Return a => k a
  | Raise e => Raise e
  end.

Notation "x <- m ;; k" := (bind m (fun x => k))
  (at level 61, m at next level, right associativity).

(** [int * float] and [int / float] first convert the int; an int too
    large for a float raises [OverflowError]. *)
Definition float_of_int (n : Z) : outcome Py64.float :=
  let x := Py64.of_Z n in
  if Py64.is_infinity x then Raise OverflowError else Return x.

(* ================================================================== *)
(** * Python strings *)
(* ================================================================== *)

Module Str.

Definition is_upper (c : ascii) : bool :=
  let n := nat_of_ascii c in (Nat.leb 65 n && Nat.leb n 90)%bool.

Definition is_lower (c : ascii) : bool :=
  let n := nat_of_ascii c in (Nat.leb 97 n && Nat.leb n 122)%bool.

Definition lower_char (c : ascii) : ascii :=
  if is_upper c then ascii_of_nat (nat_of_ascii c + 32) else c.

Definition upper_char (c : ascii) : ascii :=
  if is_lower c then ascii_of_nat (nat_of_ascii c - 32) else c.

(** [s.lower()] *)
Fixpoint lower (s : string) : string :=
  match s with
  | EmptyString => EmptyString
  | String c s' => String (lower_char c) (lower s')
  end.

(** [s.startswith(p)] *)
Fixpoint startswith (p s : string) : bool :=
  match p, s with
  | EmptyString, _ => true
  | String a p', String b s' => (Ascii.eqb a b && startswith p' s')%bool
  | String _ _, EmptyString => false
  end.

(** [s.endswith(p)] *)
Fixpoint endswith (p s : string) : bool :=
  (String.eqb p s ||
   match s with
   | EmptyString => false
   | String _ s' => endswith p s'
   end)%bool.

(** [p in s] *)
Fixpoint contains (p s : string) : bool :=
  (startswith p s ||
   match s with
   | EmptyString => false
   | String _ s' => contains p s'
   end)%bool.

Fixpoint mem_char (c : ascii) (s : string) : bool :=
  match s with
  | EmptyString => false
  | String a s' => (Ascii.eqb a c || mem_char c s')%bool
  end.

(** [s.split(sep)[-1]] for a one-character separator *)
Fixpoint last_field (sep : ascii) (s : string) : string :=
  match s with
  | EmptyString => EmptyString
  | String c s' =>
      if mem_char sep s' then last_field sep s'
      else if Ascii.eqb c sep then s' else s
  end.

(** [s[n:]] *)
Fixpoint drop (n : nat) (s : string) : string :=
  match n, s with
  | O, _ => s
  | S n', String _ s' => drop n' s'
  | S _, EmptyString => EmptyString
  end.

(** [s[:n]] *)
Fixpoint take (n : nat) (s : string) : string :=
  match n, s with
  | O, _ => EmptyString
  | S n', String c s' => String c (take n' s')
  | S _, EmptyString => EmptyString
  end.

(** [s.find(c)]: the first index of [c], or [None] for Python's [-1] *)
Fixpoint find (c : ascii) (s : string) : option nat :=
  match s with
  | EmptyString => None
  | String a s' =>
      if Ascii.eqb a c then Some O
      else match find c s' with Some i => Some (S i) | None => None end
  end.

(** [s.rfind(c)]: the last index of [c], or [None] for Python's [-1] *)
Fixpoint rfind (c : ascii) (s : string) : option nat :=
  match s with
  | EmptyString => None
  | String a s' =>
      match rfind c s' with
      | Some i => Some (S i)
      | None => if Ascii.eqb a c then Some O else None
      end
  end.

(** [c.isspace()]: the blank, the controls 9 to 13 and 28 to 31, the next
    line (133) and the no-break space (160) *)
Definition is_space (c : ascii) : bool :=
  let n := nat_of_ascii c in
  (Nat.eqb n 32 || (Nat.leb 9 n && Nat.leb n 13) || (Nat.leb 28 n && Nat.leb n 31)
   || Nat.eqb n 133 || Nat.eqb n 160)%bool.

Fixpoint lstrip (s : string) : string :=
  match s with
  | String c s' => if is_space c then lstrip s' else s
  | EmptyString => EmptyString
  end.

Fixpoint rstrip (s : string) : string :=
  match s with
  | EmptyString => EmptyString
  | String c s' =>
      match rstrip s' with
      | EmptyString => if is_space c then EmptyString else String c EmptyString
      | r => String c r
      end
  end.

(** [s.strip()] *)
Definition strip (s : string) : string := rstrip (lstrip s).

(** [s.replace(a, b)] for single characters *)
Fixpoint replace_char (a b : ascii) (s : string) : string :=
  match s with
  | EmptyString => EmptyString
  | String c s' => String (if Ascii.eqb c a then b else c) (replace_char a b s')
  end.

Fixpoint title_from (prev_cased : bool) (s : string) : string :=
  match s with
  | EmptyString => EmptyString
  | String c s' =>
      let cased := (is_upper c || is_lower c)%bool in
      String (if prev_cased then lower_char c else upper_char c)
             (title_from cased s')
  end.

(** [s.title()] *)
Definition title (s : string) : string := title_from false s.

Fixpoint digits_of (fuel : nat) (n : N) (acc : string) : string :=
  match fuel with
  | O => acc
  | S fuel' =>
      let d := ascii_of_N (48 + N.modulo n 10) in
      let acc' := String d acc in
      if N.ltb n 10 then acc' else digits_of fuel' (N.div n 10) acc'
  end.

(** [str(n)] for an int *)
Definition of_int (n : Z) : string :=
  let a := Z.abs_N n in
  let ds := digits_of (S (N.to_nat (N.log2 a))) a EmptyString in
  if Z.ltb n 0 then String "-" ds else ds.

(** [s.split(sep)] for a one-character separator *)
Fixpoint split (sep : ascii) (s : string) : list string :=
  match s with
  | EmptyString => [EmptyString]
  | String c s' =>
      if Ascii.eqb c sep then EmptyString :: split sep s'
      else match split sep s' with
           | field :: fields => String c field :: fields
           | [] => [String c EmptyString]
           end
  end.

(** [s.partition(sep)]: the text before the first [sep] and, when there
    is one, the text after it *)
Fixpoint partition (sep : ascii) (s : string) : string * option string :=
  match s with
  | EmptyString => (EmptyString, None)
  | String c s' =>
      if Ascii.eqb c sep then (EmptyString, Some s')
      else let '(before, after) := partition sep s' in (String c before, after)
  end.

(** [s] without the characters that satisfy [p] *)
Fixpoint remove (p : ascii -> bool) (s : string) : string :=
  match s with
  | EmptyString => EmptyString
  | String c s' => if p c then remove p s' else String c (remove p s')
  end.

(** [s.lstrip(chars)], the characters given by a predicate *)
Fixpoint lstrip_chars (p : ascii -> bool) (s : string) : string :=
  match s with
  | String c s' => if p c then lstrip_chars p s' else s
  | EmptyString => EmptyString
  end.

(** [sep.join(l)] *)
Fixpoint join (sep : string) (l : list string) : string :=
  match l with
  | [] => EmptyString
  | [x] => x
  | x :: l' => x ++ sep ++ join sep l'
  end.

Definition hex_digit (n : nat) : ascii :=
  if Nat.ltb n 10 then ascii_of_nat (48 + n) else ascii_of_nat (87 + n).

(** [c.isprintable()] *)
Definition is_printable (c : ascii) : bool :=
  let n := nat_of_ascii c in
  ((Nat.leb 32 n && Nat.leb n 126) || (Nat.leb 161 n && negb (Nat.eqb n 173)))%bool.

(** One character of [repr(s)] between the quotes [quote] *)
Definition repr_char (quote c : ascii) : string :=
  let n := nat_of_ascii c in
  if (Ascii.eqb c quote || Ascii.eqb c "\")%bool then String "\" (String c EmptyString)
  else if Nat.eqb n 9 then "\t"
  else if Nat.eqb n 10 then "\n"
  else if Nat.eqb n 13 then "\r"
  else if is_printable c then String c EmptyString
  else String "\" (String "x" (String (hex_digit (n / 16))
                                  (String (hex_digit (n mod 16)) EmptyString))).

(** [repr(s)]: between single quotes, or between double quotes when [s]
    has a single quote and no double quote *)
Definition repr (s : string) : string :=
  let quote :=
    if (mem_char "'" s && negb (mem_char (ascii_of_nat 34) s))%bool
    then ascii_of_nat 34 else "'"%char in
  let fix body (s : string) : string :=
    match s with
    | EmptyString => EmptyString
    | String c s' => repr_char quote c ++ body s'
    end in
  String quote (body s ++ String quote EmptyString).

End Str.

(* ================================================================== *)
(** * Python dicts, in insertion order *)
(* ================================================================== *)

Section Dict.
Context {V : Type}.

Definition dict := list (string * V).

(** [d.get(k)] *)
Fixpoint dict_get (k : string) (d : dict) : option V :=
  match d with
  | [] => None
  | (k', v) :: d' => if String.eqb k' k then Some v else dict_get k d'
  end.

(** [d[k] = v]: an existing key keeps its place, a new one goes last. *)
Fixpoint dict_set (k : string) (v : V) (d : dict) : dict :=
  match d with
  | [] => [(k, v)]
  | (k', v') :: d' =>
      if String.eqb k' k then (k', v) :: d' else (k', v') :: dict_set k v d'
  end.

Definition dict_keys (d : dict) : list string := map fst d.

(** [k in d] *)
Definition dict_mem (k : string) (d : dict) : bool :=
  match dict_get k d with Some _ => true | None => false end.

End Dict.

Arguments dict V : clear implicits.

(* ================================================================== *)
(** * The detector and its configuration ([__init__]) *)
(* ================================================================== *)

Record WebpagePhishingDetector : Type := {
  suspicious_keywords : list string;
  social_engineering_phrases : list string;
  urgency_words : list string;
  trusted_domains : list string;
  suspicious_tlds : list string
}.

Definition detector : WebpagePhishingDetector := {|
  suspicious_keywords :=
    [ "urgent"; "verify"; "suspend"; "update"; "confirm"; "security alert";
      "account blocked"; "click here"; "limited time"; "act now"; "winner";
      "congratulations"; "free money"; "inheritance"; "lottery"; "prize";
      "banking alert"; "paypal"; "amazon security"; "microsoft support";
      "apple id"; "google account"; "facebook security"; "twitter verification";
      "suspended"; "expired"; "immediate action"; "verify identity";
      "claim now"; "tax refund"; "virus detected"; "system infected" ];
  social_engineering_phrases :=
    [ "verify your account"; "confirm your identity"; "update payment method";
      "suspicious activity"; "unusual activity"; "security breach";
      "account compromised"; "click to verify"; "avoid account suspension";
      "immediate response required"; "act within 24 hours" ];
  urgency_words :=
    [ "urgent"; "immediately"; "asap"; "expire"; "deadline"; "last chance";
      "limited time"; "hurry"; "quick"; "fast"; "now or never"; "today only" ];
  trusted_domains :=
    [ "github.com"; "youtube.com"; "google.com"; "gmail.com";
      "microsoft.com"; "apple.com"; "facebook.com"; "twitter.com";
      "linkedin.com"; "stackoverflow.com" ];
  suspicious_tlds := [ "xyz"; "top"; "tk"; "gq"; "cf"; "ru"; "cn"; "bond" ]
|}.

(* ================================================================== *)
(** * Domain reputation ([get_domain_reputation]) *)
(* ================================================================== *)

Module Url.

Definition is_scheme_char (c : ascii) : bool :=
  let n := nat_of_ascii c in
  (Str.is_lower c || Str.is_upper c || (Nat.leb 48 n && Nat.leb n 57)
   || Ascii.eqb c "+" || Ascii.eqb c "-" || Ascii.eqb c ".")%bool.

Fixpoint all_chars (p : ascii -> bool) (s : string) : bool :=
  match s with
  | EmptyString => true
  | String c s' => (p c && all_chars p s')%bool
  end.

(** What is left of a URL once its scheme is split off: the text after
    the first [:] when everything before it is a scheme name. *)
Definition after_scheme (url : string) : string :=
  match Str.find ":" url with
  | Some (S i) =>
      let scheme := Str.take (S i) url in
      match scheme with
      | String c _ =>
          if ((Str.is_lower c || Str.is_upper c) && all_chars is_scheme_char scheme)%bool
          then Str.drop (S (S i)) url
          else url
      | EmptyString => url
      end
  | _ => url
  end.

Fixpoint until_delim (s : string) : string :=
  match s with
  | EmptyString => EmptyString
  | String c s' =>
      if (Ascii.eqb c "/" || Ascii.eqb c "?" || Ascii.eqb c "#")%bool
      then EmptyString
      else String c (until_delim s')
  end.

(** The URL as [urlsplit] reads it: without leading controls and blanks
    (the characters up to code 32), and without any tab, carriage return
    or line feed. *)
Definition cleaned (url : string) : string :=
  Str.remove (fun c => let n := nat_of_ascii c in
                       (Nat.eqb n 9 || Nat.eqb n 13 || Nat.eqb n 10)%bool)
    (Str.lstrip_chars (fun c => Nat.leb (nat_of_ascii c) 32) url).

Definition is_digit (c : ascii) : bool :=
  let n := nat_of_ascii c in (Nat.leb 48 n && Nat.leb n 57)%bool.

Definition is_hex_digit (c : ascii) : bool :=
  let n := nat_of_ascii c in
  (is_digit c || (Nat.leb 65 n && Nat.leb n 70) || (Nat.leb 97 n && Nat.leb n 102))%bool.

(** [int(s, 10)] for a string of decimal digits *)
Fixpoint decimal_value (s : string) (acc : Z) : Z :=
  match s with
  | EmptyString => acc
  | String c s' => decimal_value s' (10 * acc + (Z.of_nat (nat_of_ascii c) - 48))%Z
  end.

(** [IPv4Address._parse_octet]: one to three decimal digits, no leading
    zero but in [0], at most 255 *)
Definition is_octet (octet_str : string) : bool :=
  (negb (String.eqb octet_str "")
   && all_chars is_digit octet_str
   && Nat.leb (String.length octet_str) 3
   && (String.eqb octet_str "0" || negb (Str.startswith "0" octet_str))
   && (decimal_value octet_str 0 <=? 255)%Z)%bool.

(** [IPv4Address(addr_str)] does not raise. *)
Definition is_ipv4 (addr_str : string) : bool :=
  (negb (Str.mem_char "/" addr_str)
   && negb (String.eqb addr_str "")
   && let octets := Str.split "." addr_str in
      (Nat.eqb (List.length octets) 4 && forallb is_octet octets))%bool.

(** [IPv6Address._parse_hextet]: one to four hexadecimal digits *)
Definition is_hextet (hextet_str : string) : bool :=
  (all_chars is_hex_digit hextet_str
   && Nat.leb (String.length hextet_str) 4
   && negb (String.eqb hextet_str ""))%bool.

(** The indexes from [i] on of the empty members of [parts] *)
Fixpoint empty_indexes (i : nat) (parts : list string) : list nat :=
  match parts with
  | [] => []
  | part :: parts' =>
      if String.eqb part "" then i :: empty_indexes (S i) parts'
      else empty_indexes (S i) parts'
  end.

(** [IPv6Address._ip_int_from_string(ip_str)] does not raise. *)
Definition is_ipv6_groups (ip_str : string) : bool :=
  if String.eqb ip_str "" then false
  else
    let parts := Str.split ":" ip_str in
    (* An IPv6 address needs at least 2 colons (3 parts). *)
    if Nat.ltb (List.length parts) 3 then false
    else
      (* An IPv4-style suffix stands for two parts. *)
      let last_part := List.last parts EmptyString in
      let suffix_ok := (negb (Str.mem_char "." last_part) || is_ipv4 last_part)%bool in
      let parts :=
        if Str.mem_char "." last_part
        then (List.removelast parts ++ ["0"; "0"])%list else parts in
      let count := List.length parts in
      if (negb suffix_ok || Nat.ltb 9 count)%bool then false
      else
        let first_empty := String.eqb (List.hd EmptyString parts) "" in
        let last_empty := String.eqb (List.last parts EmptyString) "" in
        (* Disregarding the endpoints, find '::' with nothing in between. *)
        match empty_indexes 1 (List.removelast (List.tl parts)) with
        | _ :: _ :: _ => false
        | [skip_index] =>
            let parts_hi := skip_index in
            let parts_lo := (count - skip_index - 1)%nat in
            let parts_hi' := if first_empty then (parts_hi - 1)%nat else parts_hi in
            let parts_lo' := if last_empty then (parts_lo - 1)%nat else parts_lo in
            (negb (first_empty && negb (Nat.eqb parts_hi' 0))
             && negb (last_empty && negb (Nat.eqb parts_lo' 0))
             && Nat.leb 1 (8 - (parts_hi' + parts_lo'))
             && forallb is_hextet (firstn parts_hi' parts)
             && forallb is_hextet (skipn (count - parts_lo') parts))%bool
        | [] =>
            (Nat.eqb count 8 && negb first_empty && negb last_empty
             && forallb is_hextet parts)%bool
        end.

(** [IPv6Address(addr_str)] does not raise: the groups, and after a [%] a
    scope that is not empty and has no [%]. *)
Definition is_ipv6 (addr_str : string) : bool :=
  (negb (Str.mem_char "/" addr_str)
   && match Str.partition "%" addr_str with
      | (addr, None) => is_ipv6_groups addr
      | (addr, Some scope_id) =>
          (negb (String.eqb scope_id "") && negb (Str.mem_char "%" scope_id)
           && is_ipv6_groups addr)%bool
      end)%bool.

(** [re.match(r"\Av[a-fA-F0-9]+\..+\Z", hostname)] *)
Definition is_ipvfuture (hostname : string) : bool :=
  match hostname with
  | String "v" version =>
      let rest := Str.lstrip_chars is_hex_digit version in
      (negb (String.eqb rest version)
       && match rest with
          | String "." (String _ _) => true
          | _ => false
          end)%bool
  | _ => false
  end.

(** [_check_bracketed_host] *)
Definition check_bracketed_host (hostname : string) : outcome unit :=
  if Str.startswith "v" hostname then
    if is_ipvfuture hostname then Return tt
    else Raise (ValueError "IPvFuture address is invalid")
  else if is_ipv4 hostname then
    Raise (ValueError "An IPv4 address cannot be in brackets")
  else if is_ipv6 hostname then Return tt
  else Raise (ValueError (Str.repr hostname
                          ++ " does not appear to be an IPv4 or IPv6 address")).

(** [_check_bracketed_netloc] *)
Definition check_bracketed_netloc (netloc : string) : outcome unit :=
  let hostname_and_port := Str.last_field "@" netloc in
  match Str.partition "[" hostname_and_port with
  | (before_bracket, Some bracketed) =>
      (* No data is allowed before a bracket. *)
      if negb (String.eqb before_bracket "") then Raise (ValueError "Invalid IPv6 URL")
      else
        let '(hostname, port) :=
          match Str.partition "]" bracketed with
          | (hostname, Some port) => (hostname, port)
          | (hostname, None) => (hostname, EmptyString)
          end in
        (* No data is allowed after the bracket but before the port delimiter. *)
        if (negb (String.eqb port "") && negb (Str.startswith ":" port))%bool
        then Raise (ValueError "Invalid IPv6 URL")
        else check_bracketed_host hostname
  | (_, None) =>
      check_bracketed_host (fst (Str.partition ":" hostname_and_port))
  end.

(** [urlparse(url).netloc]: after the scheme, the text between [//] and
    the next [/], [?] or [#]; empty when the rest does not start with
    [//].  [urlparse] raises [ValueError] when only one of the brackets
    [[] and []] is in that text, and when both are and the host is not an
    IPv6 or IPvFuture address in brackets (the check of the bracketed
    host is the one of current CPython, [_check_bracketed_netloc]).  (Its
    last check, of characters that turn into a delimiter under NFKC
    normalization, never fails on characters below 256.) *)
Definition netloc (url : string) : outcome string :=
  let rest := after_scheme (cleaned url) in
  if Str.startswith "//" rest then
    let netloc := until_delim (Str.drop 2 rest) in
    let opening := Str.mem_char "[" netloc in
    let closing := Str.mem_char "]" netloc in
    if ((opening && negb closing) || (closing && negb opening))%bool
    then Raise (ValueError "Invalid IPv6 URL")
    else if (opening && closing)%bool
         then _ <- check_bracketed_netloc netloc ;; Return netloc
         else Return netloc
  else Return EmptyString.

End Url.

Record DomainReputation : Type := {
  domain : string;
  tld : string;
  reputation_score : Py64.float;
  reputation_reason : list string
}.

Definition get_domain_reputation (self : WebpagePhishingDetector) (url : string)
  : outcome DomainReputation :=
  netloc <- Url.netloc url ;;
  let domain := Str.lower netloc in
  (* Remove "www." *)
  let domain := if Str.startswith "www." domain then Str.drop 4 domain else domain in
  let reputation_score := 0.5%py in
  let reputation_reason : list string := [] in
  (* Trusted domain: reduce risk *)
  let '(reputation_score, reputation_reason) :=
    if existsb (fun td => Str.endswith td domain) (trusted_domains self)
    then (0.0%py, (reputation_reason ++ ["trusted_domain"])%list)
    else (reputation_score, reputation_reason) in
  (* Suspicious TLD: increase risk *)
  let tld := Str.last_field "." domain in
  let '(reputation_score, reputation_reason) :=
    if existsb (String.eqb tld) (suspicious_tlds self)
    then (0.8%py, (reputation_reason ++ ["suspicious_tld"])%list)
    else (reputation_score, reputation_reason) in
  Return {| domain := domain;
            tld := tld;
            reputation_score := reputation_score;
            reputation_reason := reputation_reason |}.

(* ================================================================== *)
(** * Features of a page ([WebpageFeatures]) *)
(* ================================================================== *)

Record WebpageFeatures : Type := {
  title : option string;        (* [None] when [soup.title.string] is [None] *)
  forms_count : Z;
  input_fields : list string;
  suspicious_keywords_found : list string;  (* the field [suspicious_keywords] *)
  popup_indicators : Z;
  ads_count : Z;
  suspicious_elements : list string;
  text_content : string;
  meta_description : string;
  javascript_suspicious : bool;
  iframe_count : Z;
  hidden_elements : Z;
  urgency_indicators : Z;
  social_engineering_signals : list string;
  form_actions : list string;
  suspicious_scripts : list string
}.

(* ================================================================== *)
(** * The heuristic scorer ([calculate_content_risk_score]) *)
(* ================================================================== *)

Record ContentAnalysis : Type := {
  total_risk_score : Py64.float;
  risk_factors : dict Py64.float
}.

(** [len(l)] as an int *)
Definition len {A : Type} (l : list A) : Z := Z.of_nat (List.length l).

(** One [if] block of the scorer: when the trigger holds, the factor's
    value is computed, stored under its name and added to the running
    score. *)
Definition factor (name : string) (trigger : bool) (value : outcome Py64.float)
  (st : Py64.float * dict Py64.float) : outcome (Py64.float * dict Py64.float) :=
  if trigger then
    v <- value ;;
    Return ((fst st + v)%py, dict_set name v (snd st))
  else Return st.

(** [min(n * weight, cap)] for an int [n] *)
Definition capped (n : Z) (weight cap : Py64.float) : outcome Py64.float :=
  x <- float_of_int n ;;
  Return (Py64.min (x * weight)%py cap).

Definition calculate_content_risk_score (features : WebpageFeatures)
  : outcome ContentAnalysis :=
  let st := (0.0%py, []) in
  (* Forms *)
  st <- factor "forms_present" (0 <? forms_count features)%Z
          (capped (forms_count features) 0.35%py 0.7%py) st ;;
  (* Password fields *)
  let password_fields :=
    filter (fun field => Str.contains "password" field) (input_fields features) in
  st <- factor "password_fields" (negb (Nat.eqb (List.length password_fields) 0))
          (Return 0.6%py) st ;;
  (* Suspicious keywords *)
  st <- factor "suspicious_keywords"
          (negb (Nat.eqb (List.length (suspicious_keywords_found features)) 0))
          (capped (len (suspicious_keywords_found features)) 0.15%py 0.6%py) st ;;
  (* Social engineering *)
  st <- factor "social_engineering"
          (negb (Nat.eqb (List.length (social_engineering_signals features)) 0))
          (capped (len (social_engineering_signals features)) 0.25%py 0.7%py) st ;;
  (* Urgency indicators *)
  st <- factor "urgency_tactics" (0 <? urgency_indicators features)%Z
          (capped (urgency_indicators features) 0.2%py 0.5%py) st ;;
  (* JavaScript suspicious *)
  st <- factor "suspicious_javascript" (javascript_suspicious features)
          (Return 0.2%py) st ;;
  (* Popups *)
  st <- factor "popups" (0 <? popup_indicators features)%Z
          (capped (popup_indicators features) 0.25%py 0.5%py) st ;;
  (* Hidden elements *)
  st <- factor "hidden_elements" (5 <? hidden_elements features)%Z
          (capped (hidden_elements features - 5) 0.1%py 0.4%py) st ;;
  (* Iframes *)
  st <- factor "iframes" (0 <? iframe_count features)%Z
          (capped (iframe_count features) 0.1%py 0.2%py) st ;;
  (* Ads *)
  st <- factor "excessive_ads" (5 <? ads_count features)%Z
          (capped (ads_count features - 5) 0.06%py 0.2%py) st ;;
  (* Suspicious elements *)
  st <- factor "suspicious_elements"
          (negb (Nat.eqb (List.length (suspicious_elements features)) 0))
          (capped (len (suspicious_elements features)) 0.2%py 0.6%py) st ;;
  Return {| total_risk_score := Py64.min (fst st) 1.0%py;
            risk_factors := snd st |}.

(* ================================================================== *)
(** * The decision (steps 5 to 7 of [detect_webpage_phishing]) *)
(* ================================================================== *)

Record Decision : Type := {
  is_phishing : bool;
  confidence : Py64.float;
  combined_risk_score : Py64.float
}.

(** [content_score] is the scorer's total, [llm_score] the model's
    likelihood already divided by 100. *)
Definition blend (content_score llm_score : Py64.float) : Py64.float :=
  ((content_score * 0.50) + (llm_score * 0.50))%py.

Definition decide (content_score llm_score reputation : Py64.float) : Decision :=
  let combined_score := blend content_score llm_score in
  (* Adjust with domain reputation *)
  let combined_score :=
    if (reputation =? 0.0)%py then
      (* Trusted: cap score *)
      Py64.min combined_score 0.2%py
    else if (0.8 <=? reputation)%py then
      (* Suspicious TLD: boost score *)
      Py64.min (combined_score + 0.2)%py 1.0%py
    else combined_score in
  (* Final decision *)
  {| is_phishing := (0.5 <? combined_score)%py;
     confidence := (Py64.min (Py64.abs (combined_score - 0.5) * 2.0) 1.0 * 100.0)%py;
     combined_risk_score := combined_score |}.

(* ================================================================== *)
(** * Regular expressions ([re.search] with [re.I]) *)
(* ================================================================== *)

(** The syntax the detector's patterns use: literals, [|], the postfix
    operators [?] and [*], [.], the escapes [\s], [\d] and escaped
    punctuation, and a negated range [[^a-z]].  Matching is by derivatives. *)
Module Re.

Inductive cset : Type :=
| CChar (c : ascii)
| CDot                         (* any character but a newline *)
| CAll
| CSpace
| CDigit
| CNotRange (lo hi : ascii).

Inductive regex : Type :=
| Void
| Eps
| Sym (cs : cset)
| Cat (r s : regex)
| Alt (r s : regex)
| Star (r : regex).

Definition in_cset (cs : cset) (a : ascii) : bool :=
  match cs with
  | CChar c => Ascii.eqb a c
  | CDot => negb (Nat.eqb (nat_of_ascii a) 10)
  | CAll => true
  | CSpace => Str.is_space a
  | CDigit => (Nat.leb 48 (nat_of_ascii a) && Nat.leb (nat_of_ascii a) 57)%bool
  | CNotRange lo hi =>
      negb (Nat.leb (nat_of_ascii lo) (nat_of_ascii a)
            && Nat.leb (nat_of_ascii a) (nat_of_ascii hi))%bool
  end.

Definition cat (r s : regex) : regex :=
  match r, s with
  | Void, _ | _, Void => Void
  | Eps, _ => s
  | _, Eps => r
  | _, _ => Cat r s
  end.

Definition alt (r s : regex) : regex :=
  match r, s with
  | Void, _ => s
  | _, Void => r
  | _, _ => Alt r s
  end.

Fixpoint nullable (r : regex) : bool :=
  match r with
  | Void => false
  | Eps => true
  | Sym _ => false
  | Cat r s => (nullable r && nullable s)%bool
  | Alt r s => (nullable r || nullable s)%bool
  | Star _ => true
  end.

Fixpoint deriv (a : ascii) (r : regex) : regex :=
  match r with
  | Void => Void
  | Eps => Void
  | Sym cs => if in_cset cs a then Eps else Void
  | Cat r s =>
      alt (cat (deriv a r) s) (if nullable r then deriv a s else Void)
  | Alt r s => alt (deriv a r) (deriv a s)
  | Star r => cat (deriv a r) (Star r)
  end.

Fixpoint matches (r : regex) (s : string) : bool :=
  match s with
  | EmptyString => nullable r
  | String a s' => matches (deriv a r) s'
  end.

Definition escape (c : ascii) : cset :=
  if Ascii.eqb c "s" then CSpace
  else if Ascii.eqb c "d" then CDigit
  else CChar c.

Definition flush (seq : regex) (last : option regex) : regex :=
  match last with Some a => cat seq a | None => seq end.

(** [alts] holds the alternatives read so far, [seq] the current one and
    [last] its last atom, which a postfix operator may still claim. *)
Fixpoint parse (s : string) (alts seq : regex) (last : option regex) : regex :=
  match s with
  | EmptyString => alt alts (flush seq last)
  | String "|" s' => parse s' (alt alts (flush seq last)) Eps None
  | String "?" s' =>
      match last with
      | Some a => parse s' alts (cat seq (Alt Eps a)) None
      | None => parse s' alts seq None
      end
  | String "*" s' =>
      match last with
      | Some a => parse s' alts (cat seq (Star a)) None
      | None => parse s' alts seq None
      end
  | String "\" (String c s') =>
      parse s' alts (flush seq last) (Some (Sym (escape c)))
  | String "[" (String "^" (String lo (String "-" (String hi (String "]" s'))))) =>
      parse s' alts (flush seq last) (Some (Sym (CNotRange lo hi)))
  | String "." s' => parse s' alts (flush seq last) (Some (Sym CDot))
  | String c s' => parse s' alts (flush seq last) (Some (Sym (CChar c)))
  end.

(** [re.compile(pattern)] *)
Definition compile (pattern : string) : regex := parse pattern Void Eps None.

(** [re.search(pattern, s)]: a match anywhere in [s] *)
Definition search (pattern s : string) : bool :=
  matches (cat (Star (Sym CAll)) (cat (compile pattern) (Star (Sym CAll)))) s.

(** [re.search(pattern, s, re.I)] for a pattern written in lower case *)
Definition search_i (pattern s : string) : bool := search pattern (Str.lower s).

End Re.

(* ================================================================== *)
(** * The parsed document (BeautifulSoup's queries) *)
(* ================================================================== *)

Inductive matcher : Type :=
| Exactly (value : string)
| Regex (pattern : string).       (* [re.compile(pattern, re.I)] *)

(** The arguments of [find_all]: a tag name, attribute filters and a filter
    on the tag's string. *)
Record query : Type := {
  q_name : option string;
  q_attrs : list (string * matcher);
  q_string : option matcher
}.

Definition by_tag (name : string) : query :=
  {| q_name := Some name; q_attrs := []; q_string := None |}.

Definition by_attr (attr : string) (m : matcher) : query :=
  {| q_name := None; q_attrs := [(attr, m)]; q_string := None |}.

Definition by_tag_attr (name attr : string) (m : matcher) : query :=
  {| q_name := Some name; q_attrs := [(attr, m)]; q_string := None |}.

Definition by_tag_string (name : string) (m : matcher) : query :=
  {| q_name := Some name; q_attrs := []; q_string := Some m |}.

(** What the extractor asks of a parsed document.  The document itself is
    a tag, as in BeautifulSoup. *)
Class DocumentTree (Tag : Type) : Type := {
  find_all : Tag -> query -> list Tag;     (* [tag.find_all(...)] *)
  get : Tag -> string -> option string;    (* [tag.get(name)] *)
  tag_string : Tag -> option string;       (* [tag.string] *)
  get_text : Tag -> string                 (* [tag.get_text()] *)
}.

(** [tag.find(...)] *)
Definition find {Tag : Type} `{DocumentTree Tag} (t : Tag) (q : query) : option Tag :=
  hd_error (find_all t q).

(** [tag.get(name, '')] *)
Definition get_or_empty {Tag : Type} `{DocumentTree Tag} (t : Tag) (name : string)
  : string :=
  match get t name with Some v => v | None => EmptyString end.

(** [list(set(l))]: the distinct members of [l]; Python leaves their order
    open. *)
Definition list_set (l : list string) : list string := nodup string_dec l.

(* ================================================================== *)
(** * The feature extractor ([extract_webpage_features]) *)
(* ================================================================== *)

Definition suspicious_js_patterns : list string :=
  [ "eval("; "document.write"; "unescape"; "fromcharcode";
    "atob("; "btoa("; "innerhtml"; "location.href";
    "window.location"; "document.cookie"; "base64" ].

Definition sensitive_patterns : list string :=
  [ "social security|ssn|social security number";
    "credit card|card number|cvv|cvc|expiry";
    "bank account|routing number|account number";
    "driver.?license|license number";
    "passport|passport number" ].

Section Extractor.
Context {Tag : Type} `{DocumentTree Tag}.

(** The [type:name:placeholder] descriptor of an input *)
Definition input_descriptor (inp : Tag) : string :=
  let input_type := Str.lower (get_or_empty inp "type") in
  let input_name := Str.lower (get_or_empty inp "name") in
  let input_placeholder := Str.lower (get_or_empty inp "placeholder") in
  input_type ++ ":" ++ input_name ++ ":" ++ input_placeholder.

(** One round of the loop over the forms *)
Definition scan_form (acc : list string * list string) (form : Tag)
  : list string * list string :=
  let '(input_fields, form_actions) := acc in
  let action := get_or_empty form "action" in
  let form_actions :=
    if String.eqb action "" then form_actions else (form_actions ++ [action])%list in
  let inputs := find_all form (by_tag "input") in
  let input_fields := (input_fields ++ map input_descriptor inputs)%list in
  (input_fields, form_actions).

(** One round of the loop over the scripts: the first pattern found in
    the script's body or source address is recorded, and the scan of that
    script stops. *)
Definition scan_script (acc : bool * list string) (script : Tag)
  : bool * list string :=
  let '(js_suspicious, suspicious_scripts) := acc in
  let script_content :=
    match tag_string script with Some s => s | None => EmptyString end in
  let script_src := get_or_empty script "src" in
  match List.find (fun pattern =>
           (Str.contains pattern (Str.lower script_content)
            || Str.contains pattern (Str.lower script_src))%bool)
         suspicious_js_patterns with
  | Some pattern => (true, (suspicious_scripts ++ [pattern])%list)
  | None => (js_suspicious, suspicious_scripts)
  end.

Definition extract_webpage_features (self : WebpagePhishingDetector) (soup : Tag)
  : WebpageFeatures :=
  (* Basic page info *)
  let title :=
    match find soup (by_tag "title") with
    | Some t => tag_string t
    | None => Some EmptyString
    end in
  let meta_desc :=
    match find soup (by_tag_attr "meta" "name" (Exactly "description")) with
    | Some meta_tag => get_or_empty meta_tag "content"
    | None => EmptyString
    end in
  (* Form analysis *)
  let forms := find_all soup (by_tag "form") in
  let forms_count := len forms in
  let '(input_fields, form_actions) := fold_left scan_form forms ([], []) in
  (* Get all text content *)
  let text_content := Str.lower (get_text soup) in
  (* Suspicious keywords, social engineering, urgency *)
  let suspicious_found :=
    filter (fun kw => Str.contains kw text_content) (suspicious_keywords self) in
  let social_signals :=
    filter (fun phrase => Str.contains phrase text_content)
           (social_engineering_phrases self) in
  let urgency_count :=
    len (filter (fun word => Str.contains word text_content) (urgency_words self)) in
  (* Popup and modal detection *)
  let popup_indicators := 0%Z in
  let popup_indicators :=
    (popup_indicators
     + len (find_all soup (by_attr "onclick" (Regex "window\.open|popup|modal"))))%Z in
  let popup_indicators :=
    (popup_indicators
     + len (find_all soup (by_tag_string "script" (Regex "alert\(|confirm\(|prompt\("))))%Z in
  let popup_indicators :=
    (popup_indicators
     + len (find_all soup (by_attr "class" (Regex "popup|modal|overlay"))))%Z in
  let popup_indicators :=
    (popup_indicators
     + len (find_all soup (by_attr "data-toggle" (Exactly "modal"))))%Z in
  (* Ads *)
  let ads_count := 0%Z in
  let ads_count :=
    (ads_count
     + len (find_all soup (by_attr "class" (Regex "ad[^a-z]|banner|advertisement|sponsor"))))%Z in
  let ads_count :=
    (ads_count
     + len (find_all soup (by_attr "id" (Regex "ad[^a-z]|banner|advertisement|sponsor"))))%Z in
  (* Iframes *)
  let iframe_count := len (find_all soup (by_tag "iframe")) in
  (* Hidden elements *)
  let hidden_elements := 0%Z in
  let hidden_elements :=
    (hidden_elements
     + len (find_all soup
              (by_attr "style" (Regex "display:\s*none|visibility:\s*hidden"))))%Z in
  let hidden_elements :=
    (hidden_elements + len (find_all soup (by_attr "type" (Exactly "hidden"))))%Z in
  (* JavaScript analysis *)
  let scripts := find_all soup (by_tag "script") in
  let '(js_suspicious, suspicious_scripts) :=
    fold_left scan_script scripts (false, []) in
  (* Suspicious page elements *)
  let suspicious_elements : list string := [] in
  let password_fields :=
    find_all soup (by_tag_attr "input" "type" (Exactly "password")) in
  let suspicious_elements :=
    match password_fields with
    | [] => suspicious_elements
    | _ :: _ =>
        (suspicious_elements
         ++ [("password_fields:" ++ Str.of_int (len password_fields))%string])%list
    end in
  let suspicious_elements :=
    fold_left (fun acc pattern =>
                 if Re.search_i pattern text_content
                 then (acc ++ [("sensitive_data_request:" ++ pattern)%string])%list
                 else acc)
              sensitive_patterns suspicious_elements in
  let suspicious_elements :=
    if (2 <? forms_count)%Z
    then (suspicious_elements ++ [("multiple_forms:" ++ Str.of_int forms_count)%string])%list
    else suspicious_elements in
  let security_images :=
    find_all soup (by_tag_attr "img" "src" (Regex "security|secure|ssl|verified|badge")) in
  let suspicious_elements :=
    if (3 <? len security_images)%Z
    then (suspicious_elements
          ++ [("excessive_security_badges:" ++ Str.of_int (len security_images))%string])%list
    else suspicious_elements in
  let suspicious_elements :=
    if Re.search_i "countdown|timer|expires?.*\d|time.*left" text_content
    then (suspicious_elements ++ ["countdown_timer"])%list
    else suspicious_elements in
  let suspicious_elements :=
    if Re.search_i "error.*occurred|something.*wrong|try.*again|failed.*login" text_content
    then (suspicious_elements ++ ["fake_error_messages"])%list
    else suspicious_elements in
  {| title := title;
     forms_count := forms_count;
     input_fields := input_fields;
     suspicious_keywords_found := suspicious_found;
     popup_indicators := popup_indicators;
     ads_count := ads_count;
     suspicious_elements := suspicious_elements;
     text_content := Str.take 2000 text_content;
     meta_description := meta_desc;
     javascript_suspicious := js_suspicious;
     iframe_count := iframe_count;
     hidden_elements := hidden_elements;
     urgency_indicators := urgency_count;
     social_engineering_signals := social_signals;
     form_actions := form_actions;
     suspicious_scripts := list_set suspicious_scripts |}.

End Extractor.

(* ================================================================== *)
(** * Python values (what [json.loads] returns) *)
(* ================================================================== *)

#[local] Set Warnings "-register-all".

Inductive pyval : Type :=
| PyNone
| PyBool (b : bool)
| PyInt (n : Z)
| PyFloat (x : Py64.float)
| PyStr (s : string)
| PyList (items : list pyval)
| PyDict (entries : list (string * pyval)).

Definition py_strs (l : list string) : pyval := PyList (map PyStr l).

(** [bool(v)] *)
Definition truthy (v : pyval) : bool :=
  match v with
  | PyNone => false
  | PyBool b => b
  | PyInt n => negb (n =? 0)%Z
  | PyFloat x => negb (x =? 0.0)%py
  | PyStr s => negb (String.eqb s "")
  | PyList items => negb (Nat.eqb (List.length items) 0)
  | PyDict entries => negb (Nat.eqb (List.length entries) 0)
  end.

(** [type(v).__name__] *)
Definition type_name (v : pyval) : string :=
  match v with
  | PyNone => "NoneType"
  | PyBool _ => "bool"
  | PyInt _ => "int"
  | PyFloat _ => "float"
  | PyStr _ => "str"
  | PyList _ => "list"
  | PyDict _ => "dict"
  end.

(** [v[key]] for a string [key] *)
Definition subscript (v : pyval) (key : string) : outcome pyval :=
  match v with
  | PyDict entries =>
      match dict_get key entries with
      | Some x => Return x
      | None => Raise (KeyError key)
      end
  | PyStr _ => Raise (TypeError "string indices must be integers, not 'str'")
  | PyList _ => Raise (TypeError "list indices must be integers or slices, not str")
  | _ => Raise (TypeError ("'" ++ type_name v ++ "' object is not subscriptable"))
  end.

(** [v / 100.0] *)
Definition div_100 (v : pyval) : outcome Py64.float :=
  match v with
  | PyInt n => x <- float_of_int n ;; Return (x / 100.0)%py
  | PyFloat x => Return (x / 100.0)%py
  | PyBool b => Return ((if b then 1.0 else 0.0) / 100.0)%py
  | _ => Raise (TypeError ("unsupported operand type(s) for /: '" ++ type_name v
                           ++ "' and 'float'"))
  end.

(** [iter(v)]: the members of a list, the characters of a string, the keys
    of a dict; nothing else can be iterated. *)
Definition py_iter (v : pyval) : outcome (list pyval) :=
  match v with
  | PyList items => Return items
  | PyStr s => Return (map (fun c => PyStr (String c EmptyString)) (list_ascii_of_string s))
  | PyDict entries => Return (map PyStr (dict_keys entries))
  | _ => Raise (TypeError ("'" ++ type_name v ++ "' object is not iterable"))
  end.

(* ================================================================== *)
(** * The text of a Python value ([str] and [repr]) *)
(* ================================================================== *)

(** [num / den] divided by [10^k] *)
Definition scaled (num den k : Z) : Z * Z :=
  if (0 <=? k)%Z then (num, (den * 10 ^ k)%Z) else ((num * 10 ^ (- k))%Z, den).

(** The position of the decimal point of a positive [num / den]: the [d]
    with [10^(d-1) <= num / den < 10^d]. *)
Definition decimal_point (num den : Z) : Z :=
  let fix search (fuel : nat) (d : Z) : Z :=
    match fuel with
    | O => d
    | S fuel' =>
        let '(n, m) := scaled num den (d - 1) in
        if (n <? m)%Z then search fuel' (d - 1)%Z
        else if (10 * m <=? n)%Z then search fuel' (d + 1)%Z
        else d
    end in
  search 8%nat ((Z.log2 num - Z.log2 den) * 30103 / 100000)%Z.

(** The float nearest to [d * 10^k] *)
Definition of_decimal (d k : Z) : Py64.float :=
  if (0 <=? k)%Z then Py64.ratio (d * 10 ^ k) 1 else Py64.ratio d (10 ^ (- k)).

(** The shortest decimal that reads back as the float [m * 2^e], and the
    nearest to it of that length: its digits as an int, and the weight
    [10^k] of its last digit. *)
Definition shortest_decimal (m : positive) (e : Z) : Z * Z :=
  let num := if (0 <=? e)%Z then (Z.pos m * 2 ^ e)%Z else Z.pos m in
  let den := if (0 <=? e)%Z then 1%Z else (2 ^ (- e))%Z in
  let point := decimal_point num den in
  let x := S754_finite false m e in
  let fix try (fuel : nat) (digits : Z) : Z * Z :=
    match fuel with
    | O => (0, 0)%Z
    | S fuel' =>
        let k := (point - digits)%Z in
        let '(n, d) := scaled num den k in
        let below := (n / d)%Z in
        let above := (below + 1)%Z in
        let below_ok := (negb (below =? 0)%Z && (of_decimal below k =? x)%py)%bool in
        let above_ok := (of_decimal above k =? x)%py in
        if (below_ok && above_ok)%bool
        then (if (2 * (n mod d) <=? d)%Z then below else above, k)
        else if below_ok then (below, k)
        else if above_ok then (above, k)
        else try fuel' (digits + 1)%Z
    end in
  try 17%nat 1%Z.

Fixpoint zeros (n : nat) : string :=
  match n with O => EmptyString | S n' => String "0" (zeros n') end.

(** [s.rstrip('0')] *)
Fixpoint rstrip_zeros (s : string) : string :=
  match s with
  | EmptyString => EmptyString
  | String c s' =>
      match rstrip_zeros s' with
      | EmptyString => if Ascii.eqb c "0" then EmptyString else String c EmptyString
      | r => String c r
      end
  end.

(** [repr(x)] of a float: the shortest decimal that reads back as [x],
    written with an exponent when the decimal point falls more than 16
    places after, or more than 3 zeros before, the first digit. *)
Definition float_repr (x : Py64.float) : string :=
  match x with
  | S754_nan => "nan"
  | S754_infinity s => if s then "-inf" else "inf"
  | S754_zero s => if s then "-0.0" else "0.0"
  | S754_finite s m e =>
      let '(d, k) := shortest_decimal m e in
      let all_digits := Str.of_int d in
      let digits := rstrip_zeros all_digits in
      let count := Z.of_nat (String.length digits) in
      let point := (k + Z.of_nat (String.length all_digits))%Z in
      (if s then "-" else "")
      ++ if ((point <=? -4) || (16 <? point))%Z%bool then
           let exponent := (point - 1)%Z in
           Str.take 1 digits
           ++ (if (1 <? count)%Z then "." ++ Str.drop 1 digits else "")
           ++ "e" ++ (if (exponent <? 0)%Z then "-" else "+")
           ++ (if (Z.abs exponent <? 10)%Z then "0" else "")
           ++ Str.of_int (Z.abs exponent)
         else if (point <=? 0)%Z then
           "0." ++ zeros (Z.to_nat (- point)) ++ digits
         else if (point <? count)%Z then
           Str.take (Z.to_nat point) digits ++ "." ++ Str.drop (Z.to_nat point) digits
         else digits ++ zeros (Z.to_nat (point - count)) ++ ".0"
  end.

(** [repr(v)] *)
Fixpoint py_repr (v : pyval) : string :=
  match v with
  | PyNone => "None"
  | PyBool b => if b then "True" else "False"
  | PyInt n => Str.of_int n
  | PyFloat x => float_repr x
  | PyStr s => Str.repr s
  | PyList items => "[" ++ Str.join ", " (map py_repr items) ++ "]"
  | PyDict entries =>
      "{" ++ Str.join ", "
               (map (fun kv => match kv with
                               | (k, x) => Str.repr k ++ ": " ++ py_repr x
                               end) entries)
      ++ "}"
  end.

(** [str(v)], which is also how an f-string shows [v] *)
Definition py_str (v : pyval) : string :=
  match v with
  | PyStr s => s
  | _ => py_repr v
  end.

(** [a == b] for two numbers: an int or a bool against a float is compared
    exactly. *)
Definition int_eq_float (n : Z) (x : Py64.float) : bool :=
  match x with
  | S754_zero _ => (n =? 0)%Z
  | S754_finite s m e =>
      let v := if s then Z.neg m else Z.pos m in
      if (0 <=? e)%Z then (n =? v * 2 ^ e)%Z else (n * 2 ^ (- e) =? v)%Z
  | _ => false
  end.

Definition int_of_bool (b : bool) : Z := if b then 1%Z else 0%Z.

(** [a == b] as a dict uses it for its keys: by value, a number equal to a
    number of another type; the one NaN that [json.loads] gives is found
    again as a key. *)
Definition py_eqb (a b : pyval) : bool :=
  match a, b with
  | PyNone, PyNone => true
  | PyStr s, PyStr t => String.eqb s t
  | PyBool x, PyBool y => Bool.eqb x y
  | PyBool x, PyInt n | PyInt n, PyBool x => (int_of_bool x =? n)%Z
  | PyInt n, PyInt k => (n =? k)%Z
  | PyBool x, PyFloat y | PyFloat y, PyBool x => int_eq_float (int_of_bool x) y
  | PyInt n, PyFloat y | PyFloat y, PyInt n => int_eq_float n y
  | PyFloat x, PyFloat y => ((x =? y)%py || (Py64.is_nan x && Py64.is_nan y))%bool
  | _, _ => false
  end.

(** [hash(v)] raises for a list and for a dict. *)
Definition check_hashable (v : pyval) : outcome unit :=
  match v with
  | PyList _ | PyDict _ => Raise (TypeError ("unhashable type: '" ++ type_name v ++ "'"))
  | _ => Return tt
  end.

(** [list(dict.fromkeys(l))]: each value is hashed, and kept unless an
    equal one was kept before. *)
Fixpoint from_keys (keys l : list pyval) : outcome (list pyval) :=
  match l with
  | [] => Return keys
  | x :: l' =>
      _ <- check_hashable x ;;
      from_keys (if existsb (py_eqb x) keys then keys else (keys ++ [x])%list) l'
  end.

(* ================================================================== *)
(** * The collaborators *)
(* ================================================================== *)

(** The page fetcher and parser ([requests.get] followed by
    [BeautifulSoup]), the text-generation service (its answer to the prompt
    built from a page's features), the JSON decoder, the clock, and the
    text with which the response model (pydantic) refuses red flags that
    are not all strings. *)
Record Services (Tag : Type) : Type := {
  fetch : string -> outcome Tag;
  llm_generate : WebpageFeatures -> outcome string;
  json_loads : string -> outcome pyval;
  now_isoformat : string;
  validation_error : list pyval -> string
}.

Arguments fetch {Tag} _ _.
Arguments llm_generate {Tag} _ _.
Arguments json_loads {Tag} _ _.
Arguments now_isoformat {Tag} _.
Arguments validation_error {Tag} _ _.

(** [scrape_webpage]: any failure of the fetch is caught and reported as
    [None]. *)
Definition scrape_webpage {Tag : Type} (svc : Services Tag) (url : string)
  : option Tag :=
  match fetch svc url with
  | Return soup => Some soup
  | Raise _ => None
  end.

(* ================================================================== *)
(** * The model judgment adapter ([analyze_content_with_llm]) *)
(* ================================================================== *)

Definition degraded_judgment (flag reasoning : string) : pyval :=
  PyDict [ ("phishing_likelihood", PyInt 50);
           ("content_red_flags", PyList [PyStr flag]);
           ("confidence", PyInt 0);
           ("primary_tactics", PyList []);
           ("reasoning", PyStr reasoning) ].

(** [s.find(c)] and [s.rfind(c)] as Python ints, [-1] when absent *)
Definition index_of (o : option nat) : Z :=
  match o with Some i => Z.of_nat i | None => (-1)%Z end.

(** [s[i:j]] for [0 <= i] *)
Definition slice (s : string) (i j : Z) : string :=
  Str.take (Z.to_nat (j - i)) (Str.drop (Z.to_nat i) s).

Definition analyze_content_with_llm {Tag : Type} (svc : Services Tag)
  (features : WebpageFeatures) : pyval :=
  let attempt : outcome pyval :=
    response <- llm_generate svc features ;;
    (* Extract JSON from response *)
    let response_text := Str.strip response in
    let json_start := index_of (Str.find "{" response_text) in
    let json_end := (index_of (Str.rfind "}" response_text) + 1)%Z in
    if (negb (json_start =? -1)%Z && (json_start <? json_end)%Z)%bool then
      let json_text := slice response_text json_start json_end in
      llm_analysis <- json_loads svc json_text ;;
      Return llm_analysis
    else
      Return (degraded_judgment "LLM parsing failed" "Could not parse LLM response")
  in
  match attempt with
  | Return v => v
  | Raise e => degraded_judgment ("LLM error: " ++ exn_str e) "LLM analysis failed"
  end.

(* ================================================================== *)
(** * The pipeline ([detect_webpage_phishing]) *)
(* ================================================================== *)

Definition py_title (t : option string) : pyval :=
  match t with Some s => PyStr s | None => PyNone end.

Definition reputation_dict (r : DomainReputation) : pyval :=
  PyDict [ ("domain", PyStr (domain r));
           ("tld", PyStr (tld r));
           ("reputation_score", PyFloat (reputation_score r));
           ("reputation_reason", py_strs (reputation_reason r)) ].

Definition content_analysis_dict (c : ContentAnalysis) : pyval :=
  PyDict [ ("total_risk_score", PyFloat (total_risk_score c));
           ("risk_factors",
            PyDict (map (fun kv => (fst kv, PyFloat (snd kv))) (risk_factors c))) ].

Definition features_dict (features : WebpageFeatures) : pyval :=
  PyDict [ ("title", py_title (title features));
           ("forms_count", PyInt (forms_count features));
           ("input_fields_sample", py_strs (firstn 10 (input_fields features)));
           ("suspicious_keywords", py_strs (suspicious_keywords_found features));
           ("social_engineering_signals", py_strs (social_engineering_signals features));
           ("popup_indicators", PyInt (popup_indicators features));
           ("ads_count", PyInt (ads_count features));
           ("iframe_count", PyInt (iframe_count features));
           ("hidden_elements", PyInt (hidden_elements features));
           ("urgency_indicators", PyInt (urgency_indicators features));
           ("suspicious_elements", py_strs (suspicious_elements features));
           ("javascript_suspicious", PyBool (javascript_suspicious features));
           ("suspicious_scripts", py_strs (suspicious_scripts features)) ].

(** The result of a failed fetch *)
Definition scrape_failure (url : string) : dict pyval :=
  [ ("url", PyStr url);
    ("error", PyStr "Failed to scrape webpage");
    ("is_phishing", PyBool false);
    ("confidence", PyInt 0) ].

Definition detect_webpage_phishing {Tag : Type} `{DocumentTree Tag}
  (self : WebpagePhishingDetector) (svc : Services Tag) (url : string)
  : outcome (dict pyval) :=
  (* Step 0: Domain reputation check *)
  domain_reputation <- get_domain_reputation self url ;;
  (* Step 1: Scrape webpage *)
  match scrape_webpage svc url with
  | None => Return (scrape_failure url)
  | Some soup =>
      (* Step 2: Extract content features *)
      let features := extract_webpage_features self soup in
      (* Step 3: Calculate content-based risk score *)
      content_analysis <- calculate_content_risk_score features ;;
      (* Step 4: LLM content analysis *)
      let llm_analysis := analyze_content_with_llm svc features in
      (* Step 5: Combine content-based results *)
      let content_score := total_risk_score content_analysis in
      likelihood <- subscript llm_analysis "phishing_likelihood" ;;
      llm_score <- div_100 likelihood ;;
      (* Steps 6 and 7 *)
      let d := decide content_score llm_score (reputation_score domain_reputation) in
      Return [ ("url", PyStr url);
               ("is_phishing", PyBool (is_phishing d));
               ("confidence", PyFloat (confidence d));
               ("combined_risk_score", PyFloat (combined_risk_score d));
               ("domain_reputation", reputation_dict domain_reputation);
               ("content_analysis", content_analysis_dict content_analysis);
               ("llm_analysis", llm_analysis);
               ("webpage_features", features_dict features);
               ("timestamp", PyStr (now_isoformat svc)) ]
  end.

(* ================================================================== *)
(** * Decimal rendering of floats *)
(* ================================================================== *)

(** The integer nearest to [m * 2^e * 100], ties to the even one. *)
Definition hundredths (m : positive) (e : Z) : Z :=
  let num := (Z.pos m * 100)%Z in
  if (0 <=? e)%Z then (num * 2 ^ e)%Z
  else
    let den := (2 ^ (- e))%Z in
    let q := (num / den)%Z in
    let r := (num mod den)%Z in
    match (2 * r ?= den)%Z with
    | Lt => q
    | Gt => (q + 1)%Z
    | Eq => if Z.even q then q else (q + 1)%Z
    end.

Definition two_digits (n : Z) : string :=
  if (n <? 10)%Z then "0" ++ Str.of_int n else Str.of_int n.

(** [f"{x:.2f}"] *)
Definition format_2f (x : Py64.float) : string :=
  match x with
  | S754_nan => "nan"
  | S754_infinity s => if s then "-inf" else "inf"
  | S754_zero s => if s then "-0.00" else "0.00"
  | S754_finite s m e =>
      let q := hundredths m e in
      (if s then "-" else "") ++ Str.of_int (q / 100) ++ "." ++ two_digits (q mod 100)
  end.

(** [round(x, 2)] *)
Definition round_2 (x : Py64.float) : Py64.float :=
  match x with
  | S754_finite s m e =>
      if (0 <=? e)%Z then x
      else
        let q := hundredths m e in
        if (q =? 0)%Z then S754_zero s
        else Py64.ratio (if s then (- q)%Z else q) 100
  | _ => x
  end.

(* ================================================================== *)
(** * The endpoint ([predict_phishing] in [page_api.py]) *)
(* ================================================================== *)

Record PhishingResponse : Type := {
  url : string;
  prediction : Z;          (* 0 = legit, 1 = phishing *)
  risk_score : Py64.float; (* 0-100 scale *)
  red_flags : list string
}.

(** The strings of a list whose members are all strings *)
Definition str_list (v : pyval) : option (list string) :=
  match v with
  | PyList items =>
      fold_right (fun x acc =>
                    match x, acc with
                    | PyStr s, Some l => Some (s :: l)
                    | _, _ => None
                    end) (Some []) items
  | _ => None
  end.

(** [red_flags.extend(render(x) for x in llm_analysis[key])] when [key] is
    in [llm_analysis]: the value is iterated, whatever it is. *)
Definition extend_from (llm_analysis : dict pyval) (key : string)
  (render : pyval -> pyval) (red_flags : list pyval) : outcome (list pyval) :=
  match dict_get key llm_analysis with
  | None => Return red_flags
  | Some v =>
      items <- py_iter v ;;
      Return (red_flags ++ map render items)%list
  end.

(** [d.get(key, {})], read as a dict *)
Definition get_dict (d : dict pyval) (key : string) : dict pyval :=
  match dict_get key d with
  | Some (PyDict entries) => entries
  | _ => []
  end.

(** The heuristic factors worth showing *)
Definition factor_flags (risk_factors : dict pyval) : list string :=
  flat_map (fun kv =>
              match snd kv with
              | PyFloat score =>
                  if (0.1 <? score)%py
                  then [Str.title (Str.replace_char "_" " " (fst kv)) ++ ": " ++ format_2f score]
                  else []
              | _ => []
              end) risk_factors.

(** The red flags as the endpoint collects them (Python values: the
    model's red flags are taken as they come). *)
Definition collect_red_flags (result : dict pyval) : outcome (list pyval) :=
  let red_flags : list pyval := [] in
  (* Add LLM analysis red flags *)
  let llm_analysis := get_dict result "llm_analysis" in
  red_flags <- extend_from llm_analysis "content_red_flags" (fun flag => flag) red_flags ;;
  (* Add primary tactics from LLM *)
  red_flags <- extend_from llm_analysis "primary_tactics"
                 (fun tactic => PyStr ("Tactic: " ++ py_str tactic)) red_flags ;;
  (* Add content analysis risk factors *)
  let content_analysis := get_dict result "content_analysis" in
  let red_flags :=
    if dict_mem "risk_factors" content_analysis
    then (red_flags
          ++ map PyStr (factor_flags (get_dict content_analysis "risk_factors")))%list
    else red_flags in
  (* Add domain reputation issues *)
  let domain_reputation := get_dict result "domain_reputation" in
  let reputation_score :=
    match dict_get "reputation_score" domain_reputation with
    | Some (PyFloat x) => x
    | _ => 0.5%py
    end in
  red_flags <-
    (if (0.8 <=? reputation_score)%py
     then
       reasons <- match dict_get "reputation_reason" domain_reputation with
                  | Some v => py_iter v
                  | None => Return []
                  end ;;
       Return (red_flags
               ++ map (fun reason => PyStr ("Domain: " ++ py_str reason)) reasons)%list
     else Return red_flags) ;;
  (* Remove duplicates and limit number of red flags *)
  keys <- from_keys [] red_flags ;;
  Return (firstn 4 keys).

(** [PhishingResponse(url=..., prediction=..., risk_score=...,
    red_flags=...)]: the response model takes a list of strings as its
    red flags, and refuses the others with a validation error. *)
Definition new_response {Tag : Type} (svc : Services Tag) (url : string)
  (prediction : Z) (risk_score : Py64.float) (red_flags : list pyval)
  : outcome PhishingResponse :=
  match str_list (PyList red_flags) with
  | Some flags =>
      Return {| url := url;
                prediction := prediction;
                risk_score := risk_score;
                red_flags := flags |}
  | None => Raise (ValidationError (validation_error svc red_flags))
  end.

Definition build_response {Tag : Type} (svc : Services Tag) (url : string)
  (result : dict pyval) : outcome PhishingResponse :=
  let is_phishing :=
    match dict_get "is_phishing" result with Some v => truthy v | None => false end in
  combined_risk_score <-
    match dict_get "combined_risk_score" result with
    | Some (PyFloat x) => Return x
    | None => Return 0.0%py
    | Some _ => Raise (TypeError "combined_risk_score is not a float")
    end ;;
  (* Convert risk score to 0-100 scale *)
  let risk_score_100 := round_2 (combined_risk_score * 100.0)%py in
  red_flags <- collect_red_flags result ;;
  (* Convert boolean prediction to int *)
  let prediction := if is_phishing then 1%Z else 0%Z in
  new_response svc url prediction risk_score_100 red_flags.

Definition predict_phishing {Tag : Type} `{DocumentTree Tag}
  (self : WebpagePhishingDetector) (svc : Services Tag) (data_url : string)
  : outcome PhishingResponse :=
  let url := Str.strip data_url in
  (* Basic URL validation *)
  if String.eqb url "" then Raise (HTTPException 400 "URL cannot be empty")
  else
    (* Add a protocol if none is specified *)
    let url :=
      if (Str.startswith "http://" url || Str.startswith "https://" url)%bool
      then url else "https://" ++ url in
    match detect_webpage_phishing self svc url with
    | Raise e => Raise (HTTPException 500 ("Internal server error: " ++ exn_str e))
    | Return result =>
        (* Handle error in result *)
        match dict_get "error" result with
        | Some err =>
            Raise (HTTPException 422
                     ("Analysis failed: "
                      ++ match err with PyStr s => s | _ => "" end))
        | None =>
            match build_response svc url result with
            | Return response => Return response
            | Raise e =>
                Raise (HTTPException 500 ("Internal server error: " ++ exn_str e))
            end
        end
    end.

(* ================================================================== *)
(** * A small document model *)
(* ================================================================== *)

(** Element and text nodes; the queries answer as BeautifulSoup does on
    such a tree (elements in document order; a regular expression is
    searched for in the attribute's text). *)
Inductive node : Type :=
| Text (s : string)
| Element (name : string) (attrs : list (string * string)) (children : list node).

Fixpoint descendants (n : node) : list node :=
  match n with
  | Text _ => []
  | Element _ _ children =>
      flat_map (fun c =>
                  match c with
                  | Text _ => []
                  | Element _ _ _ => c :: descendants c
                  end) children
  end.

Fixpoint node_text (n : node) : string :=
  match n with
  | Text s => s
  | Element _ _ children => fold_right (fun c acc => node_text c ++ acc) "" children
  end.

Fixpoint node_string (n : node) : option string :=
  match n with
  | Text s => Some s
  | Element _ _ [c] => node_string c
  | Element _ _ _ => None
  end.

Definition node_get (n : node) (attr : string) : option string :=
  match n with
  | Text _ => None
  | Element _ attrs _ => dict_get attr attrs
  end.

Definition node_name (n : node) : string :=
  match n with Text _ => "" | Element name _ _ => name end.

Definition matches_value (m : matcher) (v : string) : bool :=
  match m with
  | Exactly value => String.eqb v value
  | Regex pattern => Re.search_i pattern v
  end.

Definition matches_query (q : query) (n : node) : bool :=
  (match q_name q with Some name => String.eqb (node_name n) name | None => true end
   && forallb (fun am =>
                 match node_get n (fst am) with
                 | Some v => matches_value (snd am) v
                 | None => false
                 end) (q_attrs q)
   && match q_string q with
      | Some m => match node_string n with Some s => matches_value m s | None => false end
      | None => true
      end)%bool.

#[export] Instance node_tree : DocumentTree node := {|
  find_all := fun n q => filter (matches_query q) (descendants n);
  get := node_get;
  tag_string := node_string;
  get_text := node_text
|}.

(* ================================================================== *)
(** * Definitions used in the statements *)
(* ================================================================== *)

(** A float of sign [s] that is not a NaN. *)
Definition signed (s : bool) (x : Py64.float) : Prop :=
  match x with
  | S754_nan => False
  | S754_zero s' | S754_infinity s' | S754_finite s' _ _ => s' = s
  end.

(** A float of sign [s] that is neither zero nor a NaN, with an exponent of
    at least [e] when it is finite. *)
Definition nonzero_from (s : bool) (e : Z) (x : Py64.float) : Prop :=
  match x with
  | S754_infinity s' => s' = s
  | S754_finite s' _ e' => s' = s /\ (e <= e')%Z
  | _ => False
  end.

(** A weight or a cap: a positive finite constant, well above the
    smallest floats. *)
Definition positive_constant (w : Py64.float) : Prop :=
  match w with S754_finite false _ e => (-900 <= e)%Z | _ => False end.

(** The value a block stores, if any. *)
Definition stored (trigger : bool) (value : outcome Py64.float) : option Py64.float :=
  if trigger then match value with Return v => Some v | Raise _ => None end
  else None.

(** Every int the scorer turns into a float is below [2^53]: true of any
    count and any list length of a real document. *)
Definition counts_small (features : WebpageFeatures) : Prop :=
  (forms_count features < 2 ^ 53
   /\ len (suspicious_keywords_found features) < 2 ^ 53
   /\ len (social_engineering_signals features) < 2 ^ 53
   /\ urgency_indicators features < 2 ^ 53
   /\ popup_indicators features < 2 ^ 53
   /\ hidden_elements features - 5 < 2 ^ 53
   /\ iframe_count features < 2 ^ 53
   /\ ads_count features - 5 < 2 ^ 53
   /\ len (suspicious_elements features) < 2 ^ 53)%Z.

(** The scorer's table: each factor's name with its trigger, in the order
    of the blocks. *)
Definition trigger_table (features : WebpageFeatures) : list (string * bool) :=
  [ ("forms_present", (0 <? forms_count features)%Z);
    ("password_fields",
     existsb (fun field => Str.contains "password" field) (input_fields features));
    ("suspicious_keywords", (0 <? len (suspicious_keywords_found features))%Z);
    ("social_engineering", (0 <? len (social_engineering_signals features))%Z);
    ("urgency_tactics", (0 <? urgency_indicators features)%Z);
    ("suspicious_javascript", javascript_suspicious features);
    ("popups", (0 <? popup_indicators features)%Z);
    ("hidden_elements", (0 <? Z.max (hidden_elements features - 5) 0)%Z);
    ("iframes", (0 <? iframe_count features)%Z);
    ("excessive_ads", (0 <? Z.max (ads_count features - 5) 0)%Z);
    ("suspicious_elements", (0 <? len (suspicious_elements features))%Z) ].

(** [min(max(hidden_count - 5, 0) * 0.10, 0.40)] *)
Definition hidden_elements_formula (hidden_count : Z) : Py64.float :=
  Py64.min (Py64.of_Z (Z.max (hidden_count - 5) 0) * 0.10)%py 0.40%py.

(** A record with no signal at all: counts zero, flag false, lists empty. *)
Definition no_signal (features : WebpageFeatures) : Prop :=
  forms_count features = 0%Z /\ input_fields features = []
  /\ suspicious_keywords_found features = [] /\ popup_indicators features = 0%Z
  /\ ads_count features = 0%Z /\ suspicious_elements features = []
  /\ javascript_suspicious features = false /\ iframe_count features = 0%Z
  /\ hidden_elements features = 0%Z /\ urgency_indicators features = 0%Z
  /\ social_engineering_signals features = [] /\ form_actions features = []
  /\ suspicious_scripts features = [].

(** The features of three sample pages: one without any signal, the page
    of the end-to-end scenario, and one with 8 hidden elements and an
    iframe. *)
Definition quiet_page : WebpageFeatures :=
  {| title := Some "Home"; forms_count := 0; input_fields := [];
     suspicious_keywords_found := []; popup_indicators := 0; ads_count := 0;
     suspicious_elements := []; text_content := "welcome";
     meta_description := ""; javascript_suspicious := false;
     iframe_count := 0; hidden_elements := 0; urgency_indicators := 0;
     social_engineering_signals := []; form_actions := [];
     suspicious_scripts := [] |}.

Definition busy_page : WebpageFeatures :=
  {| title := Some "Sign in"; forms_count := 3;
     input_fields := ["password:pass:your password"];
     suspicious_keywords_found := ["urgent"; "verify"; "update"; "confirm"];
     popup_indicators := 0; ads_count := 0;
     suspicious_elements := ["password_fields:1"];
     text_content := "urgent: verify, update and confirm";
     meta_description := ""; javascript_suspicious := false;
     iframe_count := 0; hidden_elements := 3; urgency_indicators := 0;
     social_engineering_signals := []; form_actions := [];
     suspicious_scripts := [] |}.

Definition cluttered_page : WebpageFeatures :=
  {| title := Some "Deals"; forms_count := 0; input_fields := [];
     suspicious_keywords_found := []; popup_indicators := 0; ads_count := 0;
     suspicious_elements := []; text_content := "deals";
     meta_description := ""; javascript_suspicious := false;
     iframe_count := 1; hidden_elements := 8; urgency_indicators := 0;
     social_engineering_signals := []; form_actions := [];
     suspicious_scripts := [] |}.

(** The host the evaluator works on: the URL's network location in lower
    case, without a leading [www.]. *)
Definition host_of (url : string) : outcome string :=
  netloc <- Url.netloc url ;;
  let domain := Str.lower netloc in
  Return (if Str.startswith "www." domain then Str.drop 4 domain else domain).

(** A detector whose lists overlap: a trusted domain under a suspicious
    top-level label. *)
Definition overlapping_detector : WebpagePhishingDetector :=
  {| suspicious_keywords := suspicious_keywords detector;
     social_engineering_phrases := social_engineering_phrases detector;
     urgency_words := urgency_words detector;
     trusted_domains := ["partner.xyz"];
     suspicious_tlds := suspicious_tlds detector |}.

(** A number between 0 and 100 *)
Definition percent (v : pyval) : bool :=
  match v with
  | PyInt n => ((0 <=? n)%Z && (n <=? 100)%Z)%bool
  | PyFloat x => ((0.0 <=? x)%py && (x <=? 100.0)%py)%bool
  | _ => false
  end.

Definition is_str (v : pyval) : bool :=
  match v with PyStr _ => true | _ => false end.

Definition is_list (v : pyval) : bool :=
  match v with PyList _ => true | _ => false end.

Definition is_str_list (v : pyval) : bool :=
  match str_list v with Some _ => true | None => false end.

(** A structurally valid model judgment: a likelihood and a confidence in
    [0, 100], red flags that are a list of strings, tactics that are a
    list, a reasoning that is a string. *)
Definition structurally_valid (v : pyval) : bool :=
  match v with
  | PyDict d =>
      match dict_get "phishing_likelihood" d, dict_get "confidence" d,
            dict_get "content_red_flags" d, dict_get "primary_tactics" d,
            dict_get "reasoning" d with
      | Some likelihood, Some conf, Some flags, Some tactics, Some reasoning =>
          (percent likelihood && percent conf && is_str_list flags
           && is_list tactics && is_str reasoning)%bool
      | _, _, _, _, _ => false
      end
  | _ => false
  end.

(** The text has an opening brace and, at or after the first one, a
    closing brace. *)
Definition has_brace_pair (text : string) : bool :=
  match Str.find "{" text, Str.rfind "}" text with
  | Some i, Some j => Nat.leb i j
  | _, _ => false
  end.

(** The text from the first opening brace to the last closing brace *)
Definition braced (text : string) : string :=
  slice text (index_of (Str.find "{" text)) (index_of (Str.rfind "}" text) + 1).

(** A stand-in for the JSON decoder: it decodes the empty object, as
    [json.loads] does, and rejects every other text. *)
Definition empty_object_decoder (text : string) : outcome pyval :=
  if String.eqb text "{}" then Return (PyDict [])
  else Raise (JSONDecodeError "Expecting value").

(** A page with two copies of one form. *)
Definition sign_in_form : node :=
  Element "form" [("action", "/login")]
    [ Element "input" [("type", "text"); ("name", "user")] [];
      Element "input" [("type", "password"); ("name", "pass")] [] ].

Definition twin_forms_page : node :=
  Element "[document]" []
    [ Element "html" []
        [ Element "head" [] [Element "title" [] [Text "Sign in"]];
          Element "body" [] [sign_in_form; sign_in_form] ] ].

(** Services around [twin_forms_page], with a given answer of the
    text-generation service. *)
Definition sample_services (response : outcome string) : Services node :=
  {| fetch := fun _ => Return twin_forms_page;
     llm_generate := fun _ => response;
     json_loads := empty_object_decoder;
     now_isoformat := "2025-01-01T00:00:00";
     validation_error := fun _ => "1 validation error for PhishingResponse" |}.

(** Services whose page fetch fails. *)
Definition unreachable_services : Services node :=
  {| fetch := fun _ => Raise (RequestException "connection refused");
     llm_generate := fun _ => Return "{}";
     json_loads := empty_object_decoder;
     now_isoformat := "2025-01-01T00:00:00";
     validation_error := fun _ => "1 validation error for PhishingResponse" |}.

(** The fields of a verdict *)
Definition verdict_fields : list string :=
  ["is_phishing"; "confidence"; "combined_risk_score"].

(** The fields only an analysis that ran has *)
Definition analysis_fields : list string :=
  ["combined_risk_score"; "domain_reputation"; "content_analysis";
   "llm_analysis"; "webpage_features"; "timestamp"].

(** The URL the endpoint analyses: the request's URL without surrounding
    blanks, with [https://] put in front when it names no protocol. *)
Definition requested_url (data_url : string) : string :=
  let u := Str.strip data_url in
  if (Str.startswith "http://" u || Str.startswith "https://" u)%bool
  then u else "https://" ++ u.

(** The members of [l] in the order of their first occurrence, leaving out
    those already in [seen]. *)
Fixpoint first_seen_from (seen l : list string) : list string :=
  match l with
  | [] => []
  | x :: l' =>
      if existsb (String.eqb x) seen then first_seen_from seen l'
      else x :: first_seen_from (x :: seen) l'
  end.

Definition first_seen (l : list string) : list string := first_seen_from [] l.

(** The heuristic factors above 0.1, each as its title-cased name and its
    score to two decimals *)
Definition significant_factors (factors : dict Py64.float) : list string :=
  flat_map (fun kv =>
              if (0.1 <? snd kv)%py
              then [Str.title (Str.replace_char "_" " " (fst kv)) ++ ": "
                    ++ format_2f (snd kv)]
              else []) factors.

(** Everything that may become a red flag, in order; the domain's reasons
    carry the prefix the endpoint gives them. *)
Definition candidate_flags (flags tactics : list string) (factors : dict Py64.float)
  (score : Py64.float) (reasons : list string) : list string :=
  (flags
   ++ map (fun tactic => ("Tactic: " ++ tactic)%string) tactics
   ++ significant_factors factors
   ++ (if (0.8 <=? score)%py
       then map (fun reason => ("Domain: " ++ reason)%string) reasons
       else []))%list.

(** The items a field of the model's judgment adds, none when the field
    is absent *)
Definition field_items (field : option pyval) : outcome (list pyval) :=
  match field with
  | Some v => py_iter v
  | None => Return []
  end.

(** Everything that may become a red flag, as Python values: the items of
    the red flags as they are, the items of the tactics as text. *)
Definition candidate_values (flag_items tactic_items : list pyval)
  (factors : dict Py64.float) (score : Py64.float) (reasons : list string)
  : list pyval :=
  (flag_items
   ++ map (fun tactic => PyStr ("Tactic: " ++ py_str tactic)) tactic_items
   ++ map PyStr (significant_factors factors)
   ++ (if (0.8 <=? score)%py
       then map (fun reason => PyStr ("Domain: " ++ reason)) reasons
       else []))%list.

(** The members of [l] in the order of their first occurrence, equal
    values counting as one, leaving out those equal to a member of
    [seen]. *)
Fixpoint first_values_from (seen l : list pyval) : list pyval :=
  match l with
  | [] => []
  | x :: l' =>
      if existsb (py_eqb x) seen then first_values_from seen l'
      else x :: first_values_from (x :: seen) l'
  end.

Definition first_values (l : list pyval) : list pyval := first_values_from [] l.

(** No value of [l] is equal to a later one, nor to one of [seen]. *)
Fixpoint fresh_values (seen l : list pyval) : Prop :=
  match l with
  | [] => True
  | x :: l' =>
      existsb (py_eqb x) seen = false
      /\ existsb (py_eqb x) l' = false
      /\ fresh_values seen l'
  end.

(** The same with the reasons as they are, as the specification words it *)
Definition candidate_flags_as_specified (flags tactics : list string)
  (factors : dict Py64.float) (score : Py64.float) (reasons : list string)
  : list string :=
  (flags
   ++ map (fun tactic => ("Tactic: " ++ tactic)%string) tactics
   ++ significant_factors factors
   ++ (if (0.8 <=? score)%py then reasons else []))%list.

(** A page with nothing on it. *)
Definition blank_page : node :=
  Element "[document]" [] [Element "html" [] [Element "body" [] []]].

(** Services around [blank_page], whose text-generation service answers
    without any JSON. *)
Definition blank_services : Services node :=
  {| fetch := fun _ => Return blank_page;
     llm_generate := fun _ => Return "I cannot tell.";
     json_loads := empty_object_decoder;
     now_isoformat := "2025-01-01T00:00:00";
     validation_error := fun _ => "1 validation error for PhishingResponse" |}.

(** A field of the model's judgment that holds the list [l], an absent
    field counting as the empty list *)
Definition listed (field : option pyval) (l : list string) : Prop :=
  field = Some (py_strs l) \/ (field = None /\ l = []).

(** A float-valued dict as a Python value *)
Definition py_floats (d : dict Py64.float) : pyval :=
  PyDict (map (fun kv => (fst kv, PyFloat (snd kv))) d).

Definition counts_nonneg (features : WebpageFeatures) : Prop :=
  (0 <= forms_count features /\ 0 <= popup_indicators features
   /\ 0 <= ads_count features /\ 0 <= iframe_count features
   /\ 0 <= hidden_elements features /\ 0 <= urgency_indicators features)%Z.

(** The invariant of a feature record as the specification states it:
    counts are non-negative, no list field has a duplicate, the text body
    is within its cap. *)
Definition features_invariant_as_specified (features : WebpageFeatures) : Prop :=
  counts_nonneg features
  /\ NoDup (input_fields features)
  /\ NoDup (form_actions features)
  /\ NoDup (suspicious_keywords_found features)
  /\ NoDup (social_engineering_signals features)
  /\ NoDup (suspicious_elements features)
  /\ NoDup (suspicious_scripts features)
  /\ (String.length (text_content features) <= 2000)%nat.

(** The invariant the extractor keeps: as above, without the two lists it
    fills once per input and once per form. *)
Definition features_invariant (features : WebpageFeatures) : Prop :=
  counts_nonneg features
  /\ NoDup (suspicious_keywords_found features)
  /\ NoDup (social_engineering_signals features)
  /\ NoDup (suspicious_elements features)
  /\ NoDup (suspicious_scripts features)
  /\ (String.length (text_content features) <= 2000)%nat.

(** The first character of a string is one of [heads]. *)
Definition head_in (heads : list ascii) (x : string) : Prop :=
  match x with
  | String c _ => In c heads
  | EmptyString => False
  end.

(** A float of sign [s], not zero and not a NaN, that is an infinity or has
    a mantissa of at least 53 digits and an exponent of at least [e]. *)
Definition normal_from (s : bool) (e : Z) (x : Py64.float) : Prop :=
  match x with
  | S754_infinity s' => s' = s
  | S754_finite s' m e' => s' = s /\ (e <= e')%Z /\ (2 ^ 52 <= Z.pos m)%Z
  | _ => False
  end.

(** [s[-1]], when [s] is not empty *)
Fixpoint last_char (s : string) : option ascii :=
  match s with
  | EmptyString => None
  | String c EmptyString => Some c
  | String _ s' => last_char s'
  end.

(** The text-generation service gives nothing the adapter can use: it
    fails, or its answer has no brace pair, or the braced text does not
    decode. *)
Definition no_usable_answer {Tag : Type} (svc : Services Tag)
  (features : WebpageFeatures) : Prop :=
  match llm_generate svc features with
  | Raise _ => True
  | Return response =>
      has_brace_pair (Str.strip response) = false
      \/ exists e, json_loads svc (braced (Str.strip response)) = Raise e
  end.

(** The status code of an HTTP error *)
Definition status_of (e : exn) : option Z :=
  match e with HTTPException status _ => Some status | _ => None end.

(** [llm_analysis['phishing_likelihood'] / 100.0] *)
Definition llm_score_of (llm_analysis : pyval) : outcome Py64.float :=
  likelihood <- subscript llm_analysis "phishing_likelihood" ;;
  div_100 likelihood.

(** The answer [{"phishing_likelihood": 100}] of a text-generation service,
    and a stand-in for the JSON decoder that decodes this text and the
    empty object. *)
Definition alarm_text : string :=
  let quote := String (ascii_of_nat 34) EmptyString in
  "{" ++ quote ++ "phishing_likelihood" ++ quote ++ ": 100}".

Definition alarm_decoder (text : string) : outcome pyval :=
  if String.eqb text alarm_text
  then Return (PyDict [("phishing_likelihood", PyInt 100)])
  else empty_object_decoder text.

(** Services around [twin_forms_page] whose model is sure of phishing. *)
Definition alarmed_services : Services node :=
  {| fetch := fun _ => Return twin_forms_page;
     llm_generate := fun _ => Return ("Here is my analysis: " ++ alarm_text);
     json_loads := alarm_decoder;
     now_isoformat := "2025-01-01T00:00:00";
     validation_error := fun _ => "1 validation error for PhishingResponse" |}.

(** Services around [blank_page] whose model wraps the empty object in
    text. *)
Definition chatty_services : Services node :=
  {| fetch := fun _ => Return blank_page;
     llm_generate := fun _ => Return "  Sure! Here is the JSON: {} I hope it helps. ";
     json_loads := empty_object_decoder;
     now_isoformat := "2025-01-01T00:00:00";
     validation_error := fun _ => "1 validation error for PhishingResponse" |}.

(** The answer [{"phishing_likelihood": NaN}] of a text-generation
    service, and a stand-in for the JSON decoder that reads it as
    [json.loads] does: the token [NaN] is the float NaN. *)
Definition undecided_text : string :=
  let quote := String (ascii_of_nat 34) EmptyString in
  "{" ++ quote ++ "phishing_likelihood" ++ quote ++ ": NaN}".

Definition undecided_decoder (text : string) : outcome pyval :=
  if String.eqb text undecided_text
  then Return (PyDict [("phishing_likelihood", PyFloat S754_nan)])
  else empty_object_decoder text.

(** Services around [blank_page] whose model gives no number. *)
Definition undecided_services : Services node :=
  {| fetch := fun _ => Return blank_page;
     llm_generate := fun _ => Return undecided_text;
     json_loads := undecided_decoder;
     now_isoformat := "2025-01-01T00:00:00";
     validation_error := fun _ => "1 validation error for PhishingResponse" |}.

(** The pattern the scan of one script records: the first of the list that
    occurs in the script's body or in its source address, both in lower
    case. *)
Definition first_pattern {Tag : Type} `{DocumentTree Tag} (script : Tag)
  : option string :=
  List.find (fun pattern =>
               (Str.contains pattern
                  (Str.lower match tag_string script with
                             | Some s => s
                             | None => EmptyString
                             end)
                || Str.contains pattern (Str.lower (get_or_empty script "src")))%bool)
            suspicious_js_patterns.

(** The descriptors of the inputs of one form, and its action *)
Definition form_inputs {Tag : Type} `{DocumentTree Tag} (form : Tag) : list string :=
  map input_descriptor (find_all form (by_tag "input")).

Definition form_action {Tag : Type} `{DocumentTree Tag} (form : Tag) : string :=
  get_or_empty form "action".

(** Every query finds fewer than [2^50] elements. *)
Definition modest_document {Tag : Type} `{DocumentTree Tag} (soup : Tag) : Prop :=
  forall q, (len (find_all soup q) < 2 ^ 50)%Z.

(** A page with a password input outside any form. *)
Definition formless_password_page : node :=
  Element "[document]" []
    [ Element "html" []
        [ Element "body" []
            [ Element "input" [("type", "password"); ("name", "pass")] [] ] ] ].

(** A page whose only input is a text field named [Password_Hint], in a
    form. *)
Definition hint_form_page : node :=
  Element "[document]" []
    [ Element "html" []
        [ Element "body" []
            [ Element "form" [("action", "/remind")]
                [ Element "input" [("type", "text"); ("name", "Password_Hint")] [] ] ] ] ].

(** A float that is zero, or positive with a mantissa below [2^53]. *)
Definition small_mantissa (x : Py64.float) : Prop :=
  match x with
  | S754_zero _ => True
  | S754_finite false m _ => (Z.pos m < 2 ^ 53)%Z
  | _ => False
  end.

(** The same, or the positive infinity *)
Definition small_or_inf (x : Py64.float) : Prop :=
  match x with
  | S754_infinity s => s = false
  | _ => small_mantissa x
  end.

(** The analysis fields of a verdict on a suspicious top-level domain
    whose model judgment lists six red flags, one of them twice. *)
Definition crowded_verdict : dict pyval :=
  [ ("llm_analysis",
     PyDict [ ("content_red_flags",
               py_strs ["Asks for a password"; "Urgent wording";
                        "Asks for a password"; "Mismatched brand";
                        "Hidden form"; "Odd address"]);
              ("primary_tactics", py_strs ["urgency"]) ]);
    ("content_analysis",
     PyDict [ ("risk_factors", py_floats [("forms_present", 0.7%py)]) ]);
    ("domain_reputation",
     PyDict [ ("reputation_score", PyFloat 0.8%py);
              ("reputation_reason", py_strs ["suspicious_tld"]) ]) ].

(** The values of a factor map added up in the order of the map, from
    [0.0] on *)
Definition sum_values (d : dict Py64.float) : Py64.float :=
  fold_left (fun acc kv => (acc + snd kv)%py) d 0.0%py.

(* ================================================================== *)
(** * Properties of the float operations *)
(* ================================================================== *)

Module Py64Facts.
Import Py64.

(** ** Order *)

Lemma compare_antisym (a b : float) :
  SFcompare a b = option_map CompOpp (SFcompare b a).
Proof.
  destruct a as [sa | sa | | sa ma ea], b as [sb | sb | | sb mb eb];
    simpl; try reflexivity;
    try (destruct sa; reflexivity); try (destruct sb; reflexivity);
    try (destruct sa, sb; reflexivity).
  destruct sa, sb; simpl; try reflexivity;
    rewrite (Z.compare_antisym ea eb);
    destruct (ea ?= eb)%Z; simpl; try reflexivity;
    rewrite (Pos.compare_cont_antisym mb ma Eq); simpl;
    destruct (Pos.compare_cont Eq mb ma); reflexivity.
Qed.

Lemma compare_number (a b : float) :
  is_nan a = false -> is_nan b = false -> SFcompare a b <> None.
Proof.
  destruct a, b; simpl; intros Ha Hb; congruence.
Qed.

Lemma not_ltb_leb (a b : float) :
  is_nan a = false -> is_nan b = false -> ltb b a = false -> leb a b = true.
Proof.
  intros Ha Hb. unfold ltb, leb, SFltb, SFleb.
  pose proof (compare_number a b Ha Hb) as Hn.
  rewrite (compare_antisym b a).
  destruct (SFcompare a b) as [[ | | ] | ]; simpl; congruence.
Qed.

Lemma ltb_leb (a b : float) : ltb a b = true -> leb a b = true.
Proof.
  unfold ltb, leb, SFltb, SFleb.
  destruct (SFcompare a b) as [[ | | ] | ]; congruence.
Qed.

Lemma leb_refl (a : float) : is_nan a = false -> leb a a = true.
Proof.
  intros Ha. apply not_ltb_leb; trivial.
  unfold ltb, SFltb.
  pose proof (compare_antisym a a) as E.
  destruct (SFcompare a a) as [[ | | ] | ]; simpl in E; congruence.
Qed.

(** [min(a, b)] is at most [b], when both are numbers. *)
Lemma min_le_r (a b : float) :
  is_nan a = false -> is_nan b = false -> leb (min a b) b = true.
Proof.
  intros Ha Hb. unfold min.
  destruct (ltb b a) eqn:E.
  - now apply leb_refl.
  - now apply not_ltb_leb.
Qed.

Lemma ltb_min_r (a b : float) : ltb b (min a b) = false.
Proof.
  unfold min. destruct (ltb b a) eqn:E; trivial.
  unfold ltb, SFltb in *.
  pose proof (compare_antisym b b) as A.
  destruct (SFcompare b b) as [[ | | ] | ]; simpl in A; congruence.
Qed.

(** ** Sign *)

Lemma nonneg_number (x : float) : nonneg x = true -> is_nan x = false.
Proof. destruct x; simpl; congruence. Qed.

Lemma nonneg_leb (x : float) : nonneg x = leb (S754_zero false) x.
Proof. destruct x as [s | s | | s m e]; simpl; try destruct s; reflexivity. Qed.

Lemma nonneg_min (a b : float) :
  nonneg a = true -> nonneg b = true -> nonneg (min a b) = true.
Proof. intros Ha Hb. unfold min. now destruct (ltb b a). Qed.

Lemma signed_nonneg (x : float) : signed false x -> nonneg x = true.
Proof. destruct x; simpl; intros; subst; tauto. Qed.

(** ** Rounding never turns a mantissa negative *)

Lemma shr_1_nonneg (mrs : shr_record) :
  (0 <= shr_m mrs)%Z -> (0 <= shr_m (shr_1 mrs))%Z.
Proof.
  destruct mrs as [m r s]. simpl.
  destruct m as [ | [p | p | ] | p]; simpl; lia.
Qed.

Lemma iter_shr_1_nonneg (p : positive) :
  forall mrs, (0 <= shr_m mrs)%Z -> (0 <= shr_m (iter_pos shr_1 p mrs))%Z.
Proof.
  induction p as [p IH | p IH | ]; intros mrs Hm; simpl.
  - apply IH, IH, shr_1_nonneg, Hm.
  - apply IH, IH, Hm.
  - apply shr_1_nonneg, Hm.
Qed.

Lemma shr_record_of_loc_m (m : Z) (l : location) :
  shr_m (shr_record_of_loc m l) = m.
Proof. destruct l as [ | [ | | ]]; reflexivity. Qed.

Lemma shr_fexp_nonneg (m e : Z) (l : location) :
  (0 <= m)%Z -> (0 <= shr_m (fst (shr_fexp prec emax m e l)))%Z.
Proof.
  intros Hm. unfold shr_fexp, shr.
  destruct (fexp prec emax (Zdigits2 m + e) - e)%Z; simpl;
    try (rewrite shr_record_of_loc_m; exact Hm).
  apply iter_shr_1_nonneg. rewrite shr_record_of_loc_m. exact Hm.
Qed.

Lemma round_nearest_even_nonneg (m : Z) (l : location) :
  (0 <= m)%Z -> (0 <= round_nearest_even m l)%Z.
Proof.
  intros Hm. destruct l as [ | [ | | ]]; simpl; try lia.
  destruct (Z.even m); lia.
Qed.

Lemma binary_round_aux_signed (s : bool) (m e : Z) (l : location) :
  (0 <= m)%Z -> signed s (binary_round_aux prec emax s m e l).
Proof.
  intros Hm. unfold binary_round_aux.
  pose proof (shr_fexp_nonneg m e l Hm) as H1.
  destruct (shr_fexp prec emax m e l) as [mrs' e']. simpl in H1.
  pose proof (shr_fexp_nonneg _ e' loc_Exact
                (round_nearest_even_nonneg _ (loc_of_shr_record mrs') H1)) as H2.
  destruct (shr_fexp prec emax
              (round_nearest_even (shr_m mrs') (loc_of_shr_record mrs')) e' loc_Exact)
    as [mrs'' e'']. simpl in H2.
  destruct (shr_m mrs'') as [ | p | p].
  - reflexivity.
  - destruct (e'' <=? emax - prec)%Z; reflexivity.
  - lia.
Qed.

Lemma binary_round_signed (s : bool) (m : positive) (e : Z) :
  signed s (binary_round prec emax s m e).
Proof.
  unfold binary_round.
  destruct (shl_align m e (fexp prec emax (Z.pos (digits2_pos m) + e))) as [mz ez].
  apply binary_round_aux_signed. lia.
Qed.

(** [float(n)] of a positive int is a non-negative number. *)
Lemma of_Z_signed (n : Z) : (0 < n)%Z -> signed false (of_Z n).
Proof.
  intros Hn. unfold of_Z, binary_normalize.
  destruct n as [ | p | p]; try lia.
  apply binary_round_signed.
Qed.

Lemma mul_signed (x : float) (m : positive) (e : Z) :
  signed false x -> signed false (mul x (S754_finite false m e)).
Proof.
  destruct x as [s | s | | s mx ex]; simpl; intros Hx; subst; trivial.
  apply binary_round_aux_signed. lia.
Qed.

(** The sum of two non-negative numbers is a non-negative number. *)
Lemma add_nonneg (x y : float) :
  nonneg x = true -> nonneg y = true -> nonneg (add x y) = true.
Proof.
  destruct x as [sx | sx | | sx mx ex], y as [sy | sy | | sy my ey];
    simpl; intros Hx Hy; try congruence; trivial;
    try (destruct sx; simpl in *; congruence);
    try (destruct sx, sy; simpl in *; congruence).
  destruct sx, sy; simpl in *; try discriminate.
  apply signed_nonneg.
  unfold binary_normalize.
  destruct (shl_align mx ex (Z.min ex ey)) as [ax ?].
  destruct (shl_align my ey (Z.min ex ey)) as [ay ?].
  simpl. apply binary_round_signed.
Qed.

(** ** Small ints convert without overflow *)

Lemma digits2_pos_size (p : positive) : digits2_pos p = Pos.size p.
Proof. induction p; simpl; congruence. Qed.

Lemma digits2_pos_bound (p : positive) :
  (Z.pos p < 2 ^ 53)%Z -> (Z.pos (digits2_pos p) <= 53)%Z.
Proof.
  intros Hp. rewrite digits2_pos_size.
  destruct (Z_le_gt_dec (Z.pos (Pos.size p)) 53) as [ | Hgt]; trivial.
  exfalso.
  pose proof (Pos.size_le p) as Hle.
  assert (2 ^ 54 <= 2 ^ Z.pos (Pos.size p))%Z as Hpow
    by (apply Z.pow_le_mono_r; lia).
  assert (Z.pos (2 ^ Pos.size p) = 2 ^ Z.pos (Pos.size p))%Z as E
    by (rewrite Pos2Z.inj_pow; reflexivity).
  assert (Z.pos (2 ^ Pos.size p) <= Z.pos p~0)%Z as Hle' by exact Hle.
  rewrite E in Hle'.
  change (2 ^ 54)%Z with (2 * 2 ^ 53)%Z in Hpow. lia.
Qed.

Lemma digits2_pos_iter_xO (k m : positive) :
  digits2_pos (Pos.iter xO m k) = (digits2_pos m + k)%positive.
Proof.
  induction k as [ | k IH] using Pos.peano_ind.
  - simpl. lia.
  - rewrite Pos.iter_succ. simpl. rewrite IH. lia.
Qed.

(** An int below [2^53] is a float exactly: its mantissa is shifted to 53
    digits and nothing is rounded off. *)
Lemma of_Z_small (n : Z) :
  (0 < n < 2 ^ 53)%Z -> is_infinity (of_Z n) = false.
Proof.
  intros [Hpos Hlt]. destruct n as [ | p | p]; try lia.
  pose proof (digits2_pos_bound p Hlt) as Hd.
  unfold of_Z, binary_normalize, binary_round.
  assert (fexp prec emax (Z.pos (digits2_pos p) + 0)
          = Z.pos (digits2_pos p) - 53)%Z as Hf
    by (unfold fexp, emin, prec, emax; lia).
  rewrite Hf. unfold shl_align.
  assert (forall mz ez, Z.pos (digits2_pos mz) = 53%Z -> (-52 <= ez <= 0)%Z ->
            is_infinity (binary_round_aux prec emax false (Z.pos mz) ez loc_Exact)
            = false) as Haux.
  { intros mz ez Hmz Hez. unfold binary_round_aux, shr_fexp. simpl Zdigits2.
    assert (fexp prec emax (Z.pos (digits2_pos mz) + ez) - ez = 0)%Z as E0
      by (unfold fexp, emin, prec, emax; lia).
    rewrite E0.
    cbn [shr shr_record_of_loc shr_m loc_of_shr_record round_nearest_even Zdigits2].
    rewrite E0.
    cbn [shr shr_record_of_loc shr_m].
    destruct (ez <=? emax - prec)%Z eqn:L; trivial.
    unfold emax, prec in L. apply Z.leb_gt in L. lia. }
  destruct (Z.pos (digits2_pos p) - 53 - 0)%Z as [ | d | d] eqn:Hs; try lia.
  - apply Haux; lia.
  - apply Haux.
    + rewrite digits2_pos_iter_xO. lia.
    + lia.
Qed.

(** ** Rounding a positive mantissa never gives zero *)

Lemma shr_1_div2 (mrs : shr_record) :
  (0 <= shr_m mrs)%Z -> shr_m (shr_1 mrs) = (shr_m mrs / 2)%Z.
Proof.
  intros Hm. rewrite <- Z.div2_div.
  destruct mrs as [m r s]. simpl in *.
  destruct m as [ | [p | p | ] | p]; try reflexivity; lia.
Qed.

Lemma iter_shr_1_div (k : positive) :
  forall mrs, (0 <= shr_m mrs)%Z ->
              shr_m (iter_pos shr_1 k mrs) = (shr_m mrs / 2 ^ Z.pos k)%Z.
Proof.
  induction k as [k IH | k IH | ]; intros mrs Hm; simpl iter_pos.
  - rewrite IH by (apply iter_shr_1_nonneg, shr_1_nonneg, Hm).
    rewrite IH by (apply shr_1_nonneg, Hm).
    rewrite shr_1_div2 by exact Hm.
    assert (0 < 2 ^ Z.pos k)%Z as Hpow by (apply Z.pow_pos_nonneg; lia).
    rewrite !Z.div_div by lia.
    f_equal. rewrite (Pos2Z.inj_xI k).
    replace (2 * Z.pos k + 1)%Z with (1 + Z.pos k + Z.pos k)%Z by lia.
    rewrite !Z.pow_add_r by lia. change (2 ^ 1)%Z with 2%Z. ring.
  - rewrite IH by (apply iter_shr_1_nonneg, Hm).
    rewrite IH by exact Hm.
    assert (0 < 2 ^ Z.pos k)%Z as Hpow by (apply Z.pow_pos_nonneg; lia).
    rewrite Z.div_div by lia.
    f_equal. rewrite (Pos2Z.inj_xO k).
    replace (2 * Z.pos k)%Z with (Z.pos k + Z.pos k)%Z by lia.
    rewrite Z.pow_add_r by lia. reflexivity.
  - rewrite shr_1_div2 by exact Hm. reflexivity.
Qed.

Lemma digits2_pos_lower (p : positive) :
  (2 ^ (Z.pos (digits2_pos p) - 1) <= Z.pos p)%Z.
Proof.
  rewrite digits2_pos_size.
  pose proof (Pos.size_le p) as Hle.
  assert (Z.pos (2 ^ Pos.size p) <= Z.pos p~0)%Z as Hz by exact Hle.
  rewrite Pos2Z.inj_pow in Hz.
  replace (Z.pos (Pos.size p)) with (Z.pos (Pos.size p) - 1 + 1)%Z in Hz by lia.
  rewrite Z.pow_add_r in Hz by lia.
  change (2 ^ 1)%Z with 2%Z in Hz. lia.
Qed.

Lemma shr_fexp_pos (p : positive) (e : Z) (l : location) :
  (-1021 <= e)%Z ->
  (0 < shr_m (fst (shr_fexp prec emax (Z.pos p) e l)))%Z
  /\ (e <= snd (shr_fexp prec emax (Z.pos p) e l))%Z.
Proof.
  intros He. unfold shr_fexp. cbn [Zdigits2].
  assert (fexp prec emax (Z.pos (digits2_pos p) + e) - e
          = Z.pos (digits2_pos p) - 53)%Z as Hf
    by (unfold fexp, emin, prec, emax; lia).
  rewrite Hf. unfold shr.
  destruct (Z.pos (digits2_pos p) - 53)%Z as [ | k | k] eqn:Hk; cbn [fst snd];
    try (rewrite shr_record_of_loc_m; lia).
  rewrite iter_shr_1_div by (rewrite shr_record_of_loc_m; lia).
  rewrite shr_record_of_loc_m. split; [ | lia].
  apply Z.div_str_pos. split; [apply Z.pow_pos_nonneg; lia | ].
  pose proof (digits2_pos_lower p) as Hlow.
  assert (2 ^ Z.pos k <= 2 ^ (Z.pos (digits2_pos p) - 1))%Z
    by (apply Z.pow_le_mono_r; lia).
  lia.
Qed.


Lemma round_nearest_even_pos (m : Z) (l : location) :
  (0 < m)%Z -> (0 < round_nearest_even m l)%Z.
Proof.
  intros Hm. destruct l as [ | [ | | ]]; simpl; try lia.
  destruct (Z.even m); lia.
Qed.

Lemma binary_round_aux_nonzero (s : bool) (p : positive) (e : Z) (l : location) :
  (-1021 <= e)%Z ->
  nonzero_from s e (binary_round_aux prec emax s (Z.pos p) e l).
Proof.
  intros He. unfold binary_round_aux.
  destruct (shr_fexp_pos p e l He) as [H1 E1].
  destruct (shr_fexp prec emax (Z.pos p) e l) as [mrs' e']. cbn [fst snd] in *.
  pose proof (round_nearest_even_pos _ (loc_of_shr_record mrs') H1) as Hr.
  destruct (round_nearest_even (shr_m mrs') (loc_of_shr_record mrs'))
    as [ | q | q]; try lia.
  destruct (shr_fexp_pos q e' loc_Exact ltac:(lia)) as [H2 E2].
  destruct (shr_fexp prec emax (Z.pos q) e' loc_Exact) as [mrs'' e''].
  cbn [fst snd] in *.
  destruct (shr_m mrs'') as [ | m | m]; try lia.
  destruct (e'' <=? emax - prec)%Z; simpl; [split; [reflexivity | lia] | reflexivity].
Qed.

Lemma nonzero_from_weaken (s : bool) (e e' : Z) (x : float) :
  (e' <= e)%Z -> nonzero_from s e x -> nonzero_from s e' x.
Proof.
  intros He. destruct x as [ | | | s' m ex]; simpl; trivial.
  intros [-> Hex]. split; [reflexivity | lia].
Qed.

(** [float(n)] of a positive int is positive, with an exponent of at least
    -52 when it is finite. *)
Lemma of_Z_nonzero (n : Z) : (0 < n)%Z -> nonzero_from false (-52) (of_Z n).
Proof.
  intros Hn. destruct n as [ | p | p]; try lia.
  unfold of_Z, binary_normalize, binary_round, shl_align.
  assert (-52 <= fexp prec emax (Z.pos (digits2_pos p) + 0))%Z as Hf
    by (unfold fexp, emin, prec, emax; lia).
  destruct (fexp prec emax (Z.pos (digits2_pos p) + 0) - 0)%Z as [ | d | d] eqn:Hd.
  - apply (nonzero_from_weaken _ 0); [lia | ].
    apply binary_round_aux_nonzero. lia.
  - apply (nonzero_from_weaken _ 0); [lia | ].
    apply binary_round_aux_nonzero. lia.
  - apply (nonzero_from_weaken _ (fexp prec emax (Z.pos (digits2_pos p) + 0)));
      [lia | ].
    apply binary_round_aux_nonzero. lia.
Qed.

Lemma nonzero_from_positive (e : Z) (x : float) :
  nonzero_from false e x -> ltb (S754_zero false) x = true.
Proof.
  destruct x as [s | s | | s m e']; simpl; try tauto.
  - intros ->. reflexivity.
  - intros [-> _]. reflexivity.
Qed.

(** The product of a positive int and a positive constant is positive: it
    does not vanish by rounding. *)
Lemma mul_of_Z_positive (n : Z) (m : positive) (e : Z) :
  (0 < n)%Z -> (-900 <= e)%Z ->
  ltb (S754_zero false) (mul (of_Z n) (S754_finite false m e)) = true.
Proof.
  intros Hn He. pose proof (of_Z_nonzero n Hn) as Hx.
  destruct (of_Z n) as [s | s | | s mx ex]; simpl in Hx; try contradiction.
  - subst s. reflexivity.
  - destruct Hx as [-> Hex].
    apply (nonzero_from_positive (ex + e)).
    apply binary_round_aux_nonzero. lia.
Qed.

Lemma min_positive (a b : float) :
  ltb (S754_zero false) a = true -> ltb (S754_zero false) b = true ->
  ltb (S754_zero false) (min a b) = true.
Proof. intros Ha Hb. unfold min. now destruct (ltb b a). Qed.

End Py64Facts.

(* ================================================================== *)
(** * The heuristic scorer *)
(* ================================================================== *)

Lemma bind_Return {A B : Type} (m : outcome A) (k : A -> outcome B) (b : B) :
  bind m k = Return b -> exists a, m = Return a /\ k a = Return b.
Proof.
  destruct m as [a | e]; simpl; intros E.
  - now exists a.
  - discriminate.
Qed.

Lemma float_of_int_Return (n : Z) (x : Py64.float) :
  float_of_int n = Return x -> x = Py64.of_Z n.
Proof.
  unfold float_of_int. destruct (Py64.is_infinity (Py64.of_Z n)); congruence.
Qed.

Lemma float_of_int_small (n : Z) :
  (0 < n < 2 ^ 53)%Z -> float_of_int n = Return (Py64.of_Z n).
Proof.
  intros Hn. unfold float_of_int. now rewrite Py64Facts.of_Z_small.
Qed.

Lemma capped_Return (n : Z) (w cap v : Py64.float) :
  capped n w cap = Return v -> v = Py64.min (Py64.of_Z n * w)%py cap.
Proof.
  unfold capped. intros E. apply bind_Return in E as (x & Hx & E).
  apply float_of_int_Return in Hx. congruence.
Qed.

Lemma capped_nonneg (n : Z) (w cap v : Py64.float) :
  (0 < n)%Z -> positive_constant w -> positive_constant cap ->
  capped n w cap = Return v -> Py64.nonneg v = true.
Proof.
  intros Hn Hw Hcap E. apply capped_Return in E. subst v.
  destruct w as [ | | | [] mw ew]; try contradiction.
  destruct cap as [ | | | [] mc ec]; try contradiction.
  apply Py64Facts.nonneg_min; trivial.
  apply Py64Facts.signed_nonneg, Py64Facts.mul_signed, Py64Facts.of_Z_signed, Hn.
Qed.

Lemma capped_small (n : Z) (w cap : Py64.float) :
  (0 < n < 2 ^ 53)%Z ->
  capped n w cap = Return (Py64.min (Py64.of_Z n * w)%py cap).
Proof.
  intros Hn. unfold capped. now rewrite float_of_int_small.
Qed.

(** What one [if] block does to the running score and to the map. *)
Lemma factor_inv (name : string) (trigger : bool) (value : outcome Py64.float)
  (st st' : Py64.float * dict Py64.float) :
  factor name trigger value st = Return st' ->
  (trigger = false /\ st' = st) \/
  (trigger = true /\ exists v, value = Return v /\
     st' = ((fst st + v)%py, dict_set name v (snd st))).
Proof.
  unfold factor. destruct trigger.
  - intros E. apply bind_Return in E as (v & Hv & E). right. split; trivial.
    exists v. split; congruence.
  - intros E. left. split; congruence.
Qed.

Lemma factor_nonneg (name : string) (trigger : bool) (value : outcome Py64.float)
  (st st' : Py64.float * dict Py64.float) :
  (trigger = true -> forall v, value = Return v -> Py64.nonneg v = true) ->
  Py64.nonneg (fst st) = true ->
  factor name trigger value st = Return st' ->
  Py64.nonneg (fst st') = true.
Proof.
  intros Hv Hst E.
  apply factor_inv in E as [[_ ->] | [Ht (v & Hval & ->)]]; trivial.
  simpl. apply Py64Facts.add_nonneg; eauto.
Qed.

Lemma dict_get_set {V : Type} (k k' : string) (v : V) (d : dict V) :
  dict_get k (dict_set k' v d) = if String.eqb k' k then Some v else dict_get k d.
Proof.
  induction d as [ | [k0 v0] d IH]; simpl.
  - reflexivity.
  - destruct (String.eqb_spec k0 k') as [-> | Hne]; simpl.
    + now destruct (String.eqb k' k).
    + rewrite IH. destruct (String.eqb_spec k0 k) as [-> | Hne'];
        destruct (String.eqb_spec k' k) as [-> | Hne'']; congruence.
  Qed.

Lemma factor_get (name : string) (trigger : bool) (value : outcome Py64.float)
  (st st' : Py64.float * dict Py64.float) (k : string) :
  factor name trigger value st = Return st' ->
  dict_get k (snd st') =
  if (trigger && String.eqb name k)%bool then stored trigger value
  else dict_get k (snd st).
Proof.
  intros E.
  apply factor_inv in E as [[-> ->] | [-> (v & -> & ->)]]; simpl; trivial.
  apply dict_get_set.
Qed.

Lemma nonempty_existsb {A : Type} (p : A -> bool) (l : list A) :
  negb (Nat.eqb (List.length (filter p l)) 0) = existsb p l.
Proof.
  induction l as [ | a l IH]; simpl; trivial.
  destruct (p a); simpl; trivial.
Qed.

Lemma nonempty_len {A : Type} (l : list A) :
  negb (Nat.eqb (List.length l) 0) = true -> (0 < len l)%Z.
Proof. destruct l; simpl; unfold len; simpl; [discriminate | lia]. Qed.

Lemma factor_capped_small (name : string) (trigger : bool) (n : Z)
  (w cap : Py64.float) (st : Py64.float * dict Py64.float) :
  (trigger = true -> (0 < n < 2 ^ 53)%Z) ->
  exists st', factor name trigger (capped n w cap) st = Return st'.
Proof.
  intros Hn. unfold factor. destruct trigger; eauto.
  rewrite capped_small by auto. simpl. eauto.
Qed.

Lemma factor_flat (name : string) (trigger : bool) (v : Py64.float)
  (st : Py64.float * dict Py64.float) :
  exists st', factor name trigger (Return v) st = Return st'.
Proof. unfold factor. destruct trigger; simpl; eauto. Qed.

Lemma bind_returns {A B : Type} (m : outcome A) (k : A -> outcome B) (a : A) :
  m = Return a -> (exists b, k a = Return b) -> exists b, bind m k = Return b.
Proof. intros -> H. exact H. Qed.

(** The scorer returns on every record whose counts are small. *)
Lemma calculate_content_risk_score_returns (features : WebpageFeatures) :
  counts_small features ->
  exists r, calculate_content_risk_score features = Return r.
Proof.
  intros (H1 & H2 & H3 & H4 & H5 & H6 & H7 & H8 & H9).
  unfold calculate_content_risk_score. cbv zeta.
  repeat
    match goal with
    | |- exists r, bind (factor ?name ?t (capped ?n ?w ?c) ?st) _ = Return r =>
        let st' := fresh "st" in
        let E := fresh "E" in
        destruct (factor_capped_small name t n w c st) as [st' E];
        [ intros Ht; first [ apply Z.ltb_lt in Ht | apply nonempty_len in Ht ]; lia
        | apply (bind_returns _ _ st' E) ]
    | |- exists r, bind (factor ?name ?t (Return ?v) ?st) _ = Return r =>
        let st' := fresh "st" in
        let E := fresh "E" in
        destruct (factor_flat name t v st) as [st' E];
        apply (bind_returns _ _ st' E)
    end.
  eauto.
Qed.

(** The running score and the map after the eleven blocks. *)
Ltac scorer_steps H :=
  unfold calculate_content_risk_score in H; cbv zeta in H;
  repeat
    match type of H with
    | bind (factor _ _ _ _) _ = Return _ =>
        let st := fresh "st" in
        let E := fresh "E" in
        apply bind_Return in H as (st & E & H)
    end.

Lemma calculate_content_risk_score_nonneg (features : WebpageFeatures)
  (r : ContentAnalysis) :
  calculate_content_risk_score features = Return r ->
  Py64.nonneg (total_risk_score r) = true.
Proof.
  intros H. scorer_steps H. injection H as <-. simpl.
  apply Py64Facts.nonneg_min; [ | reflexivity].
  assert (Py64.nonneg (fst (0.0%py, @nil (string * Py64.float))) = true) as N
    by reflexivity.
  repeat
    match goal with
    | E : factor _ ?t ?value ?st = Return ?st',
      N : Py64.nonneg (fst ?st) = true |- _ =>
        let N' := fresh "N" in
        assert (Py64.nonneg (fst st') = true) as N'
          by (refine (factor_nonneg _ _ _ _ _ _ N E);
              intros Ht v Hv;
              first [ injection Hv as <-; reflexivity
                    | eapply capped_nonneg; [ | | | exact Hv];
                      [ first [ apply Z.ltb_lt in Ht | apply nonempty_len in Ht ]; lia
                      | simpl; lia | simpl; lia ] ]);
        clear E N
    end.
  assumption.
Qed.

Lemma dict_keys_set_fresh {V : Type} (k : string) (v : V) (d : dict V) :
  dict_get k d = None -> dict_keys (dict_set k v d) = (dict_keys d ++ [k])%list.
Proof.
  unfold dict_keys.
  induction d as [ | [k0 v0] d IH]; simpl; trivial.
  destruct (String.eqb k0 k); [discriminate | ].
  intros Hd. simpl. now rewrite IH.
Qed.

Lemma triggered_cons (name : string) (t : bool) (l : list (string * bool)) :
  map fst (filter snd ((name, t) :: l))
  = ((if t then [name] else []) ++ map fst (filter snd l))%list.
Proof. destruct t; reflexivity. Qed.

Lemma factor_keys (name : string) (trigger : bool) (value : outcome Py64.float)
  (st st' : Py64.float * dict Py64.float) :
  factor name trigger value st = Return st' ->
  dict_get name (snd st) = None ->
  dict_keys (snd st') = (dict_keys (snd st) ++ if trigger then [name] else [])%list.
Proof.
  intros E Hfresh.
  apply factor_inv in E as [[-> ->] | [-> (v & _ & ->)]]; simpl.
  - now rewrite app_nil_r.
  - now apply dict_keys_set_fresh.
Qed.

Lemma stored_capped (trigger : bool) (n : Z) (w cap : Py64.float)
  (name : string) (st st' : Py64.float * dict Py64.float) :
  factor name trigger (capped n w cap) st = Return st' ->
  stored trigger (capped n w cap) =
  if trigger then Some (Py64.min (Py64.of_Z n * w)%py cap) else None.
Proof.
  intros E. apply factor_inv in E as [[-> _] | [-> (v & Hv & _)]]; simpl; trivial.
  rewrite Hv. now apply capped_Return in Hv as ->.
Qed.

(** Looks a key up in the scorer's map by going back through the blocks. *)
Ltac lookup_trace :=
  repeat
    match goal with
    | E : factor _ _ _ _ = Return ?st |- context [dict_get ?k (snd ?st)] =>
        rewrite (factor_get _ _ _ _ _ k E)
    end;
  cbn [String.eqb Ascii.eqb Bool.eqb snd dict_get];
  repeat rewrite ?Bool.andb_false_r, ?Bool.andb_true_r.

Lemma nonempty_pos {A : Type} (l : list A) :
  negb (Nat.eqb (List.length l) 0) = (0 <? len l)%Z.
Proof. destruct l; unfold len; simpl; trivial. Qed.

Lemma excess_pos (n : Z) : (5 <? n)%Z = (0 <? Z.max (n - 5) 0)%Z.
Proof.
  destruct (Z.ltb_spec 5 n), (Z.ltb_spec 0 (Z.max (n - 5) 0)); trivial; lia.
Qed.

Lemma calculate_content_risk_score_keys (features : WebpageFeatures)
  (r : ContentAnalysis) :
  calculate_content_risk_score features = Return r ->
  dict_keys (risk_factors r) = map fst (filter snd (trigger_table features)).
Proof.
  intros H. scorer_steps H. injection H as <-. cbn [risk_factors].
  assert (dict_keys (snd (0.0%py, @nil (string * Py64.float))) = []) as K
    by reflexivity.
  repeat
    match goal with
    | E : factor ?name ?t _ ?st = Return ?st', K : dict_keys (snd ?st) = ?ks |- _ =>
        let K' := fresh "K" in
        assert (dict_keys (snd st') = (ks ++ if t then [name] else [])%list) as K'
          by (rewrite <- K; apply (factor_keys _ _ _ _ _ E);
              lookup_trace; reflexivity);
        clear K
    end.
  match goal with K : dict_keys _ = _ |- _ => rewrite K end.
  rewrite nonempty_existsb, !nonempty_pos, !excess_pos.
  unfold trigger_table. rewrite !triggered_cons.
  cbn [filter map]. rewrite <- !app_assoc, app_nil_r. reflexivity.
Qed.

(** C3.  Whatever the feature record, the total the scorer returns lies in
    [0, 1]; the scorer does return on every record whose counts are below
    [2^53]; and on a record with all counts zero, the flag false and all
    lists empty, the total is 0 and the factor map is empty. *)
Theorem total_risk_score_in_unit_interval :
  (forall features r,
      calculate_content_risk_score features = Return r ->
      (0.0 <=? total_risk_score r)%py = true
      /\ (total_risk_score r <=? 1.0)%py = true)
  /\ (forall features,
         counts_small features ->
         exists r, calculate_content_risk_score features = Return r)
  /\ (forall features,
         no_signal features ->
         calculate_content_risk_score features
         = Return {| total_risk_score := 0.0%py; risk_factors := [] |}).
Proof.
  split; [ | split].
  - intros features r H.
    pose proof (calculate_content_risk_score_nonneg features r H) as N.
    split.
    + now rewrite <- Py64Facts.nonneg_leb.
    + scorer_steps H. injection H as <-. cbn [total_risk_score] in *.
      unfold Py64.min in *.
      destruct (Py64.ltb 1.0%py (fst st9)) eqn:L; [reflexivity | ].
      apply Py64Facts.not_ltb_leb; trivial.
      now apply Py64Facts.nonneg_number.
  - exact calculate_content_risk_score_returns.
  - intros features (H1 & H2 & H3 & H4 & H5 & H6 & H7 & H8 & H9 & H10 & H11 & _).
    unfold calculate_content_risk_score.
    rewrite H1, H2, H3, H4, H5, H6, H7, H8, H9, H10, H11. reflexivity.
Qed.

Lemma total_risk_score_in_unit_interval_witness :
  (exists r, calculate_content_risk_score busy_page = Return r
             /\ (0.0 <=? total_risk_score r)%py = true
             /\ (total_risk_score r <=? 1.0)%py = true)
  /\ calculate_content_risk_score quiet_page
     = Return {| total_risk_score := 0.0%py; risk_factors := [] |}.
Proof.
  destruct total_risk_score_in_unit_interval as (Hbound & Hret & Hzero).
  split.
  - destruct (Hret busy_page) as [r Hr].
    + unfold counts_small, len; simpl; lia.
    + exists r. split; [exact Hr | exact (Hbound busy_page r Hr)].
  - apply Hzero. unfold no_signal. simpl. tauto.
Defined.

Lemma dict_mem_keys {V : Type} (k : string) (d : dict V) :
  dict_mem k d = true <-> In k (dict_keys d).
Proof.
  unfold dict_mem, dict_keys.
  induction d as [ | [k0 v] d IH]; simpl.
  - split; [discriminate | tauto].
  - destruct (String.eqb_spec k0 k) as [E | Hne].
    + split; auto.
    + rewrite IH. split; [tauto | ].
      intros [E | E]; [contradiction | exact E].
Qed.

Lemma capped_positive (n : Z) (w cap v : Py64.float) :
  (0 < n)%Z -> positive_constant w -> positive_constant cap ->
  capped n w cap = Return v -> (0.0 <? v)%py = true.
Proof.
  intros Hn Hw Hcap E. apply capped_Return in E. subst v.
  destruct w as [ | | | [] mw ew]; try contradiction.
  destruct cap as [ | | | [] mc ec]; try contradiction.
  simpl in Hw.
  apply Py64Facts.min_positive; [ | reflexivity].
  now apply Py64Facts.mul_of_Z_positive.
Qed.

Lemma dict_set_values {V : Type} (P : V -> Prop) (k : string) (v : V) (d : dict V) :
  Forall (fun kv => P (snd kv)) d -> P v ->
  Forall (fun kv => P (snd kv)) (dict_set k v d).
Proof.
  intros Hd Hv. induction Hd as [ | [k0 v0] d H0 Hd IH]; simpl.
  - now repeat constructor.
  - destruct (String.eqb k0 k); constructor; trivial.
Qed.

Lemma dict_get_values {V : Type} (P : V -> Prop) (k : string) (v : V) (d : dict V) :
  Forall (fun kv => P (snd kv)) d -> dict_get k d = Some v -> P v.
Proof.
  intros Hd. induction Hd as [ | [k0 v0] d H0 Hd IH]; simpl; [discriminate | ].
  destruct (String.eqb k0 k); [ | exact IH].
  intros E. injection E as <-. exact H0.
Qed.

Lemma factor_values (P : Py64.float -> Prop) (name : string) (trigger : bool)
  (value : outcome Py64.float) (st st' : Py64.float * dict Py64.float) :
  (trigger = true -> forall v, value = Return v -> P v) ->
  Forall (fun kv => P (snd kv)) (snd st) ->
  factor name trigger value st = Return st' ->
  Forall (fun kv => P (snd kv)) (snd st').
Proof.
  intros Hv Hst E.
  apply factor_inv in E as [[_ ->] | [Ht (v & Hval & ->)]]; trivial.
  simpl. apply dict_set_values; eauto.
Qed.

(** Every factor in the map is above zero. *)
Lemma calculate_content_risk_score_positive (features : WebpageFeatures)
  (r : ContentAnalysis) :
  calculate_content_risk_score features = Return r ->
  Forall (fun kv => (0.0 <? snd kv)%py = true) (risk_factors r).
Proof.
  intros H. scorer_steps H. injection H as <-. cbn [risk_factors].
  assert (Forall (fun kv => (0.0 <? snd kv)%py = true)
            (snd (0.0%py, @nil (string * Py64.float)))) as N by constructor.
  repeat
    match goal with
    | E : factor _ ?t ?value ?st = Return ?st',
      N : Forall _ (snd ?st) |- _ =>
        let N' := fresh "N" in
        assert (Forall (fun kv => (0.0 <? snd kv)%py = true) (snd st')) as N'
          by (refine (factor_values (fun x => (0.0 <? x)%py = true)
                        _ _ _ _ _ _ N E);
              intros Ht v Hv;
              first [ injection Hv as <-; reflexivity
                    | eapply capped_positive; [ | | | exact Hv];
                      [ first [ apply Z.ltb_lt in Ht | apply nonempty_len in Ht ]; lia
                      | simpl; lia | simpl; lia ] ]);
        clear E N
    end.
  assumption.
Qed.

(** C7.  The keys of the factor map are exactly the names whose trigger
    holds, in the order of the blocks: a factor whose trigger fails is not
    in the map at all, and every factor in the map is above zero.  The
    [hidden_elements] factor, present exactly when the count exceeds the
    allowance of 5, is [min(max(hidden_count - 5, 0) * 0.10, 0.40)]. *)
Theorem risk_factors_present_iff_triggered (features : WebpageFeatures)
  (r : ContentAnalysis) :
  calculate_content_risk_score features = Return r ->
  dict_keys (risk_factors r) = map fst (filter snd (trigger_table features))
  /\ (forall name,
         dict_mem name (risk_factors r) = true
         <-> In (name, true) (trigger_table features))
  /\ (forall name v,
         dict_get name (risk_factors r) = Some v -> (0.0 <? v)%py = true)
  /\ dict_get "hidden_elements" (risk_factors r)
     = if (0 <? Z.max (hidden_elements features - 5) 0)%Z
       then Some (hidden_elements_formula (hidden_elements features))
       else None.
Proof.
  intros H.
  pose proof (calculate_content_risk_score_keys features r H) as K.
  split; [exact K | split; [ | split]].
  2: { intros name v Hget.
       exact (dict_get_values (fun x => (0.0 <? x)%py = true) name v _
                (calculate_content_risk_score_positive features r H) Hget). }
  - intros name.
    pose proof (dict_mem_keys name (risk_factors r)) as M.
    rewrite M, K, in_map_iff. split.
    + intros ([n t] & <- & Hin). apply filter_In in Hin as [Hin Ht].
      simpl in Ht. now subst t.
    + intros Hin. exists (name, true). split; trivial.
      apply filter_In. now split.
  - scorer_steps H. injection H as <-. cbn [risk_factors].
    lookup_trace.
    rewrite (stored_capped _ _ _ _ _ _ _ E6), <- excess_pos.
    unfold hidden_elements_formula.
    destruct (Z.ltb_spec 5 (hidden_elements features)) as [Hlt | Hle]; trivial.
    now rewrite Z.max_l by lia.
Qed.

Lemma risk_factors_present_iff_triggered_witness :
  exists r,
    calculate_content_risk_score cluttered_page = Return r
    /\ dict_keys (risk_factors r) = ["hidden_elements"; "iframes"]
    /\ dict_get "hidden_elements" (risk_factors r)
       = Some (Py64.min (Py64.of_Z 3 * 0.10)%py 0.40%py).
Proof.
  eexists. split; [reflexivity | ].
  destruct (risk_factors_present_iff_triggered cluttered_page _ eq_refl)
    as (K & _ & _ & G).
  split; [exact K | exact G].
Defined.

Lemma contains_app_r (p a b : string) :
  Str.contains p b = true -> Str.contains p (a ++ b) = true.
Proof.
  intros H. induction a as [ | c a IH]; simpl; trivial.
  rewrite IH. apply Bool.orb_true_r.
Qed.

Lemma startswith_app (p a b : string) :
  Str.startswith p a = true -> Str.startswith p (a ++ b) = true.
Proof.
  revert a. induction p as [ | c p IH]; intros a; simpl; trivial.
  destruct a as [ | d a]; simpl; [discriminate | ].
  destruct (Ascii.eqb c d); simpl; auto.
Qed.

Lemma contains_app_l (p a b : string) :
  Str.contains p a = true -> Str.contains p (a ++ b) = true.
Proof.
  induction a as [ | c a IH]; simpl.
  - destruct p; simpl; [ | discriminate].
    intros _. destruct b; reflexivity.
  - intros H. apply Bool.orb_true_iff in H as [H | H].
    + apply (startswith_app p (String c a) b) in H. simpl in H.
      rewrite H. reflexivity.
    + rewrite (IH H). apply Bool.orb_true_r.
Qed.

(* ================================================================== *)
(** * The decision *)
(* ================================================================== *)

Lemma mul_nonneg (x : Py64.float) (m : positive) (e : Z) :
  Py64.nonneg x = true ->
  Py64.nonneg (x * S754_finite false m e)%py = true.
Proof.
  destruct x as [s | s | | s mx ex]; simpl; intros Hx; try discriminate; trivial.
  - destruct s; [discriminate | reflexivity].
  - destruct s; [discriminate | ].
    apply Py64Facts.signed_nonneg, Py64Facts.binary_round_aux_signed. lia.
Qed.

Lemma div_nonneg (x : Py64.float) (m : positive) (e : Z) :
  Py64.nonneg x = true ->
  Py64.nonneg (x / S754_finite false m e)%py = true.
Proof.
  destruct x as [s | s | | s mx ex]; simpl; intros Hx; try discriminate; trivial.
  - destruct s; [discriminate | reflexivity].
  - destruct s; [discriminate | ].
    unfold SFdiv_core_binary.
    match goal with
    | |- context [Z.div_eucl ?a ?b] =>
        assert (0 <= a)%Z as Ha;
        [ | pose proof (Z.div_pos a b Ha ltac:(lia)) as Hq;
            unfold Z.div in Hq; destruct (Z.div_eucl a b) as [q r] ]
    end.
    + match goal with
      | |- (0 <= match ?s with _ => _ end)%Z => destruct s eqn:Hs
      end; try lia.
      apply Z.shiftl_nonneg. lia.
    + apply Py64Facts.signed_nonneg, Py64Facts.binary_round_aux_signed, Hq.
Qed.

(** The blend of two non-negative scores is a number. *)
Lemma blend_nonneg (content_score llm_score : Py64.float) :
  Py64.nonneg content_score = true -> Py64.nonneg llm_score = true ->
  Py64.nonneg (blend content_score llm_score) = true.
Proof.
  intros Hc Hl. unfold blend.
  apply Py64Facts.add_nonneg; now apply mul_nonneg.
Qed.

(** C1, the counterexample.  The model's likelihood may be NaN:
    [json.loads] reads the token [NaN], the adapter passes the decoded
    object on, and [NaN / 100.0] is NaN.  On the trusted host github.com
    the pipeline then returns a combined score that is NaN, so it is not
    at most 0.2 (the verdict is still not phishing). *)
Lemma nan_likelihood_escapes_cap :
  div_100 (PyFloat S754_nan) = Return S754_nan
  /\ combined_risk_score (decide 0.0%py S754_nan 0.0%py) = S754_nan
  /\ (combined_risk_score (decide 0.0%py S754_nan 0.0%py) <=? 0.2)%py = false
  /\ (exists r,
         get_domain_reputation detector "https://github.com/x" = Return r
         /\ reputation_score r = 0.0%py)
  /\ exists result,
       detect_webpage_phishing detector undecided_services "https://github.com/x"
       = Return result
       /\ dict_get "combined_risk_score" result = Some (PyFloat S754_nan)
       /\ dict_get "is_phishing" result = Some (PyBool false).
Proof.
  split; [reflexivity | split; [reflexivity | split; [reflexivity | split]]].
  - eexists. split; [vm_compute; reflexivity | reflexivity].
  - eexists. split; [vm_compute; reflexivity | split; reflexivity].
Qed.

(** C1, as amended.  On a trusted domain (reputation score 0.0) the
    verdict is never phishing, whatever the heuristic total and the
    model's likelihood; the combined score is [min(blend, 0.2)], which is
    at most 0.2 exactly when the blend of the two scores is a number, as
    it is for all non-negative scores; when the blend is NaN, so is the
    combined score. *)
Theorem trusted_domain_cap (content_score llm_score reputation : Py64.float) :
  (reputation =? 0.0)%py = true ->
  is_phishing (decide content_score llm_score reputation) = false
  /\ combined_risk_score (decide content_score llm_score reputation)
     = Py64.min (blend content_score llm_score) 0.2%py
  /\ (combined_risk_score (decide content_score llm_score reputation) <=? 0.2)%py
     = negb (Py64.is_nan (blend content_score llm_score))
  /\ (Py64.is_nan (blend content_score llm_score) = true ->
      combined_risk_score (decide content_score llm_score reputation) = S754_nan)
  /\ (Py64.nonneg content_score = true -> Py64.nonneg llm_score = true ->
      (combined_risk_score (decide content_score llm_score reputation) <=? 0.2)%py
      = true).
Proof.
  intros Hrep. unfold decide. rewrite Hrep. cbn [is_phishing combined_risk_score].
  assert (forall b, Py64.is_nan b = false -> (Py64.min b 0.2 <=? 0.2)%py = true)
    as Hcap by (intros b Hb; now apply Py64Facts.min_le_r).
  split; [ | split; [reflexivity | split; [ | split]]].
  - set (b := blend content_score llm_score).
    unfold Py64.min. destruct (Py64.ltb 0.2%py b) eqn:L; [reflexivity | ].
    destruct (Py64.ltb 0.5%py b) eqn:L'; trivial.
    destruct b as [s | s | | s m e]; try destruct s; try discriminate.
    unfold Py64.ltb, SFltb in L, L'. cbn [SFcompare] in L, L'.
    destruct (Z.compare_spec (-53) e) as [E53 | E53 | E53]; try discriminate.
    + subst e. discriminate.
    + assert ((-55 ?= e)%Z = Lt) as Lt55 by (apply Z.compare_lt_iff; lia).
      rewrite Lt55 in L. discriminate.
  - destruct (Py64.is_nan (blend content_score llm_score)) eqn:Hnan.
    + destruct (blend content_score llm_score); try discriminate. reflexivity.
    + now apply Hcap.
  - intros Hnan. destruct (blend content_score llm_score); try discriminate.
    reflexivity.
  - intros Hc Hl. apply Hcap, Py64Facts.nonneg_number, blend_nonneg; assumption.
Qed.

Lemma trusted_domain_cap_witness :
  is_phishing (decide 1.0%py (100.0 / 100.0)%py 0.0%py) = false
  /\ (combined_risk_score (decide 1.0%py (100.0 / 100.0)%py 0.0%py) <=? 0.2)%py = true.
Proof.
  destruct (trusted_domain_cap 1.0%py (100.0 / 100.0)%py 0.0%py eq_refl)
    as (Hp & _ & Hc & _).
  split; [exact Hp | exact Hc].
Defined.

(** C2.  A record with 3 forms, one input descriptor that contains
    "password", 4 matched keywords, 1 suspicious-element tag, 3 hidden
    elements and nothing else scores 0.70 + 0.60 + 0.60 + 0.20 = 2.10,
    clamped to 1.0; with a model likelihood of 80 on a neutral host
    (reputation 0.5) the combined score is 0.90, the verdict is phishing
    and the confidence is 80.0. *)
Theorem end_to_end_scenario (features : WebpageFeatures) (descriptor : string) :
  forms_count features = 3%Z ->
  input_fields features = [descriptor] ->
  Str.contains "password" descriptor = true ->
  List.length (suspicious_keywords_found features) = 4%nat ->
  social_engineering_signals features = [] ->
  urgency_indicators features = 0%Z ->
  javascript_suspicious features = false ->
  popup_indicators features = 0%Z ->
  hidden_elements features = 3%Z ->
  iframe_count features = 0%Z ->
  ads_count features = 0%Z ->
  List.length (suspicious_elements features) = 1%nat ->
  calculate_content_risk_score features
  = Return {| total_risk_score := 1.0%py;
              risk_factors := [ ("forms_present", 0.70%py);
                                ("password_fields", 0.60%py);
                                ("suspicious_keywords", 0.60%py);
                                ("suspicious_elements", 0.20%py) ] |}
  /\ (0.70 + 0.60 + 0.60 + 0.20)%py = 2.10%py
  /\ Py64.min 2.10%py 1.0%py = 1.0%py
  /\ div_100 (PyInt 80) = Return 0.80%py
  /\ decide 1.0%py 0.80%py 0.5%py
     = {| is_phishing := true;
          confidence := 80.0%py;
          combined_risk_score := 0.90%py |}.
Proof.
  intros H1 H2 H3 H4 H5 H6 H7 H8 H9 H10 H11 H12.
  split; [ | repeat split; reflexivity].
  unfold calculate_content_risk_score, len.
  rewrite H1, H2, H4, H5, H6, H7, H8, H9, H10, H11, H12.
  cbn [filter]. rewrite H3. reflexivity.
Qed.

Lemma end_to_end_scenario_witness :
  calculate_content_risk_score busy_page
  = Return {| total_risk_score := 1.0%py;
              risk_factors := [ ("forms_present", 0.70%py);
                                ("password_fields", 0.60%py);
                                ("suspicious_keywords", 0.60%py);
                                ("suspicious_elements", 0.20%py) ] |}
  /\ decide 1.0%py 0.80%py 0.5%py
     = {| is_phishing := true;
          confidence := 80.0%py;
          combined_risk_score := 0.90%py |}.
Proof.
  destruct (end_to_end_scenario busy_page "password:pass:your password")
    as (Hs & _ & _ & _ & Hd); try reflexivity.
  split; [exact Hs | exact Hd].
Defined.

(* ================================================================== *)
(** * Domain reputation *)
(* ================================================================== *)

Lemma get_domain_reputation_host (self : WebpagePhishingDetector) (u : string) :
  get_domain_reputation self u =
  host <- host_of u ;;
  let trusted := existsb (fun td => Str.endswith td host) (trusted_domains self) in
  let suspicious :=
    existsb (String.eqb (Str.last_field "." host)) (suspicious_tlds self) in
  Return {| domain := host;
            tld := Str.last_field "." host;
            reputation_score :=
              if suspicious then 0.8%py else if trusted then 0.0%py else 0.5%py;
            reputation_reason :=
              ((if trusted then ["trusted_domain"] else [])
               ++ (if suspicious then ["suspicious_tld"] else []))%list |}.
Proof.
  unfold get_domain_reputation, host_of.
  destruct (Url.netloc u) as [netloc | e]; cbn [bind]; [ | reflexivity].
  set (host := if Str.startswith "www." (Str.lower netloc)
               then Str.drop 4 (Str.lower netloc) else Str.lower netloc).
  destruct (existsb (fun td => Str.endswith td host) (trusted_domains self));
    destruct (existsb (String.eqb (Str.last_field "." host)) (suspicious_tlds self));
    reflexivity.
Qed.

(** C5.  The reputation depends on the URL through its host only (the
    network location [urlparse] reads, in lower case, without a leading
    [www.]); the three sample URLs are trusted (0.0), suspicious (0.8) and
    neutral (0.5); and a host that passes both the trusted-suffix check
    and the suspicious-TLD check ends with score 0.8: the second check
    overwrites the first, and both reasons are kept.  A URL in which
    [urlparse] finds no valid host has no reputation: the evaluator raises
    the [ValueError] of [urlparse]. *)
Theorem domain_reputation_by_host :
  (forall self url url' host,
      host_of url = Return host -> host_of url' = Return host ->
      get_domain_reputation self url = get_domain_reputation self url')
  /\ (exists r,
         get_domain_reputation detector "https://github.com/x" = Return r
         /\ reputation_score r = 0.0%py /\ reputation_reason r = ["trusted_domain"])
  /\ (exists r,
         get_domain_reputation detector "http://free-prize.xyz" = Return r
         /\ reputation_score r = 0.8%py /\ reputation_reason r = ["suspicious_tld"])
  /\ (exists r,
         get_domain_reputation detector "http://unknown-site.io" = Return r
         /\ reputation_score r = 0.5%py /\ reputation_reason r = [])
  /\ (forall self url host,
         host_of url = Return host ->
         existsb (fun td => Str.endswith td host) (trusted_domains self) = true ->
         existsb (String.eqb (Str.last_field "." host)) (suspicious_tlds self) = true ->
         exists r,
           get_domain_reputation self url = Return r
           /\ reputation_score r = 0.8%py
           /\ reputation_reason r = ["trusted_domain"; "suspicious_tld"])
  /\ (forall self url e,
         Url.netloc url = Raise e -> get_domain_reputation self url = Raise e).
Proof.
  split; [ | split; [ | split; [ | split; [ | split]]]].
  - intros self u u' host Hu Hu'.
    rewrite !get_domain_reputation_host, Hu, Hu'. reflexivity.
  - eexists. split; [vm_compute; reflexivity | split; reflexivity].
  - eexists. split; [vm_compute; reflexivity | split; reflexivity].
  - eexists. split; [vm_compute; reflexivity | split; reflexivity].
  - intros self u host Hu Htrusted Htld.
    rewrite get_domain_reputation_host, Hu. cbn [bind]. cbv zeta.
    rewrite Htrusted, Htld. eexists. split; [reflexivity | split; reflexivity].
  - intros self u e Hu. unfold get_domain_reputation. now rewrite Hu.
Qed.

Lemma domain_reputation_by_host_witness :
  get_domain_reputation detector "https://www.github.com/a"
  = get_domain_reputation detector "http://GitHub.com/b?c"
  /\ (exists r,
         get_domain_reputation overlapping_detector "https://partner.xyz/" = Return r
         /\ reputation_score r = 0.8%py
         /\ reputation_reason r = ["trusted_domain"; "suspicious_tld"])
  /\ get_domain_reputation overlapping_detector "http://[partner.xyz"
     = Raise (ValueError "Invalid IPv6 URL").
Proof.
  destruct domain_reputation_by_host as (Hhost & _ & _ & _ & Hboth & Hraise).
  split; [ | split].
  - apply (Hhost detector _ _ "github.com"); vm_compute; reflexivity.
  - apply (Hboth overlapping_detector _ "partner.xyz"); vm_compute; reflexivity.
  - apply Hraise. vm_compute. reflexivity.
Defined.

(* ================================================================== *)
(** * The model judgment adapter *)
(* ================================================================== *)

Lemma brace_condition (text : string) :
  (negb (index_of (Str.find "{" text) =? -1)%Z
   && (index_of (Str.find "{" text) <? index_of (Str.rfind "}" text) + 1)%Z)%bool
  = has_brace_pair text.
Proof.
  unfold has_brace_pair, index_of.
  destruct (Str.find "{" text) as [i | ], (Str.rfind "}" text) as [j | ]; simpl.
  - destruct (Z.eqb_spec (Z.of_nat i) (-1)); [lia | ]. simpl.
    destruct (Z.ltb_spec (Z.of_nat i) (Z.of_nat j + 1)), (Nat.leb_spec i j);
      trivial; lia.
  - destruct (Z.eqb_spec (Z.of_nat i) (-1)); [lia | ]. simpl.
    destruct (Z.ltb_spec (Z.of_nat i) 0); trivial; lia.
  - reflexivity.
  - reflexivity.
Qed.

(** C4, the counterexample.  The service answers [{}]; the braces are
    there and the text decodes, so the adapter returns the empty object,
    which has none of a judgment's fields. *)
Lemma adapter_returns_invalid_record :
  analyze_content_with_llm (sample_services (Return "{}")) quiet_page = PyDict []
  /\ structurally_valid
       (analyze_content_with_llm (sample_services (Return "{}")) quiet_page) = false.
Proof. split; reflexivity. Qed.

(** C4, as amended.  The adapter always returns a value.  It is the
    degraded record (likelihood 50, confidence 0, one diagnostic red flag,
    no tactics), which is structurally valid, when the service fails, when
    the answer has no brace pair, or when the braced text does not decode;
    otherwise it is the decoded value itself, unchecked. *)
Theorem adapter_degrades_or_passes_through {Tag : Type} (svc : Services Tag)
  (features : WebpageFeatures) :
  match llm_generate svc features with
  | Raise e =>
      analyze_content_with_llm svc features
      = degraded_judgment ("LLM error: " ++ exn_str e) "LLM analysis failed"
  | Return response =>
      if has_brace_pair (Str.strip response) then
        match json_loads svc (braced (Str.strip response)) with
        | Return parsed => analyze_content_with_llm svc features = parsed
        | Raise e =>
            analyze_content_with_llm svc features
            = degraded_judgment ("LLM error: " ++ exn_str e) "LLM analysis failed"
        end
      else
        analyze_content_with_llm svc features
        = degraded_judgment "LLM parsing failed" "Could not parse LLM response"
  end
  /\ (forall flag reasoning,
         structurally_valid (degraded_judgment flag reasoning) = true
         /\ subscript (degraded_judgment flag reasoning) "phishing_likelihood"
            = Return (PyInt 50)
         /\ subscript (degraded_judgment flag reasoning) "confidence"
            = Return (PyInt 0)
         /\ subscript (degraded_judgment flag reasoning) "content_red_flags"
            = Return (PyList [PyStr flag])
         /\ subscript (degraded_judgment flag reasoning) "primary_tactics"
            = Return (PyList [])).
Proof.
  split; [ | intros; repeat split; reflexivity].
  unfold analyze_content_with_llm.
  destruct (llm_generate svc features) as [response | e]; cbn [bind]; trivial.
  rewrite brace_condition. fold (braced (Str.strip response)).
  destruct (has_brace_pair (Str.strip response)); trivial.
  destruct (json_loads svc (braced (Str.strip response))); reflexivity.
Qed.

(* ================================================================== *)
(** * A failed fetch *)
(* ================================================================== *)

(** C8, the counterexample.  With the page out of reach the pipeline
    returns a record in which two verdict fields are filled in:
    [is_phishing] is [False] and [confidence] is 0. *)
Lemma failed_fetch_fills_verdict_fields :
  detect_webpage_phishing detector unreachable_services "https://example.com"
  = Return (scrape_failure "https://example.com")
  /\ dict_get "is_phishing" (scrape_failure "https://example.com") = Some (PyBool false)
  /\ dict_get "confidence" (scrape_failure "https://example.com") = Some (PyInt 0)
  /\ ~ (forall field, In field verdict_fields ->
          dict_get field (scrape_failure "https://example.com") = None).
Proof.
  repeat split; try reflexivity.
  intros Hnone. specialize (Hnone "is_phishing" (or_introl eq_refl)). discriminate.
Qed.

Lemma detect_verdict_has_no_error {Tag : Type} `{DocumentTree Tag}
  (self : WebpagePhishingDetector) (svc : Services Tag) (u : string)
  (soup : Tag) (result : dict pyval) :
  fetch svc u = Return soup ->
  detect_webpage_phishing self svc u = Return result ->
  dict_get "error" result = None.
Proof.
  intros Hfetch Hd. unfold detect_webpage_phishing, scrape_webpage in Hd.
  apply bind_Return in Hd as (rep & _ & Hd).
  rewrite Hfetch in Hd.
  apply bind_Return in Hd as (ca & _ & Hd).
  apply bind_Return in Hd as (likelihood & _ & Hd).
  apply bind_Return in Hd as (llm_score & _ & Hd).
  injection Hd as <-. reflexivity.
Qed.

(** The three analyses a verdict of the pipeline carries.  The model's
    judgment is an object: the pipeline read its likelihood by name. *)
Lemma detect_verdict_fields {Tag : Type} `{DocumentTree Tag}
  (self : WebpagePhishingDetector) (svc : Services Tag) (u : string)
  (soup : Tag) (result : dict pyval) :
  fetch svc u = Return soup ->
  detect_webpage_phishing self svc u = Return result ->
  exists rep ca llm,
    get_domain_reputation self u = Return rep
    /\ calculate_content_risk_score (extract_webpage_features self soup) = Return ca
    /\ analyze_content_with_llm svc (extract_webpage_features self soup) = PyDict llm
    /\ dict_get "llm_analysis" result = Some (PyDict llm)
    /\ dict_get "content_analysis" result = Some (content_analysis_dict ca)
    /\ dict_get "domain_reputation" result = Some (reputation_dict rep).
Proof.
  intros Hfetch Hd. unfold detect_webpage_phishing, scrape_webpage in Hd.
  apply bind_Return in Hd as (rep & Hrep & Hd).
  rewrite Hfetch in Hd.
  apply bind_Return in Hd as (ca & Hca & Hd).
  apply bind_Return in Hd as (likelihood & Hlikelihood & Hd).
  apply bind_Return in Hd as (llm_score & _ & Hd).
  injection Hd as <-.
  destruct (analyze_content_with_llm svc (extract_webpage_features self soup))
    as [ | b | n | x | t | items | llm] eqn:Hllm; try discriminate.
  exists rep, ca, llm. repeat split; trivial.
Qed.

(** C8, as amended.  When the fetch fails, for a URL whose host the domain
    check could read, the pipeline stops and returns the failure record:
    the URL, an error message, [is_phishing = False] and [confidence = 0],
    and none of the fields of an analysis; nothing is scored and the
    text-generation service plays no part.  The record is told from a
    verdict by its [error] field, which no verdict has, and the endpoint
    answers it with the HTTP error 422 "Analysis failed".  A URL the
    domain check cannot read never reaches the fetch: the pipeline raises
    the error of the check, and the endpoint answers with the HTTP error
    500 "Internal server error". *)
Theorem failed_fetch_is_terminal {Tag : Type} `{DocumentTree Tag}
  (self : WebpagePhishingDetector) (svc : Services Tag) (u : string)
  (rep : DomainReputation) (e : exn) :
  get_domain_reputation self u = Return rep ->
  fetch svc u = Raise e ->
  detect_webpage_phishing self svc u = Return (scrape_failure u)
  /\ dict_keys (scrape_failure u) = ["url"; "error"; "is_phishing"; "confidence"]
  /\ dict_get "error" (scrape_failure u) = Some (PyStr "Failed to scrape webpage")
  /\ (forall field, In field analysis_fields -> dict_get field (scrape_failure u) = None)
  /\ (forall (svc' : Services Tag) u' soup result,
         fetch svc' u' = Return soup ->
         detect_webpage_phishing self svc' u' = Return result ->
         dict_get "error" result = None /\ result <> scrape_failure u)
  /\ (forall data_url,
         requested_url data_url = u -> Str.strip data_url <> "" ->
         predict_phishing self svc data_url
         = Raise (HTTPException 422 "Analysis failed: Failed to scrape webpage"))
  /\ (forall (svc' : Services Tag) u' e',
         get_domain_reputation self u' = Raise e' ->
         detect_webpage_phishing self svc' u' = Raise e')
  /\ (forall (svc' : Services Tag) data_url e',
         Str.strip data_url <> "" ->
         get_domain_reputation self (requested_url data_url) = Raise e' ->
         predict_phishing self svc' data_url
         = Raise (HTTPException 500 ("Internal server error: " ++ exn_str e'))).
Proof.
  intros Hrep Hfetch.
  assert (detect_webpage_phishing self svc u = Return (scrape_failure u)) as Hd.
  { unfold detect_webpage_phishing, scrape_webpage. now rewrite Hrep, Hfetch. }
  split; [exact Hd | ].
  split; [reflexivity | ].
  split; [reflexivity | ].
  split; [ | split; [ | split; [ | split]]].
  - intros field Hin. simpl in Hin.
    repeat destruct Hin as [<- | Hin]; try reflexivity; contradiction.
  - intros svc' u' soup result Hfetch' Hd'.
    pose proof (detect_verdict_has_no_error self svc' u' soup result Hfetch' Hd')
      as Hno.
    split; [exact Hno | ].
    intros ->. discriminate.
  - intros data_url Hu Hne. unfold predict_phishing.
    destruct (String.eqb_spec (Str.strip data_url) "") as [E | _]; [contradiction | ].
    fold (requested_url data_url). rewrite Hu, Hd. reflexivity.
  - intros svc' u' e' Hraise. unfold detect_webpage_phishing. now rewrite Hraise.
  - intros svc' data_url e' Hne Hraise. unfold predict_phishing.
    destruct (String.eqb_spec (Str.strip data_url) "") as [E | _]; [contradiction | ].
    fold (requested_url data_url). unfold detect_webpage_phishing.
    now rewrite Hraise.
Qed.

Lemma failed_fetch_is_terminal_witness :
  detect_webpage_phishing detector unreachable_services "https://example.com"
  = Return (scrape_failure "https://example.com")
  /\ predict_phishing detector unreachable_services " example.com "
     = Raise (HTTPException 422 "Analysis failed: Failed to scrape webpage")
  /\ detect_webpage_phishing detector unreachable_services "https://[example.com"
     = Raise (ValueError "Invalid IPv6 URL")
  /\ predict_phishing detector unreachable_services " [example.com "
     = Raise (HTTPException 500 "Internal server error: Invalid IPv6 URL").
Proof.
  assert (exists rep,
             get_domain_reputation detector "https://example.com" = Return rep)
    as [rep Hrep] by (eexists; vm_compute; reflexivity).
  destruct (failed_fetch_is_terminal detector unreachable_services
              "https://example.com" rep (RequestException "connection refused")
              Hrep eq_refl)
    as (Hd & _ & _ & _ & _ & Hp & Hraise & Hserver).
  split; [exact Hd | split; [ | split]].
  - apply Hp; [reflexivity | discriminate].
  - apply Hraise. vm_compute. reflexivity.
  - apply (Hserver unreachable_services " [example.com "
             (ValueError "Invalid IPv6 URL")); [discriminate | ].
    vm_compute. reflexivity.
Defined.

(* ================================================================== *)
(** * The red flags of the endpoint *)
(* ================================================================== *)

Lemma Return_eq {A : Type} (a b : A) : Return a = Return b -> a = b.
Proof. congruence. Qed.

Lemma str_list_py_strs (l : list string) : str_list (py_strs l) = Some l.
Proof.
  unfold py_strs, str_list. induction l as [ | x l IH]; simpl; trivial.
  now rewrite IH.
Qed.

Lemma str_list_inv (items : list pyval) (l : list string) :
  str_list (PyList items) = Some l -> items = map PyStr l.
Proof.
  revert l. induction items as [ | x items IH]; intros l; cbn [str_list fold_right].
  - intros E. injection E as <-. reflexivity.
  - change (fold_right _ (Some []) items) with (str_list (PyList items)).
    destruct x; try discriminate.
    destruct (str_list (PyList items)) as [l' | ]; [ | discriminate].
    intros E. injection E as <-. cbn [map]. now rewrite (IH l' eq_refl).
Qed.

Lemma factor_flags_py_floats (factors : dict Py64.float) :
  factor_flags (map (fun kv => (fst kv, PyFloat (snd kv))) factors)
  = significant_factors factors.
Proof.
  unfold factor_flags, significant_factors.
  induction factors as [ | [k v] d IH]; trivial.
  cbn [map flat_map fst snd]. now f_equal.
Qed.

Lemma existsb_eqb_In (x : string) (l : list string) :
  existsb (String.eqb x) l = true <-> In x l.
Proof.
  rewrite existsb_exists. split.
  - intros (y & Hin & E). apply String.eqb_eq in E. now subst.
  - intros Hin. exists x. split; trivial. apply String.eqb_refl.
Qed.

Lemma first_seen_from_ext (s1 s2 l : list string) :
  (forall y, In y s1 <-> In y s2) -> first_seen_from s1 l = first_seen_from s2 l.
Proof.
  revert s1 s2. induction l as [ | x l IH]; intros s1 s2 Hs; simpl; trivial.
  assert (existsb (String.eqb x) s1 = existsb (String.eqb x) s2) as E.
  { destruct (existsb (String.eqb x) s1) eqn:E1, (existsb (String.eqb x) s2) eqn:E2;
      trivial.
    - apply existsb_eqb_In, Hs, existsb_eqb_In in E1. congruence.
    - apply existsb_eqb_In, Hs, existsb_eqb_In in E2. congruence. }
  rewrite E. destruct (existsb (String.eqb x) s2).
  - now apply IH.
  - f_equal. apply IH. intros y. simpl. now rewrite Hs.
Qed.

Lemma first_seen_from_In (seen l : list string) (x : string) :
  In x (first_seen_from seen l) <-> In x l /\ ~ In x seen.
Proof.
  revert seen. induction l as [ | a l IH]; intros seen; simpl.
  - tauto.
  - destruct (existsb (String.eqb a) seen) eqn:E.
    + apply existsb_eqb_In in E. rewrite IH. split.
      * tauto.
      * intros [[-> | Hin] Hn]; [contradiction | tauto].
    + assert (~ In a seen) as Hn
        by (intros Hin; apply existsb_eqb_In in Hin; congruence).
      simpl. rewrite IH. simpl. split.
      * intros [-> | (Hin & Hs)]; [tauto | tauto].
      * intros [[-> | Hin] Hs]; [tauto | ].
        destruct (string_dec a x) as [-> | Hne]; [tauto | right; tauto].
Qed.

Lemma first_seen_from_NoDup (seen l : list string) :
  NoDup (first_seen_from seen l).
Proof.
  revert seen. induction l as [ | a l IH]; intros seen; simpl.
  - constructor.
  - destruct (existsb (String.eqb a) seen); trivial.
    constructor; trivial.
    rewrite first_seen_from_In. simpl. tauto.
Qed.

Lemma dict_keys_set_present {V : Type} (k : string) (v : V) (d : dict V) :
  In k (dict_keys d) -> dict_keys (dict_set k v d) = dict_keys d.
Proof.
  unfold dict_keys. induction d as [ | [k0 v0] d IH]; simpl; [tauto | ].
  destruct (String.eqb_spec k0 k) as [-> | Hne]; simpl; trivial.
  intros [E | Hin]; [contradiction | ]. now rewrite IH.
Qed.

Lemma dict_get_None_keys {V : Type} (k : string) (d : dict V) :
  ~ In k (dict_keys d) -> dict_get k d = None.
Proof.
  intros Hn. pose proof (dict_mem_keys k d) as M. unfold dict_mem in M.
  destruct (dict_get k d); trivial. exfalso. apply Hn, M. reflexivity.
Qed.

(** ** The keys of [dict.fromkeys] *)

Lemma first_values_from_ext (s1 s2 l : list pyval) :
  (forall x, existsb (py_eqb x) s1 = existsb (py_eqb x) s2) ->
  first_values_from s1 l = first_values_from s2 l.
Proof.
  revert s1 s2. induction l as [ | x l IH]; intros s1 s2 Hs; cbn [first_values_from];
    trivial.
  rewrite (Hs x). destruct (existsb (py_eqb x) s2).
  - now apply IH.
  - f_equal. apply IH. intros y. cbn [existsb]. now rewrite Hs.
Qed.

(** [dict.fromkeys] keeps the first of each group of equal values, in
    order, as long as every value can be hashed. *)
Lemma from_keys_first_values (l keys out : list pyval) :
  from_keys keys l = Return out ->
  out = (keys ++ first_values_from keys l)%list.
Proof.
  revert keys. induction l as [ | x l IH]; intros keys; cbn [from_keys first_values_from].
  - intros E. injection E as <-. now rewrite app_nil_r.
  - destruct (check_hashable x) as [[] | e]; cbn [bind]; [ | discriminate].
    destruct (existsb (py_eqb x) keys) eqn:E; intros Hout.
    + now apply IH.
    + rewrite (IH _ Hout), <- app_assoc. cbn [app]. do 2 f_equal.
      apply first_values_from_ext. intros y.
      rewrite existsb_app. cbn [existsb]. rewrite Bool.orb_false_r.
      apply Bool.orb_comm.
Qed.

Lemma from_keys_hashable (l keys : list pyval) :
  Forall (fun x => check_hashable x = Return tt) l ->
  from_keys keys l = Return (keys ++ first_values_from keys l)%list.
Proof.
  intros Hl. revert keys. induction Hl as [ | x l Hx Hl IH]; intros keys;
    cbn [from_keys first_values_from].
  - now rewrite app_nil_r.
  - rewrite Hx. cbn [bind].
    destruct (from_keys (if existsb (py_eqb x) keys then keys else (keys ++ [x])%list) l)
      as [out | e] eqn:E; [ | now rewrite IH in E].
    pose proof E as E'.
    assert (from_keys keys (x :: l) = Return out) as Hcons
      by (cbn [from_keys]; rewrite Hx; exact E).
    apply from_keys_first_values in Hcons. cbn [first_values_from] in Hcons.
    now rewrite Hcons.
Qed.

Lemma from_keys_Raise (l keys : list pyval) (e : exn) :
  from_keys keys l = Raise e ->
  exists x, In x l /\ check_hashable x = Raise e.
Proof.
  revert keys. induction l as [ | x l IH]; intros keys; cbn [from_keys];
    [discriminate | ].
  destruct (check_hashable x) as [[] | e'] eqn:Hx; cbn [bind].
  - intros E. destruct (IH _ E) as (y & Hin & Hy). exists y. split; [now right | exact Hy].
  - intros E. injection E as ->. exists x. split; [now left | exact Hx].
Qed.

Lemma existsb_py_eqb_strs (x : string) (keys : list string) :
  existsb (py_eqb (PyStr x)) (map PyStr keys) = existsb (String.eqb x) keys.
Proof. induction keys as [ | k keys IH]; cbn [map existsb py_eqb]; congruence. Qed.

Lemma first_values_from_strs (seen l : list string) :
  first_values_from (map PyStr seen) (map PyStr l)
  = map PyStr (first_seen_from seen l).
Proof.
  revert seen. induction l as [ | x l IH]; intros seen;
    cbn [map first_values_from first_seen_from]; trivial.
  rewrite existsb_py_eqb_strs. destruct (existsb (String.eqb x) seen).
  - apply IH.
  - cbn [map]. f_equal. exact (IH (x :: seen)).
Qed.

(** On strings, [list(dict.fromkeys(l))] keeps the first occurrence of
    each member. *)
Lemma from_keys_strs (l : list string) :
  from_keys [] (map PyStr l) = Return (map PyStr (first_seen l)).
Proof.
  rewrite from_keys_hashable.
  - cbn [app]. unfold first_seen. f_equal. exact (first_values_from_strs [] l).
  - apply Forall_forall. intros x Hin. apply in_map_iff in Hin as (y & <- & _).
    reflexivity.
Qed.

Lemma py_eqb_sym (a b : pyval) : py_eqb a b = py_eqb b a.
Proof.
  destruct a, b; cbn [py_eqb]; trivial;
    try apply Z.eqb_sym; try apply String.eqb_sym.
  - destruct b, b0; reflexivity.
  - f_equal.
    + unfold Py64.eqb, SFeqb. rewrite (Py64Facts.compare_antisym x x0).
      destruct (SFcompare x0 x) as [[ | | ] | ]; reflexivity.
    + apply Bool.andb_comm.
Qed.

Lemma first_values_from_fresh (seen l : list pyval) :
  fresh_values seen (first_values_from seen l).
Proof.
  revert seen. induction l as [ | x l IH]; intros seen; cbn [first_values_from].
  - exact I.
  - destruct (existsb (py_eqb x) seen) eqn:E; [apply IH | ].
    cbn [fresh_values]. split; [exact E | ].
    specialize (IH (x :: seen)).
    assert (forall l', fresh_values (x :: seen) l' ->
                       existsb (py_eqb x) l' = false /\ fresh_values seen l') as G.
    { induction l' as [ | y l' IHl]; cbn [fresh_values existsb]; [tauto | ].
      intros (Hy & Hy' & Hl'). apply Bool.orb_false_elim in Hy as [Hyx Hys].
      destruct (IHl Hl') as [Hx Hfresh].
      rewrite (py_eqb_sym x y), Hyx, Hx. tauto. }
    exact (G _ IH).
Qed.

Lemma fresh_values_strs (seen : list pyval) (l : list string) :
  fresh_values seen (map PyStr l) -> NoDup l.
Proof.
  induction l as [ | x l IH]; cbn [map fresh_values]; intros Hl; constructor.
  - destruct Hl as (_ & Hx & _). rewrite existsb_py_eqb_strs in Hx.
    intros Hin. apply existsb_eqb_In in Hin. congruence.
  - apply IH. tauto.
Qed.

Lemma fresh_values_firstn (n : nat) (seen l : list pyval) :
  fresh_values seen l -> fresh_values seen (firstn n l).
Proof.
  revert n. induction l as [ | x l IH]; intros [ | n]; cbn [firstn fresh_values];
    trivial.
  intros (Hs & Hx & Hl). split; [exact Hs | split; [ | now apply IH]].
  rewrite <- (firstn_skipn n l), existsb_app in Hx.
  now apply Bool.orb_false_elim in Hx.
Qed.

(** ** The list the endpoint collects *)

Section CollectedFlags.
Variables (result llm content rep : dict pyval).
Variables (reasons : list string) (factors : dict Py64.float) (score : Py64.float).
Hypothesis (Hllm : dict_get "llm_analysis" result = Some (PyDict llm)).
Hypothesis (Hcontent : dict_get "content_analysis" result = Some (PyDict content)).
Hypothesis (Hfactors : dict_get "risk_factors" content = Some (py_floats factors)).
Hypothesis (Hrep : dict_get "domain_reputation" result = Some (PyDict rep)).
Hypothesis (Hscore : dict_get "reputation_score" rep = Some (PyFloat score)).
Hypothesis (Hreasons : dict_get "reputation_reason" rep = Some (py_strs reasons)).

Lemma collect_red_flags_items :
  collect_red_flags result
  = (flag_items <- field_items (dict_get "content_red_flags" llm) ;;
     tactic_items <- field_items (dict_get "primary_tactics" llm) ;;
     keys <- from_keys [] (candidate_values flag_items tactic_items factors score reasons) ;;
     Return (firstn 4 keys)).
Proof.
  unfold collect_red_flags, get_dict, extend_from, dict_mem, field_items.
  rewrite Hllm, Hcontent, Hfactors, Hrep, Hscore, Hreasons.
  destruct (dict_get "content_red_flags" llm) as [flags | ];
    [destruct (py_iter flags) as [flag_items | e]; cbn [bind]; [ | reflexivity] | ];
    (destruct (dict_get "primary_tactics" llm) as [tactics | ];
     [destruct (py_iter tactics) as [tactic_items | e]; cbn [bind]; [ | reflexivity] | ]);
    cbn [bind app map]; unfold py_floats; rewrite factor_flags_py_floats;
    unfold candidate_values, py_strs; cbn [py_iter]; cbn [app map];
    destruct (0.8 <=? score)%py; cbn [bind];
    rewrite ?map_map, ?map_id, <- ?app_assoc, ?app_nil_r; cbn [py_str app];
    reflexivity.
Qed.

Lemma collect_red_flags_strs (flags tactics : list string) :
  listed (dict_get "content_red_flags" llm) flags ->
  listed (dict_get "primary_tactics" llm) tactics ->
  collect_red_flags result
  = Return (map PyStr
              (firstn 4 (first_seen (candidate_flags flags tactics factors score reasons)))).
Proof.
  intros Hflags Htactics. rewrite collect_red_flags_items.
  assert (forall field l, listed field l -> field_items field = Return (map PyStr l))
    as Hitems by (intros field l [-> | [-> ->]]; reflexivity).
  rewrite (Hitems _ _ Hflags), (Hitems _ _ Htactics). cbn [bind].
  assert (candidate_values (map PyStr flags) (map PyStr tactics) factors score reasons
          = map PyStr (candidate_flags flags tactics factors score reasons)) as ->.
  { unfold candidate_values, candidate_flags.
    rewrite !map_app, !map_map. cbn [py_str].
    destruct (0.8 <=? score)%py; rewrite ?map_map; reflexivity. }
  rewrite from_keys_strs. cbn [bind]. now rewrite firstn_map.
Qed.

End CollectedFlags.

(** What [collect_red_flags] returns is the head of a list of first
    values. *)
Lemma collect_red_flags_Return (result : dict pyval) (out : list pyval) :
  collect_red_flags result = Return out ->
  exists values, out = firstn 4 (first_values values).
Proof.
  unfold collect_red_flags. intros Hout.
  apply bind_Return in Hout as (f1 & _ & Hout).
  apply bind_Return in Hout as (f2 & _ & Hout).
  apply bind_Return in Hout as (f3 & _ & Hout).
  apply bind_Return in Hout as (keys & Hkeys & Hout).
  injection Hout as <-. apply from_keys_first_values in Hkeys. subst keys.
  eexists. reflexivity.
Qed.

(** The red flags of a response are distinct and at most four. *)
Lemma new_response_Return {Tag : Type} (svc : Services Tag) (u : string)
  (p : Z) (r : Py64.float) (values : list pyval) (response : PhishingResponse) :
  new_response svc u p r (firstn 4 (first_values values)) = Return response ->
  response = {| url := u; prediction := p; risk_score := r;
                red_flags := red_flags response |}
  /\ map PyStr (red_flags response) = firstn 4 (first_values values)
  /\ NoDup (red_flags response)
  /\ (List.length (red_flags response) <= 4)%nat.
Proof.
  unfold new_response.
  destruct (str_list (PyList (firstn 4 (first_values values)))) as [flags | ] eqn:E;
    [ | discriminate].
  intros Hr. injection Hr as <-. cbn [red_flags].
  apply str_list_inv in E.
  split; [reflexivity | split; [now rewrite E | split]].
  - apply (fresh_values_strs []). rewrite <- E.
    apply fresh_values_firstn, first_values_from_fresh.
  - rewrite <- (length_map PyStr), <- E. apply firstn_le_length.
Qed.

(** C9, the counterexample.  On a suspicious top-level domain the endpoint
    lists the reason as "Domain: suspicious_tld", not as the reason
    itself. *)
Lemma domain_reason_is_prefixed :
  (exists response,
      predict_phishing detector blank_services "http://free-prize.xyz"
      = Return response
      /\ red_flags response = ["LLM parsing failed"; "Domain: suspicious_tld"])
  /\ firstn 4 (first_seen
                 (candidate_flags_as_specified ["LLM parsing failed"] [] []
                    0.8%py ["suspicious_tld"]))
     = ["LLM parsing failed"; "suspicious_tld"]
  /\ exists r,
       get_domain_reputation detector "http://free-prize.xyz" = Return r
       /\ reputation_score r = 0.8%py /\ reputation_reason r = ["suspicious_tld"].
Proof.
  split; [ | split].
  - eexists. split; vm_compute; reflexivity.
  - reflexivity.
  - eexists. split; [vm_compute; reflexivity | split; reflexivity].
Qed.

(** C9, as amended.  The red flags are the items of the model's content
    red flags, the items of its tactics each shown as text and prefixed
    "Tactic: ", the heuristic factors above 0.1 as "<Title>: <score to 2
    decimals>", and, when the reputation score is at least 0.8, the
    domain's reasons each prefixed "Domain: "; in that order, each kept at
    its first occurrence only, and cut to 4 entries.  The items of a field
    are the members of a list, the characters of a string, the keys of an
    object, and none when the field is absent; a field of another type,
    or an item that cannot be hashed, makes the assembly raise a
    [TypeError].  For lists of strings the result is the list of the first
    occurrences of the strings, cut to 4; the response takes a list of
    strings as it is and refuses any other.  Every verdict of the
    pipeline has the three analyses the assembly reads, so its red flags
    are assembled in this way from the model's judgment, the scorer's
    factors and the reputation of the host. *)
Theorem red_flags_assembly (result llm content rep : dict pyval)
  (reasons : list string) (factors : dict Py64.float) (score : Py64.float) :
  dict_get "llm_analysis" result = Some (PyDict llm) ->
  dict_get "content_analysis" result = Some (PyDict content) ->
  dict_get "risk_factors" content = Some (py_floats factors) ->
  dict_get "domain_reputation" result = Some (PyDict rep) ->
  dict_get "reputation_score" rep = Some (PyFloat score) ->
  dict_get "reputation_reason" rep = Some (py_strs reasons) ->
  collect_red_flags result
  = (flag_items <- field_items (dict_get "content_red_flags" llm) ;;
     tactic_items <- field_items (dict_get "primary_tactics" llm) ;;
     keys <- from_keys [] (candidate_values flag_items tactic_items factors score reasons) ;;
     Return (firstn 4 keys))
  /\ (forall values,
         (Forall (fun x => check_hashable x = Return tt) values ->
          from_keys [] values = Return (first_values values))
         /\ (forall e, from_keys [] values = Raise e ->
               exists x, In x values /\ check_hashable x = Raise e))
  /\ (forall flags tactics,
         listed (dict_get "content_red_flags" llm) flags ->
         listed (dict_get "primary_tactics" llm) tactics ->
         let shown :=
           firstn 4 (first_seen (candidate_flags flags tactics factors score reasons)) in
         collect_red_flags result = Return (map PyStr shown)
         /\ NoDup shown
         /\ (List.length shown <= 4)%nat
         /\ (forall flag,
               In flag (first_seen (candidate_flags flags tactics factors score reasons))
               <-> In flag (candidate_flags flags tactics factors score reasons)))
  /\ (forall (Tag : Type) (svc : Services Tag) u p r (out : list pyval),
         match str_list (PyList out) with
         | Some shown =>
             new_response svc u p r out
             = Return {| url := u; prediction := p; risk_score := r;
                         red_flags := shown |}
         | None =>
             new_response svc u p r out
             = Raise (ValidationError (validation_error svc out))
         end)
  /\ (forall (Tag : Type) (tree : DocumentTree Tag) (self : WebpagePhishingDetector)
             (svc : Services Tag) u soup verdict,
         fetch svc u = Return soup ->
         detect_webpage_phishing self svc u = Return verdict ->
         exists domain_reputation content_analysis llm_analysis,
           get_domain_reputation self u = Return domain_reputation
           /\ calculate_content_risk_score (extract_webpage_features self soup)
              = Return content_analysis
           /\ analyze_content_with_llm svc (extract_webpage_features self soup)
              = PyDict llm_analysis
           /\ collect_red_flags verdict
              = (flag_items <- field_items (dict_get "content_red_flags" llm_analysis) ;;
                 tactic_items <- field_items (dict_get "primary_tactics" llm_analysis) ;;
                 keys <- from_keys []
                           (candidate_values flag_items tactic_items
                              (risk_factors content_analysis)
                              (reputation_score domain_reputation)
                              (reputation_reason domain_reputation)) ;;
                 Return (firstn 4 keys))).
Proof.
  intros Hllm Hcontent Hfactors Hrep Hscore Hreasons.
  split; [ | split; [ | split; [ | split]]].
  - now apply (collect_red_flags_items result llm content rep reasons factors score).
  - intros values. split.
    + intros Hall. now rewrite from_keys_hashable.
    + apply from_keys_Raise.
  - intros flags tactics Hflags Htactics shown.
    split; [ | split; [ | split]].
    + now apply (collect_red_flags_strs result llm content rep reasons factors score).
    + unfold shown. set (l := first_seen _).
      assert (NoDup l) as Hl by apply first_seen_from_NoDup.
      clearbody l. rewrite <- (firstn_skipn 4 l) in Hl.
      now apply NoDup_app_remove_r in Hl.
    + apply firstn_le_length.
    + intros flag. unfold first_seen. rewrite first_seen_from_In. simpl. tauto.
  - intros Tag svc u p r out. unfold new_response.
    destruct (str_list (PyList out)); reflexivity.
  - intros Tag tree self svc u soup verdict Hfetch Hd.
    destruct (detect_verdict_fields self svc u soup verdict Hfetch Hd)
      as (dr & ca & la & Hdr & Hca & Hla & Hr1 & Hr2 & Hr3).
    exists dr, ca, la. repeat (split; [assumption | ]).
    now apply (collect_red_flags_items verdict la _ _ (reputation_reason dr)
                 (risk_factors ca) (reputation_score dr) Hr1 Hr2 eq_refl Hr3).
Qed.

Lemma red_flags_assembly_witness :
  collect_red_flags
    [ ("llm_analysis",
       PyDict [ ("content_red_flags", py_strs ["Asks for a password"]);
                ("primary_tactics", py_strs ["urgency"; "urgency"]) ]);
      ("content_analysis",
       PyDict [ ("risk_factors",
                 py_floats [("forms_present", 0.7%py); ("iframes", 0.1%py)]) ]);
      ("domain_reputation",
       PyDict [ ("reputation_score", PyFloat 0.8%py);
                ("reputation_reason", py_strs ["suspicious_tld"]) ]) ]
  = Return (map PyStr [ "Asks for a password"; "Tactic: urgency"; "Forms Present: 0.70";
                        "Domain: suspicious_tld" ])
  /\ collect_red_flags
       [ ("llm_analysis",
          PyDict [ ("content_red_flags", PyStr "none");
                   ("primary_tactics", PyList [PyInt 1]) ]);
         ("content_analysis", PyDict [ ("risk_factors", py_floats []) ]);
         ("domain_reputation",
          PyDict [ ("reputation_score", PyFloat 0.5%py);
                   ("reputation_reason", py_strs []) ]) ]
     = Return (map PyStr ["n"; "o"; "e"; "Tactic: 1"]).
Proof.
  split.
  - refine (proj1 (proj1 (proj2 (proj2 (red_flags_assembly _ _ _ _
                     ["suspicious_tld"]
                     [("forms_present", 0.7%py); ("iframes", 0.1%py)] 0.8%py
                     _ _ _ _ _ _))) ["Asks for a password"] ["urgency"; "urgency"] _ _));
      try reflexivity; left; reflexivity.
  - match goal with
    | |- collect_red_flags ?result = _ =>
        destruct (red_flags_assembly result
                    [ ("content_red_flags", PyStr "none");
                      ("primary_tactics", PyList [PyInt 1]) ]
                    [ ("risk_factors", py_floats []) ]
                    [ ("reputation_score", PyFloat 0.5%py);
                      ("reputation_reason", py_strs []) ]
                    [] [] 0.5%py eq_refl eq_refl eq_refl eq_refl eq_refl eq_refl)
          as (Hitems & _)
    end.
    rewrite Hitems. reflexivity.
Defined.

(* ================================================================== *)
(** * The feature extractor *)
(* ================================================================== *)

Lemma len_nonneg {A : Type} (l : list A) : (0 <= len l)%Z.
Proof. unfold len. lia. Qed.

Lemma length_take (n : nat) (s : string) : (String.length (Str.take n s) <= n)%nat.
Proof.
  revert s. induction n as [ | n IH]; intros s; simpl; [lia | ].
  destruct s as [ | c s]; simpl; [lia | ]. specialize (IH s). lia.
Qed.

Lemma NoDup_by_nodup (l : list string) : nodup string_dec l = l -> NoDup l.
Proof. intros E. rewrite <- E. apply NoDup_nodup. Qed.

Lemma detector_vocabularies_distinct :
  NoDup (suspicious_keywords detector)
  /\ NoDup (social_engineering_phrases detector).
Proof. split; apply NoDup_by_nodup; vm_compute; reflexivity. Qed.

Lemma kept_images_distinct {A B : Type} (keep : A -> bool) (image : A -> B) :
  forall xs, NoDup (map image xs) -> NoDup (map image (filter keep xs)).
Proof.
  intros xs. induction xs as [ | x xs IH]; cbn [map filter]; intros Hd.
  - exact Hd.
  - apply NoDup_cons_iff in Hd as [Hfresh Hrest].
    destruct (keep x); cbn [map]; [ | auto].
    apply NoDup_cons; [ | auto].
    rewrite in_map_iff. intros (y & Hy & Hin).
    apply filter_In in Hin as [Hin _].
    apply Hfresh. rewrite in_map_iff. eauto.
Qed.

Lemma fold_left_conditional_append {A B : Type} (p : A -> bool) (f : A -> B)
  (l : list A) (acc : list B) :
  fold_left (fun acc a => if p a then (acc ++ [f a])%list else acc) l acc
  = (acc ++ map f (filter p l))%list.
Proof.
  revert acc. induction l as [ | a l IH]; intros acc; simpl.
  - now rewrite app_nil_r.
  - rewrite IH. destruct (p a); simpl; trivial.
    now rewrite <- app_assoc.
Qed.

Lemma head_in_weaken (c : ascii) (heads : list ascii) (l : list string) :
  Forall (head_in heads) l -> Forall (head_in (c :: heads)) l.
Proof.
  intros Hl. eapply Forall_impl; [ | exact Hl].
  intros [ | a s]; simpl; tauto.
Qed.

(** A list whose members start with known characters may take one more
    member that starts with a new one. *)
Lemma NoDup_snoc_head (c : ascii) (tail : string) (heads : list ascii)
  (l : list string) (b : bool) :
  ~ In c heads -> NoDup l -> Forall (head_in heads) l ->
  NoDup (if b then (l ++ [String c tail])%list else l)
  /\ Forall (head_in (c :: heads)) (if b then (l ++ [String c tail])%list else l).
Proof.
  intros Hc Hl Hh. destruct b.
  - split.
    + apply NoDup_app; trivial.
      * constructor; [intros [] | constructor].
      * intros a Ha [<- | []].
        rewrite Forall_forall in Hh. apply Hh in Ha. simpl in Ha. contradiction.
    + apply Forall_app. split; [now apply head_in_weaken | ].
      constructor; [simpl; tauto | constructor].
  - split; [trivial | now apply head_in_weaken].
Qed.

Lemma NoDup_app_heads (c : ascii) (heads : list ascii) (l l' : list string) :
  ~ In c heads -> NoDup l -> Forall (head_in heads) l ->
  NoDup l' -> Forall (head_in [c]) l' ->
  NoDup (l ++ l') /\ Forall (head_in (c :: heads)) (l ++ l').
Proof.
  intros Hc Hl Hh Hl' Hh'. split.
  - apply NoDup_app; trivial.
    intros a Ha Ha'. rewrite Forall_forall in Hh, Hh'.
    apply Hh in Ha. apply Hh' in Ha'.
    destruct a as [ | d s]; simpl in *; [contradiction | ].
    destruct Ha' as [<- | []]. contradiction.
  - apply Forall_app. split; [now apply head_in_weaken | ].
    eapply Forall_impl; [ | exact Hh'].
    intros [ | d s]; simpl; tauto.
Qed.

Lemma sensitive_tags_distinct (p : string -> bool) :
  NoDup (map (fun pattern => "sensitive_data_request:" ++ pattern)
             (filter p sensitive_patterns))
  /\ Forall (head_in ["s"%char])
            (map (fun pattern => "sensitive_data_request:" ++ pattern)
                 (filter p sensitive_patterns)).
Proof.
  split.
  - apply kept_images_distinct, NoDup_by_nodup. vm_compute. reflexivity.
  - apply Forall_forall. intros x Hx.
    apply in_map_iff in Hx as (y & <- & _). simpl. tauto.
Qed.

Section ExtractorFacts.
Context {Tag : Type} `{DocumentTree Tag}.

Lemma extract_suspicious_elements_NoDup (self : WebpagePhishingDetector)
  (soup : Tag) :
  NoDup (suspicious_elements (extract_webpage_features self soup)).
Proof.
  unfold extract_webpage_features.
  destruct (fold_left scan_form _ _) as [fields actions].
  destruct (fold_left scan_script _ _) as [js scripts].
  cbn [suspicious_elements]. cbv zeta.
  rewrite fold_left_conditional_append.
  set (text := Str.lower (get_text soup)).
  set (forms := find_all soup (by_tag "form")).
  set (badges := find_all soup (by_tag_attr "img" "src" _)).
  set (passwords := find_all soup (by_tag_attr "input" "type" _)).
  assert (NoDup (match passwords with
                 | [] => []
                 | _ :: _ =>
                     ([] ++ [("password_fields:" ++ Str.of_int (len passwords))%string])%list
                 end)
          /\ Forall (head_in ["p"%char])
               (match passwords with
                | [] => []
                | _ :: _ =>
                    ([] ++ [("password_fields:" ++ Str.of_int (len passwords))%string])%list
                end)) as [N1 F1].
  { destruct passwords; simpl.
    - split; constructor.
    - split; repeat constructor; simpl; tauto. }
  destruct (sensitive_tags_distinct (fun pattern => Re.search_i pattern text))
    as [NS FS].
  destruct (NoDup_app_heads "s" ["p"%char] _ _
              ltac:(simpl; intuition discriminate) N1 F1 NS FS) as [N2 F2].
  destruct (NoDup_snoc_head "m" ("ultiple_forms:" ++ Str.of_int (len forms))
              ["s"; "p"]%char _ (2 <? len forms)%Z
              ltac:(simpl; intuition discriminate) N2 F2) as [N3 F3].
  destruct (NoDup_snoc_head "e" ("xcessive_security_badges:" ++ Str.of_int (len badges))
              ["m"; "s"; "p"]%char _ (3 <? len badges)%Z
              ltac:(simpl; intuition discriminate) N3 F3) as [N4 F4].
  destruct (NoDup_snoc_head "c" "ountdown_timer" ["e"; "m"; "s"; "p"]%char _
              (Re.search_i "countdown|timer|expires?.*\d|time.*left" text)
              ltac:(simpl; intuition discriminate) N4 F4) as [N5 F5].
  destruct (NoDup_snoc_head "f" "ake_error_messages"
              ["c"; "e"; "m"; "s"; "p"]%char _
              (Re.search_i
                 "error.*occurred|something.*wrong|try.*again|failed.*login" text)
              ltac:(simpl; intuition discriminate) N5 F5) as [N6 _].
  exact N6.
Qed.

Lemma extract_features_invariant (self : WebpagePhishingDetector) (soup : Tag) :
  NoDup (suspicious_keywords self) ->
  NoDup (social_engineering_phrases self) ->
  features_invariant (extract_webpage_features self soup).
Proof.
  intros Hk Hp.
  pose proof (extract_suspicious_elements_NoDup self soup) as Hs.
  revert Hs. unfold features_invariant, counts_nonneg, extract_webpage_features.
  destruct (fold_left scan_form _ _) as [fields actions].
  destruct (fold_left scan_script _ _) as [js scripts].
  cbv zeta. cbn [forms_count popup_indicators ads_count iframe_count
                 hidden_elements urgency_indicators suspicious_keywords_found
                 social_engineering_signals suspicious_elements
                 suspicious_scripts text_content].
  intros Hs.
  repeat match goal with
         | |- context [len ?l] =>
             pose proof (len_nonneg l); generalize dependent (len l); intros
         end.
  repeat split; try lia.
  - now apply NoDup_filter.
  - now apply NoDup_filter.
  - exact Hs.
  - apply NoDup_nodup.
  - apply length_take.
Qed.

End ExtractorFacts.

(** C6, the counterexample.  A page with two copies of one form: the
    extractor lists the inputs' descriptors twice and the form's action
    twice. *)
Lemma repeated_forms_repeat_entries :
  input_fields (extract_webpage_features detector twin_forms_page)
  = ["text:user:"; "password:pass:"; "text:user:"; "password:pass:"]
  /\ form_actions (extract_webpage_features detector twin_forms_page)
     = ["/login"; "/login"]
  /\ ~ features_invariant_as_specified
         (extract_webpage_features detector twin_forms_page).
Proof.
  split; [reflexivity | split; [reflexivity | ]].
  intros (_ & _ & Hactions & _).
  change (NoDup ["/login"; "/login"]) in Hactions.
  inversion Hactions as [ | ? ? Hn _]; subst.
  apply Hn. simpl. tauto.
Qed.

(** C6, as amended.  Whatever the document, the extractor's counts are
    non-negative, the matched keywords, the matched phrases, the
    suspicious-element tags and the script patterns have no duplicates and
    the text body has at most 2000 characters; this holds for any
    vocabularies without repeats, and so for the detector's own.  (The
    input descriptors and the form actions are listed once per input and
    per form, repeats included.) *)
Theorem extractor_invariant :
  (forall (Tag : Type) (tree : DocumentTree Tag) (self : WebpagePhishingDetector)
          (soup : Tag),
      NoDup (suspicious_keywords self) ->
      NoDup (social_engineering_phrases self) ->
      features_invariant (extract_webpage_features self soup))
  /\ (forall (Tag : Type) (tree : DocumentTree Tag) (soup : Tag),
         features_invariant (extract_webpage_features detector soup)).
Proof.
  split.
  - intros Tag tree self soup. apply extract_features_invariant.
  - intros Tag tree soup.
    destruct detector_vocabularies_distinct as [Hk Hp].
    now apply extract_features_invariant.
Qed.

Lemma extractor_invariant_witness :
  features_invariant (extract_webpage_features detector twin_forms_page)
  /\ features_invariant (extract_webpage_features overlapping_detector blank_page).
Proof.
  destruct extractor_invariant as [Hany Hown].
  split.
  - apply Hown.
  - apply Hany; apply NoDup_by_nodup; vm_compute; reflexivity.
Defined.

(* ================================================================== *)
(** * The size of a product of an int and a weight *)
(* ================================================================== *)

Module Py64Magnitude.
Import Py64 Py64Facts.

Lemma digits2_pos_above (q : positive) (k : Z) :
  (0 <= k)%Z -> (2 ^ k <= Z.pos q)%Z -> (k + 1 <= Z.pos (digits2_pos q))%Z.
Proof.
  intros Hk Hq. rewrite digits2_pos_size.
  destruct (Z_le_gt_dec (k + 1) (Z.pos (Pos.size q))) as [ | Hgt]; trivial.
  exfalso.
  pose proof (Pos.size_gt q) as Hlt.
  assert (Z.pos q < Z.pos (2 ^ Pos.size q))%Z as Hz by exact Hlt.
  rewrite Pos2Z.inj_pow in Hz.
  assert (2 ^ Z.pos (Pos.size q) <= 2 ^ k)%Z by (apply Z.pow_le_mono_r; lia).
  lia.
Qed.

Lemma shr_fexp_normal (p : positive) (e : Z) (l : location) :
  (-1021 <= e)%Z -> (53 <= Z.pos (digits2_pos p))%Z ->
  (2 ^ 52 <= shr_m (fst (shr_fexp prec emax (Z.pos p) e l)))%Z
  /\ snd (shr_fexp prec emax (Z.pos p) e l) = (e + Z.pos (digits2_pos p) - 53)%Z.
Proof.
  intros He Hd. unfold shr_fexp. cbn [Zdigits2].
  assert (fexp prec emax (Z.pos (digits2_pos p) + e) - e
          = Z.pos (digits2_pos p) - 53)%Z as Hf
    by (unfold fexp, emin, prec, emax; lia).
  rewrite Hf. unfold shr.
  pose proof (digits2_pos_lower p) as Hlow.
  destruct (Z.pos (digits2_pos p) - 53)%Z as [ | k | k] eqn:Hk; cbn [fst snd];
    try lia.
  - rewrite shr_record_of_loc_m. split; [ | lia].
    replace (Z.pos (digits2_pos p) - 1)%Z with 52%Z in Hlow by lia. exact Hlow.
  - rewrite iter_shr_1_div by (rewrite shr_record_of_loc_m; lia).
    rewrite shr_record_of_loc_m. split; [ | lia].
    apply Z.div_le_lower_bound; [apply Z.pow_pos_nonneg; lia | ].
    rewrite <- Z.pow_add_r by lia.
    replace (Z.pos k + 52)%Z with (Z.pos (digits2_pos p) - 1)%Z by lia.
    exact Hlow.
Qed.

Lemma round_nearest_even_ge (m : Z) (l : location) :
  (m <= round_nearest_even m l)%Z.
Proof.
  destruct l as [ | [ | | ]]; simpl; try lia.
  destruct (Z.even m); lia.
Qed.

(** Rounding a mantissa of 53 digits or more gives a float in normal form,
    whose exponent has grown by the digits rounded off. *)
Lemma binary_round_aux_normal (s : bool) (p : positive) (e : Z) (l : location) :
  (-1021 <= e)%Z -> (53 <= Z.pos (digits2_pos p))%Z ->
  normal_from s (e + Z.pos (digits2_pos p) - 53)
    (binary_round_aux prec emax s (Z.pos p) e l).
Proof.
  intros He Hd. unfold binary_round_aux.
  destruct (shr_fexp_normal p e l He Hd) as [H1 E1].
  destruct (shr_fexp prec emax (Z.pos p) e l) as [mrs' e']. cbn [fst snd] in *.
  pose proof (round_nearest_even_ge (shr_m mrs') (loc_of_shr_record mrs')) as Hr.
  destruct (round_nearest_even (shr_m mrs') (loc_of_shr_record mrs'))
    as [ | q | q]; try lia.
  assert (53 <= Z.pos (digits2_pos q))%Z as Hq
    by (apply (digits2_pos_above q 52); lia).
  destruct (shr_fexp_normal q e' loc_Exact ltac:(lia) Hq) as [H2 E2].
  destruct (shr_fexp prec emax (Z.pos q) e' loc_Exact) as [mrs'' e''].
  cbn [fst snd] in *.
  destruct (shr_m mrs'') as [ | m | m]; try lia.
  destruct (e'' <=? emax - prec)%Z; simpl; [ | reflexivity].
  split; [reflexivity | split; lia].
Qed.

(** [float(n)] of a positive int is in normal form, and its exponent tells
    the size of [n]. *)
Lemma of_Z_normal (n : Z) :
  (0 < n)%Z -> normal_from false (Zdigits2 n - 53) (of_Z n).
Proof.
  intros Hn. destruct n as [ | p | p]; try lia.
  unfold of_Z, binary_normalize, binary_round, shl_align. cbn [Zdigits2].
  assert (fexp prec emax (Z.pos (digits2_pos p) + 0) - 0
          = Z.pos (digits2_pos p) - 53)%Z as Hf
    by (unfold fexp, emin, prec, emax; lia).
  rewrite Hf.
  destruct (Z.pos (digits2_pos p) - 53)%Z as [ | d | d] eqn:Hd.
  - pose proof (binary_round_aux_normal false p 0 loc_Exact ltac:(lia) ltac:(lia))
      as N.
    replace (0 + Z.pos (digits2_pos p) - 53)%Z with 0%Z in N by lia. exact N.
  - pose proof (binary_round_aux_normal false p 0 loc_Exact ltac:(lia) ltac:(lia))
      as N.
    replace (0 + Z.pos (digits2_pos p) - 53)%Z with (Z.pos d) in N by lia. exact N.
  - assert (Z.pos (digits2_pos (shift_pos d p)) = 53)%Z as Hs
      by (unfold shift_pos; rewrite digits2_pos_iter_xO; lia).
    assert (fexp prec emax (Z.pos (digits2_pos p) + 0) = Z.neg d)%Z as Hf'
      by (unfold fexp, emin, prec, emax; lia).
    rewrite Hf'.
    pose proof (binary_round_aux_normal false (shift_pos d p) (Z.neg d) loc_Exact
                  ltac:(lia) ltac:(lia)) as N.
    rewrite Hs in N.
    replace (Z.neg d + 53 - 53)%Z with (Z.neg d) in N by lia. exact N.
Qed.

Lemma mul_normal (x : float) (mw : positive) (ew e0 : Z) :
  normal_from false e0 x -> (2 ^ 52 <= Z.pos mw)%Z -> (-900 <= ew)%Z ->
  (-100 <= e0)%Z ->
  normal_from false (e0 + ew + 52) (mul x (S754_finite false mw ew)).
Proof.
  intros Hx Hw Hew He0.
  destruct x as [s | s | | s m e]; simpl in Hx; try contradiction.
  - subst s. reflexivity.
  - destruct Hx as (-> & He & Hm).
    unfold mul, SFmul. cbn [xorb].
    assert (105 <= Z.pos (digits2_pos (m * mw)))%Z as Hd.
    { apply (digits2_pos_above (m * mw) 104); [lia | ].
      rewrite Pos2Z.inj_mul. change (2 ^ 104)%Z with (2 ^ 52 * 2 ^ 52)%Z.
      apply Z.mul_le_mono_nonneg; lia. }
    pose proof (binary_round_aux_normal false (m * mw) (e + ew) loc_Exact
                  ltac:(lia) ltac:(lia)) as N.
    destruct (binary_round_aux prec emax false (Z.pos (m * mw)) (e + ew) loc_Exact)
      as [ | s' | | s' m' e']; simpl in N |- *; trivial.
    destruct N as (-> & He' & Hm'). split; [reflexivity | split; lia].
Qed.

Lemma normal_above (x : float) (mc : positive) (ec e : Z) :
  normal_from false e x -> (ec < e)%Z -> ltb (S754_finite false mc ec) x = true.
Proof.
  intros Hx He. destruct x as [s | s | | s m e']; simpl in Hx; try contradiction.
  - subst s. reflexivity.
  - destruct Hx as (-> & He' & _). unfold ltb, SFltb. cbn [SFcompare].
    assert ((ec ?= e')%Z = Lt) as -> by (apply Z.compare_lt_iff; lia).
    reflexivity.
Qed.

(** From [2^k] on, the product of an int and a weight is above any cap
    whose exponent is below [k] plus the weight's. *)
Lemma min_mul_saturates (n k : Z) (mw mc : positive) (ew ec : Z) :
  (2 ^ 52 <= Z.pos mw)%Z -> (-900 <= ew)%Z ->
  (0 <= k <= 40)%Z -> (2 ^ k <= n)%Z -> (ec < k + ew)%Z ->
  min (mul (of_Z n) (S754_finite false mw ew)) (S754_finite false mc ec)
  = S754_finite false mc ec.
Proof.
  intros Hw Hew Hk Hn Hec.
  assert (0 < 2 ^ k)%Z as Hpow by (apply Z.pow_pos_nonneg; lia).
  assert (0 < n)%Z as Hpos by lia.
  pose proof (of_Z_normal n Hpos) as N.
  assert (k + 1 <= Zdigits2 n)%Z as Hd.
  { destruct n as [ | p | p]; try lia. apply digits2_pos_above; lia. }
  pose proof (mul_normal _ mw ew _ N Hw Hew ltac:(lia)) as M.
  unfold min. rewrite (normal_above _ mc ec _ M); [reflexivity | lia].
Qed.

End Py64Magnitude.

(* ================================================================== *)
(** * Saturation of the capped factors *)
(* ================================================================== *)

(** A count below 8 is settled by evaluation, a larger one by the size of
    the product. *)
Ltac small_counts n :=
  let Hc := fresh "Hc" in
  assert (n = 1 \/ n = 2 \/ n = 3 \/ n = 4 \/ n = 5 \/ n = 6 \/ n = 7)%Z
    as Hc by lia;
  repeat (destruct Hc as [Hc | Hc];
          [ subst n; first [exfalso; lia | vm_compute; reflexivity] | ]);
  subst n; first [exfalso; lia | vm_compute; reflexivity].

Ltac saturation n :=
  destruct (Z_lt_le_dec n 8);
  [ small_counts n
  | apply (Py64Magnitude.min_mul_saturates n 3); simpl; lia ].

Lemma saturation_table (n : Z) :
  ((2 <= n)%Z -> Py64.min (Py64.of_Z n * 0.35)%py 0.7%py = 0.7%py)
  /\ ((4 <= n)%Z -> Py64.min (Py64.of_Z n * 0.15)%py 0.6%py = 0.6%py)
  /\ ((3 <= n)%Z -> Py64.min (Py64.of_Z n * 0.25)%py 0.7%py = 0.7%py)
  /\ ((3 <= n)%Z -> Py64.min (Py64.of_Z n * 0.2)%py 0.5%py = 0.5%py)
  /\ ((2 <= n)%Z -> Py64.min (Py64.of_Z n * 0.25)%py 0.5%py = 0.5%py)
  /\ ((4 <= n)%Z -> Py64.min (Py64.of_Z n * 0.1)%py 0.4%py = 0.4%py)
  /\ ((2 <= n)%Z -> Py64.min (Py64.of_Z n * 0.1)%py 0.2%py = 0.2%py)
  /\ ((4 <= n)%Z -> Py64.min (Py64.of_Z n * 0.06)%py 0.2%py = 0.2%py)
  /\ ((3 <= n)%Z -> Py64.min (Py64.of_Z n * 0.2)%py 0.6%py = 0.6%py).
Proof.
  repeat split; intros Hn; saturation n.
Qed.

(** X1.  Each capped factor reaches its cap at a small count and keeps it
    for every larger one, whatever the size of the count: two forms or
    more give 0.7, four keywords 0.6, three phrases 0.7, three urgency
    words 0.5, two popups 0.5, nine hidden elements 0.4, two iframes 0.2,
    nine ads 0.2, three suspicious-element tags 0.6. *)
Theorem factors_saturate (features : WebpageFeatures) (r : ContentAnalysis) :
  calculate_content_risk_score features = Return r ->
  ((2 <= forms_count features)%Z ->
   dict_get "forms_present" (risk_factors r) = Some 0.7%py)
  /\ ((4 <= len (suspicious_keywords_found features))%Z ->
      dict_get "suspicious_keywords" (risk_factors r) = Some 0.6%py)
  /\ ((3 <= len (social_engineering_signals features))%Z ->
      dict_get "social_engineering" (risk_factors r) = Some 0.7%py)
  /\ ((3 <= urgency_indicators features)%Z ->
      dict_get "urgency_tactics" (risk_factors r) = Some 0.5%py)
  /\ ((2 <= popup_indicators features)%Z ->
      dict_get "popups" (risk_factors r) = Some 0.5%py)
  /\ ((9 <= hidden_elements features)%Z ->
      dict_get "hidden_elements" (risk_factors r) = Some 0.4%py)
  /\ ((2 <= iframe_count features)%Z ->
      dict_get "iframes" (risk_factors r) = Some 0.2%py)
  /\ ((9 <= ads_count features)%Z ->
      dict_get "excessive_ads" (risk_factors r) = Some 0.2%py)
  /\ ((3 <= len (suspicious_elements features))%Z ->
      dict_get "suspicious_elements" (risk_factors r) = Some 0.6%py).
Proof.
  intros H. scorer_steps H. injection H as <-. cbn [risk_factors].
  repeat split; intros Hn; lookup_trace.
  all: match goal with
       | E : factor ?name ?t (capped ?n _ _) _ = Return _
         |- context [stored ?t (capped ?n _ _)] =>
           rewrite (stored_capped _ _ _ _ _ _ _ E)
       end.
  all: match goal with
       | |- (if ?t then _ else _) = _ =>
           assert (t = true) as ->
             by (first [ apply Z.ltb_lt; lia
                       | rewrite nonempty_pos; apply Z.ltb_lt; lia ])
       end.
  all: f_equal; apply saturation_table; lia.
Qed.

Lemma factors_saturate_witness :
  exists r,
    calculate_content_risk_score busy_page = Return r
    /\ dict_get "forms_present" (risk_factors r) = Some 0.7%py
    /\ dict_get "suspicious_keywords" (risk_factors r) = Some 0.6%py.
Proof.
  eexists. split; [reflexivity | ].
  destruct (factors_saturate busy_page _ eq_refl) as (Hforms & Hkeywords & _).
  split; [apply Hforms | apply Hkeywords]; unfold len; simpl; lia.
Defined.

(* ================================================================== *)
(** * Look-alike hosts and hosts that end in a digit *)
(* ================================================================== *)

Lemma endswith_app (pre td : string) : Str.endswith td (pre ++ td) = true.
Proof.
  induction pre as [ | c pre IH]; simpl.
  - destruct td; simpl; [reflexivity | ].
    now rewrite Ascii.eqb_refl, String.eqb_refl.
  - rewrite IH. apply Bool.orb_true_r.
Qed.

Lemma mem_char_app (c : ascii) (a b : string) :
  Str.mem_char c (a ++ b) = (Str.mem_char c a || Str.mem_char c b)%bool.
Proof.
  induction a as [ | d a IH]; simpl; trivial.
  rewrite IH. apply Bool.orb_assoc.
Qed.

Lemma last_field_app (sep : ascii) (a b : string) :
  Str.mem_char sep b = false -> Str.last_field sep (a ++ String sep b) = b.
Proof.
  intros Hb. induction a as [ | c a IH]; simpl.
  - now rewrite Hb, Ascii.eqb_refl.
  - rewrite mem_char_app. simpl. rewrite Ascii.eqb_refl, IH.
    now rewrite Bool.orb_true_r.
Qed.

Lemma append_assoc (a b c : string) : (a ++ b) ++ c = a ++ (b ++ c).
Proof. induction a as [ | x a IH]; simpl; congruence. Qed.

Lemma last_char_endswith (p s : string) :
  Str.endswith p s = true -> p <> "" -> last_char s = last_char p.
Proof.
  intros H Hp. induction s as [ | c s IH].
  - simpl in H. destruct p; [contradiction | discriminate].
  - cbn [Str.endswith] in H. apply Bool.orb_true_iff in H as [H | H].
    + apply String.eqb_eq in H. now subst p.
    + specialize (IH H). destruct s as [ | d s]; [ | exact IH].
      simpl in H. destruct p; [contradiction | discriminate].
Qed.

Lemma last_char_last_field (sep c : ascii) (s : string) :
  last_char s = Some c -> c <> sep ->
  last_char (Str.last_field sep s) = Some c.
Proof.
  intros Hs Hc. induction s as [ | a s IH]; [discriminate | ].
  cbn [Str.last_field].
  destruct s as [ | b s].
  - simpl in Hs. injection Hs as ->. simpl.
    destruct (Ascii.eqb_spec c sep); [contradiction | reflexivity].
  - change (last_char (String a (String b s))) with (last_char (String b s)) in Hs.
    specialize (IH Hs).
    destruct (Str.mem_char sep (String b s)); [exact IH | ].
    destruct (Ascii.eqb a sep); exact Hs.
Qed.

Lemma trusted_suffix_found (self : WebpagePhishingDetector) (pre td : string) :
  In td (trusted_domains self) ->
  existsb (fun t => Str.endswith t (pre ++ td)) (trusted_domains self) = true.
Proof.
  intros Hin. apply existsb_exists. exists td.
  split; [exact Hin | apply endswith_app].
Qed.

(** Every trusted domain of the detector is under [com]. *)
Lemma trusted_suffix_label (pre td : string) :
  In td (trusted_domains detector) -> Str.last_field "." (pre ++ td) = "com".
Proof.
  intros Hin. simpl in Hin.
  repeat destruct Hin as [<- | Hin]; try contradiction.
  all: match goal with
       | |- context [(_ ++ ?td)%string] =>
           let name := eval vm_compute in (Str.take (String.length td - 4) td) in
           change td with (name ++ ".com")
       end;
    rewrite <- append_assoc; now apply last_field_app.
Qed.

Lemma lookalike_reputation (u pre td : string) :
  In td (trusted_domains detector) -> host_of u = Return (pre ++ td) ->
  exists r,
    get_domain_reputation detector u = Return r
    /\ reputation_score r = 0.0%py
    /\ reputation_reason r = ["trusted_domain"]
    /\ tld r = "com".
Proof.
  intros Hin Hhost. rewrite get_domain_reputation_host, Hhost. cbn [bind]. cbv zeta.
  rewrite (trusted_suffix_found detector pre td Hin), (trusted_suffix_label pre td Hin).
  eexists. split; [reflexivity | repeat split; reflexivity].
Qed.

(** X2.  The trusted-domain check is a test on the end of the host's text:
    a host that ends with the text of a trusted domain is trusted even
    when it is another domain (evil-github.com ends with github.com),
    unless its last label is a suspicious one.  With the detector's own
    lists every such host gets the score 0.0.  The host is the one
    [urlparse] reads from the URL; a URL it refuses has no reputation, the
    check raises the error of [urlparse]. *)
Theorem lookalike_host_is_trusted :
  (forall self u pre td,
      In td (trusted_domains self) ->
      host_of u = Return (pre ++ td) ->
      existsb (String.eqb (Str.last_field "." (pre ++ td))) (suspicious_tlds self)
      = false ->
      exists r,
        get_domain_reputation self u = Return r
        /\ reputation_score r = 0.0%py
        /\ reputation_reason r = ["trusted_domain"])
  /\ (forall u pre td,
         In td (trusted_domains detector) ->
         host_of u = Return (pre ++ td) ->
         exists r,
           get_domain_reputation detector u = Return r
           /\ reputation_score r = 0.0%py
           /\ reputation_reason r = ["trusted_domain"]
           /\ tld r = "com")
  /\ (forall self u e,
         host_of u = Raise e -> get_domain_reputation self u = Raise e)
  /\ get_domain_reputation detector "https://[evil-github.com/login"
     = Raise (ValueError "Invalid IPv6 URL").
Proof.
  split; [ | split; [ | split]].
  - intros self u pre td Hin Hhost Htld.
    rewrite get_domain_reputation_host, Hhost. cbn [bind]. cbv zeta.
    rewrite (trusted_suffix_found self pre td Hin), Htld.
    eexists. split; [reflexivity | split; reflexivity].
  - exact lookalike_reputation.
  - intros self u e Hhost. now rewrite get_domain_reputation_host, Hhost.
  - vm_compute. reflexivity.
Qed.

Lemma lookalike_host_is_trusted_witness :
  exists r,
    get_domain_reputation detector "https://evil-github.com/login" = Return r
    /\ reputation_score r = 0.0%py
    /\ reputation_reason r = ["trusted_domain"]
    /\ tld r = "com".
Proof.
  destruct lookalike_host_is_trusted as (_ & Hown & _).
  apply (Hown "https://evil-github.com/login" "evil-" "github.com").
  - simpl. tauto.
  - vm_compute. reflexivity.
Defined.

(** X3.  With the detector's own lists a host whose last character is a
    digit is neutral, score 0.5 and no reason: no trusted domain and no
    suspicious label ends in a digit.  So a host given with its port
    (github.com:443, free-prize.xyz:8080) or as an IPv4 address is neither
    trusted nor suspicious.  The host is the one [urlparse] reads: an
    address in an unclosed bracket is refused, and the check raises. *)
Theorem host_ending_in_digit_is_neutral :
  (forall (u host : string) (c : ascii),
      host_of u = Return host ->
      last_char host = Some c -> Url.is_digit c = true ->
      exists r,
        get_domain_reputation detector u = Return r
        /\ reputation_score r = 0.5%py
        /\ reputation_reason r = [])
  /\ get_domain_reputation detector "http://[::1"
     = Raise (ValueError "Invalid IPv6 URL").
Proof.
  split; [ | vm_compute; reflexivity].
  intros u host c Hhost Hlast Hdigit.
  assert (c <> "."%char) as Hdot by (intros ->; discriminate).
  assert (existsb (fun td => Str.endswith td host) (trusted_domains detector)
          = false) as Htrusted.
  { destruct (existsb _ (trusted_domains detector)) eqn:E; trivial. exfalso.
    apply existsb_exists in E as (td & Hin & Hends).
    assert (td <> "") as Hne
      by (intros ->; simpl in Hin; repeat destruct Hin as [Hin | Hin];
          discriminate || contradiction).
    apply last_char_endswith in Hends; trivial.
    rewrite Hlast in Hends. simpl in Hin.
    repeat destruct Hin as [<- | Hin]; try contradiction;
      injection Hends as ->; discriminate. }
  assert (existsb (String.eqb (Str.last_field "." host))
            (suspicious_tlds detector) = false) as Htld.
  { destruct (existsb _ (suspicious_tlds detector)) eqn:E; trivial. exfalso.
    apply existsb_exists in E as (label & Hin & Heq).
    apply String.eqb_eq in Heq.
    pose proof (last_char_last_field "." c _ Hlast Hdot) as Hl.
    rewrite Heq in Hl. simpl in Hin.
    repeat destruct Hin as [<- | Hin]; try contradiction;
      injection Hl as <-; discriminate. }
  rewrite get_domain_reputation_host, Hhost. cbn [bind]. cbv zeta.
  rewrite Htrusted, Htld.
  eexists. split; [reflexivity | split; reflexivity].
Qed.

Lemma host_ending_in_digit_is_neutral_witness :
  (exists r,
      get_domain_reputation detector "https://github.com:443/login" = Return r
      /\ reputation_score r = 0.5%py /\ reputation_reason r = [])
  /\ (exists r,
         get_domain_reputation detector "http://free-prize.xyz:8080/" = Return r
         /\ reputation_score r = 0.5%py /\ reputation_reason r = [])
  /\ (exists r,
         get_domain_reputation detector "http://192.168.0.1/" = Return r
         /\ reputation_score r = 0.5%py /\ reputation_reason r = []).
Proof.
  split; [ | split].
  - apply (proj1 host_ending_in_digit_is_neutral _ "github.com:443" "3"%char);
      vm_compute; reflexivity.
  - apply (proj1 host_ending_in_digit_is_neutral _ "free-prize.xyz:8080" "0"%char);
      vm_compute; reflexivity.
  - apply (proj1 host_ending_in_digit_is_neutral _ "192.168.0.1" "1"%char);
      vm_compute; reflexivity.
Defined.

(* ================================================================== *)
(** * The pipeline and the endpoint *)
(* ================================================================== *)

Section Pipeline.
Context {Tag : Type} `{DocumentTree Tag}.

Lemma no_usable_answer_degrades (svc : Services Tag) (features : WebpageFeatures) :
  no_usable_answer svc features ->
  exists flag reasoning,
    analyze_content_with_llm svc features = degraded_judgment flag reasoning.
Proof.
  unfold no_usable_answer, analyze_content_with_llm.
  destruct (llm_generate svc features) as [response | e]; cbn [bind].
  - rewrite brace_condition. fold (braced (Str.strip response)).
    intros [-> | [e ->]]; cbn [bind]; eauto.
    destruct (has_brace_pair (Str.strip response)); eauto.
  - eauto.
Qed.

Lemma detect_on_fetched_page (self : WebpagePhishingDetector) (svc : Services Tag)
  (u : string) (domain_reputation : DomainReputation) (soup : Tag) :
  get_domain_reputation self u = Return domain_reputation ->
  fetch svc u = Return soup ->
  detect_webpage_phishing self svc u =
  let features := extract_webpage_features self soup in
  content_analysis <- calculate_content_risk_score features ;;
  let llm_analysis := analyze_content_with_llm svc features in
  likelihood <- subscript llm_analysis "phishing_likelihood" ;;
  llm_score <- div_100 likelihood ;;
  let d := decide (total_risk_score content_analysis) llm_score
             (reputation_score domain_reputation) in
  Return [ ("url", PyStr u);
           ("is_phishing", PyBool (is_phishing d));
           ("confidence", PyFloat (confidence d));
           ("combined_risk_score", PyFloat (combined_risk_score d));
           ("domain_reputation", reputation_dict domain_reputation);
           ("content_analysis", content_analysis_dict content_analysis);
           ("llm_analysis", llm_analysis);
           ("webpage_features", features_dict features);
           ("timestamp", PyStr (now_isoformat svc)) ].
Proof.
  intros Hrep Hfetch. unfold detect_webpage_phishing, scrape_webpage.
  now rewrite Hrep, Hfetch.
Qed.

(** The pipeline fails at its first step on a URL the domain check cannot
    read. *)
Lemma detect_unreadable_url (self : WebpagePhishingDetector) (svc : Services Tag)
  (u : string) (e : exn) :
  get_domain_reputation self u = Raise e ->
  detect_webpage_phishing self svc u = Raise e.
Proof. intros Hrep. unfold detect_webpage_phishing. now rewrite Hrep. Qed.

Lemma first_seen_head (x : string) (l : list string) :
  hd_error (firstn 4 (first_seen (x :: l))) = Some x.
Proof. reflexivity. Qed.

(** The response to a verdict whose model judgment lists strings. *)
Lemma build_response_strs (svc : Services Tag) (u : string)
  (result llm content rep : dict pyval) (flags tactics reasons : list string)
  (factors : dict Py64.float) (score x : Py64.float) (b : bool) :
  dict_get "is_phishing" result = Some (PyBool b) ->
  dict_get "combined_risk_score" result = Some (PyFloat x) ->
  dict_get "llm_analysis" result = Some (PyDict llm) ->
  dict_get "content_analysis" result = Some (PyDict content) ->
  dict_get "risk_factors" content = Some (py_floats factors) ->
  dict_get "domain_reputation" result = Some (PyDict rep) ->
  dict_get "reputation_score" rep = Some (PyFloat score) ->
  dict_get "reputation_reason" rep = Some (py_strs reasons) ->
  listed (dict_get "content_red_flags" llm) flags ->
  listed (dict_get "primary_tactics" llm) tactics ->
  build_response svc u result
  = Return {| url := u;
              prediction := if b then 1 else 0;
              risk_score := round_2 (x * 100.0)%py;
              red_flags :=
                firstn 4 (first_seen
                            (candidate_flags flags tactics factors score reasons)) |}.
Proof.
  intros Hb Hx Hllm Hcontent Hfactors Hrep Hscore Hreasons Hflags Htactics.
  unfold build_response. rewrite Hb, Hx. cbn [bind truthy].
  rewrite (collect_red_flags_strs result llm content rep reasons factors score
             Hllm Hcontent Hfactors Hrep Hscore Hreasons flags tactics Hflags Htactics).
  cbn [bind]. unfold new_response.
  change (PyList (map PyStr ?l)) with (py_strs l).
  now rewrite str_list_py_strs.
Qed.

(** X4.  A text-generation service that fails, answers without a brace
    pair or answers text that does not decode never stops the analysis of
    a fetched page: the pipeline returns a verdict computed with the model
    score 0.5 (the degraded record's likelihood 50), the endpoint answers
    with a response, and the diagnostic of the failure is the first of the
    response's red flags. *)
Theorem model_outage_still_gives_verdict (self : WebpagePhishingDetector)
  (svc : Services Tag) (u : string) (rep : DomainReputation) (soup : Tag)
  (ca : ContentAnalysis) :
  get_domain_reputation self u = Return rep ->
  fetch svc u = Return soup ->
  calculate_content_risk_score (extract_webpage_features self soup) = Return ca ->
  no_usable_answer svc (extract_webpage_features self soup) ->
  let d := decide (total_risk_score ca) 0.5%py (reputation_score rep) in
  exists flag reasoning result,
    analyze_content_with_llm svc (extract_webpage_features self soup)
    = degraded_judgment flag reasoning
    /\ detect_webpage_phishing self svc u = Return result
    /\ dict_get "is_phishing" result = Some (PyBool (is_phishing d))
    /\ dict_get "confidence" result = Some (PyFloat (confidence d))
    /\ dict_get "combined_risk_score" result = Some (PyFloat (combined_risk_score d))
    /\ dict_get "llm_analysis" result = Some (degraded_judgment flag reasoning)
    /\ (forall data_url,
           requested_url data_url = u -> Str.strip data_url <> "" ->
           exists response,
             predict_phishing self svc data_url = Return response
             /\ prediction response = (if is_phishing d then 1 else 0)%Z
             /\ hd_error (red_flags response) = Some flag).
Proof.
  intros Hrep Hfetch Hca Hout d.
  destruct (no_usable_answer_degrades svc _ Hout) as (flag & reasoning & Hllm).
  exists flag, reasoning.
  pose proof (detect_on_fetched_page self svc u rep soup Hrep Hfetch) as Hd.
  cbv zeta in Hd. rewrite Hca, Hllm in Hd. cbn [bind] in Hd.
  change (subscript (degraded_judgment flag reasoning) "phishing_likelihood")
    with (Return (A := pyval) (PyInt 50)) in Hd.
  assert (div_100 (PyInt 50) = Return 0.5%py) as Hhalf by reflexivity.
  cbn [bind] in Hd. rewrite Hhalf in Hd. cbn [bind] in Hd. fold d in Hd.
  eexists. split; [exact Hllm | ]. split; [exact Hd | ].
  repeat (split; [reflexivity | ]).
  intros data_url Hu Hne. unfold predict_phishing.
  destruct (String.eqb_spec (Str.strip data_url) "") as [E | _]; [contradiction | ].
  fold (requested_url data_url). rewrite Hu, Hd.
  cbn [dict_get String.eqb Ascii.eqb Bool.eqb].
  erewrite (build_response_strs svc u _ _ _ _ [flag] [] (reputation_reason rep)
              (risk_factors ca) (reputation_score rep));
    try reflexivity; try (left; reflexivity).
  eexists. split; [reflexivity | ]. split; [reflexivity | ].
  cbn [red_flags]. apply first_seen_head.
Qed.

Lemma detect_fails_with_score (self : WebpagePhishingDetector)
  (svc : Services Tag) (u : string) (rep : DomainReputation) (soup : Tag)
  (ca : ContentAnalysis) (e : exn) :
  get_domain_reputation self u = Return rep ->
  fetch svc u = Return soup ->
  calculate_content_risk_score (extract_webpage_features self soup) = Return ca ->
  llm_score_of (analyze_content_with_llm svc (extract_webpage_features self soup))
  = Raise e ->
  detect_webpage_phishing self svc u = Raise e.
Proof.
  intros Hrep Hfetch Hca Hscore.
  rewrite (detect_on_fetched_page self svc u rep soup Hrep Hfetch). cbv zeta.
  rewrite Hca. cbn [bind]. unfold llm_score_of in Hscore.
  destruct (subscript _ "phishing_likelihood") as [likelihood | e'];
    cbn [bind] in *.
  - now rewrite Hscore.
  - injection Hscore as ->. reflexivity.
Qed.

(** X5.  A decoded judgment the model score cannot be read from makes the
    whole analysis fail: [detect_webpage_phishing] raises the error of
    [llm_analysis['phishing_likelihood'] / 100.0], and the endpoint answers
    500 "Internal server error" with the error's text.  The error is a
    [KeyError] when the judgment has no [phishing_likelihood], with the
    text ['phishing_likelihood'], and a [TypeError] when the field is not
    a number, with the text [unsupported operand type(s) for /: '<type of
    the field>' and 'float']. *)
Theorem judgment_without_likelihood_is_fatal (self : WebpagePhishingDetector)
  (svc : Services Tag) (u : string) (rep : DomainReputation) (soup : Tag)
  (ca : ContentAnalysis) (e : exn) :
  get_domain_reputation self u = Return rep ->
  fetch svc u = Return soup ->
  calculate_content_risk_score (extract_webpage_features self soup) = Return ca ->
  llm_score_of (analyze_content_with_llm svc (extract_webpage_features self soup))
  = Raise e ->
  detect_webpage_phishing self svc u = Raise e
  /\ (forall data_url,
         requested_url data_url = u -> Str.strip data_url <> "" ->
         predict_phishing self svc data_url
         = Raise (HTTPException 500 ("Internal server error: " ++ exn_str e)))
  /\ (forall entries,
         dict_get "phishing_likelihood" entries = None ->
         llm_score_of (PyDict entries) = Raise (KeyError "phishing_likelihood")
         /\ exn_str (KeyError "phishing_likelihood") = "'phishing_likelihood'")
  /\ (forall entries v,
         dict_get "phishing_likelihood" entries = Some v ->
         match v with PyInt _ | PyFloat _ | PyBool _ => False | _ => True end ->
         llm_score_of (PyDict entries)
         = Raise (TypeError ("unsupported operand type(s) for /: '" ++ type_name v
                             ++ "' and 'float'"))
         /\ In (type_name v) ["NoneType"; "str"; "list"; "dict"]).
Proof.
  intros Hrep Hfetch Hca Hscore.
  pose proof (detect_fails_with_score self svc u rep soup ca e Hrep Hfetch Hca Hscore)
    as Hd.
  split; [exact Hd | split; [ | split]].
  - intros data_url Hu Hne. unfold predict_phishing.
    destruct (String.eqb_spec (Str.strip data_url) "") as [E | _]; [contradiction | ].
    fold (requested_url data_url). now rewrite Hu, Hd.
  - intros entries Hnone. unfold llm_score_of, subscript. rewrite Hnone.
    split; reflexivity.
  - intros entries v Hsome Hv. unfold llm_score_of, subscript. rewrite Hsome.
    cbn [bind]. destruct v; try contradiction; (split; [reflexivity | simpl; tauto]).
Qed.

(** What a call of the endpoint that returns went through. *)
Lemma predict_phishing_Return (self : WebpagePhishingDetector) (svc : Services Tag)
  (data_url : string) (response : PhishingResponse) :
  predict_phishing self svc data_url = Return response ->
  Str.strip data_url <> ""
  /\ exists rep soup ca llm_score,
       get_domain_reputation self (requested_url data_url) = Return rep
       /\ fetch svc (requested_url data_url) = Return soup
       /\ calculate_content_risk_score (extract_webpage_features self soup) = Return ca
       /\ llm_score_of
            (analyze_content_with_llm svc (extract_webpage_features self soup))
          = Return llm_score
       /\ NoDup (red_flags response)
       /\ (List.length (red_flags response) <= 4)%nat
       /\ response =
          let d := decide (total_risk_score ca) llm_score (reputation_score rep) in
          {| url := requested_url data_url;
             prediction := if is_phishing d then 1 else 0;
             risk_score := round_2 (combined_risk_score d * 100.0)%py;
             red_flags := red_flags response |}.
Proof.
  unfold predict_phishing.
  destruct (String.eqb_spec (Str.strip data_url) "") as [E | Hne]; [discriminate | ].
  fold (requested_url data_url). set (u := requested_url data_url).
  intros Hp. split; [exact Hne | ].
  destruct (get_domain_reputation self u) as [rep | e] eqn:Hrep.
  2: { rewrite (detect_unreadable_url self svc u e Hrep) in Hp. discriminate. }
  exists rep.
  destruct (fetch svc u) as [soup | e] eqn:Hfetch.
  2: { unfold detect_webpage_phishing, scrape_webpage in Hp.
       rewrite Hrep, Hfetch in Hp. discriminate. }
  rewrite (detect_on_fetched_page self svc u rep soup Hrep Hfetch) in Hp.
  cbv zeta in Hp.
  exists soup.
  destruct (calculate_content_risk_score (extract_webpage_features self soup))
    as [ca | e]; cbn [bind] in Hp; [ | discriminate].
  exists ca. unfold llm_score_of.
  destruct (subscript _ "phishing_likelihood") as [likelihood | e];
    cbn [bind] in Hp |- *; [ | discriminate].
  destruct (div_100 likelihood) as [llm_score | e]; cbn [bind] in Hp; [ | discriminate].
  exists llm_score. repeat (split; [reflexivity | ]).
  cbn [dict_get String.eqb Ascii.eqb Bool.eqb] in Hp.
  unfold build_response in Hp.
  cbn [dict_get String.eqb Ascii.eqb Bool.eqb bind truthy] in Hp.
  match type of Hp with
  | context [collect_red_flags ?r] =>
      destruct (collect_red_flags r) as [flags | e] eqn:Hflags;
        cbn [bind] in Hp; [ | discriminate]
  end.
  apply collect_red_flags_Return in Hflags as [values ->].
  match type of Hp with
  | context [new_response ?s ?a ?b ?c ?d] =>
      destruct (new_response s a b c d) as [response' | e] eqn:Hnew; [ | discriminate]
  end.
  apply Return_eq in Hp. subst response'.
  apply new_response_Return in Hnew as (Hresp & _ & Hnodup & Hlen).
  split; [exact Hnodup | split; [exact Hlen | exact Hresp]].
Qed.

Lemma startswith_self_app (p s : string) : Str.startswith p (p ++ s) = true.
Proof. induction p as [ | c p IH]; simpl; trivial. now rewrite Ascii.eqb_refl. Qed.

Lemma requested_url_protocol (data_url : string) :
  Str.startswith "http://" (requested_url data_url) = true
  \/ Str.startswith "https://" (requested_url data_url) = true.
Proof.
  unfold requested_url.
  destruct (Str.startswith "http://" (Str.strip data_url)) eqn:E1; [now left | ].
  destruct (Str.startswith "https://" (Str.strip data_url)) eqn:E2; cbn [orb].
  - now right.
  - right. apply startswith_self_app.
Qed.

(** X6.  Every response of the endpoint comes from a fetched page, a
    heuristic total and a model score: its [url] is the stripped request
    URL, with [https://] in front when it named no protocol; its
    [prediction] is 1 exactly when the decision on the two scores and the
    host's reputation is phishing, else 0; its [risk_score] is the
    decision's combined score times 100, rounded to two decimals; and its
    red flags are at most 4, without repeats. *)
Theorem response_reflects_decision (self : WebpagePhishingDetector)
  (svc : Services Tag) (data_url : string) (response : PhishingResponse) :
  predict_phishing self svc data_url = Return response ->
  url response = requested_url data_url
  /\ (Str.startswith "http://" (url response) = true
      \/ Str.startswith "https://" (url response) = true)
  /\ NoDup (red_flags response)
  /\ (List.length (red_flags response) <= 4)%nat
  /\ exists rep soup ca llm_score,
       get_domain_reputation self (requested_url data_url) = Return rep
       /\ fetch svc (requested_url data_url) = Return soup
       /\ calculate_content_risk_score (extract_webpage_features self soup) = Return ca
       /\ llm_score_of
            (analyze_content_with_llm svc (extract_webpage_features self soup))
          = Return llm_score
       /\ let d := decide (total_risk_score ca) llm_score (reputation_score rep) in
          prediction response = (if is_phishing d then 1 else 0)%Z
          /\ risk_score response = round_2 (combined_risk_score d * 100.0)%py.
Proof.
  intros Hp.
  destruct (predict_phishing_Return self svc data_url response Hp)
    as (_ & rep & soup & ca & llm_score & Hrep & Hfetch & Hca & Hscore
        & Hnodup & Hlen & Hresp).
  split; [now rewrite Hresp | ].
  split; [rewrite Hresp; apply requested_url_protocol | ].
  split; [exact Hnodup | ].
  split; [exact Hlen | ].
  exists rep, soup, ca, llm_score.
  repeat (split; [assumption | ]).
  cbv zeta. rewrite Hresp. split; reflexivity.
Qed.

Lemma trusted_verdict_is_negative (content_score llm_score reputation : Py64.float) :
  (reputation =? 0.0)%py = true ->
  is_phishing (decide content_score llm_score reputation) = false.
Proof.
  intros Hrep. unfold decide. rewrite Hrep. cbn [is_phishing].
  set (b := blend content_score llm_score).
  unfold Py64.min. destruct (Py64.ltb 0.2%py b) eqn:L; [reflexivity | ].
  destruct (Py64.ltb 0.5%py b) eqn:L'; trivial.
  destruct b as [s | s | | s m e]; try destruct s; try discriminate.
  unfold Py64.ltb, SFltb in L, L'. cbn [SFcompare] in L, L'.
  destruct (Z.compare_spec (-53) e) as [E53 | E53 | E53]; try discriminate.
  - subst e. discriminate.
  - assert ((-55 ?= e)%Z = Lt) as Lt55 by (apply Z.compare_lt_iff; lia).
    rewrite Lt55 in L. discriminate.
Qed.

(** X7.  For a URL whose host has the reputation score 0.0 every response
    of the endpoint has [prediction = 0], whatever the page holds and
    whatever the model answers; with the detector's own lists this is so
    for every host that ends with the text of a trusted domain. *)
Theorem trusted_host_is_never_reported :
  (forall (self : WebpagePhishingDetector) (svc : Services Tag) data_url response rep,
      predict_phishing self svc data_url = Return response ->
      get_domain_reputation self (requested_url data_url) = Return rep ->
      (reputation_score rep =? 0.0)%py = true ->
      prediction response = 0%Z)
  /\ (forall (svc : Services Tag) data_url response pre td,
         predict_phishing detector svc data_url = Return response ->
         In td (trusted_domains detector) ->
         host_of (requested_url data_url) = Return (pre ++ td) ->
         prediction response = 0%Z).
Proof.
  assert (forall (self : WebpagePhishingDetector) (svc : Services Tag)
                 data_url response rep,
             predict_phishing self svc data_url = Return response ->
             get_domain_reputation self (requested_url data_url) = Return rep ->
             (reputation_score rep =? 0.0)%py = true ->
             prediction response = 0%Z) as Hzero.
  { intros self svc data_url response rep Hp Hrep Hzero.
    destruct (predict_phishing_Return self svc data_url response Hp)
      as (_ & rep' & soup & ca & llm_score & Hrep' & _ & _ & _ & _ & _ & ->).
    rewrite Hrep in Hrep'. injection Hrep' as <-.
    cbv zeta. cbn [prediction].
    now rewrite trusted_verdict_is_negative. }
  split; [exact Hzero | ].
  intros svc data_url response pre td Hp Hin Hhost.
  destruct (lookalike_reputation _ pre td Hin Hhost) as (rep & Hrep & Hscore & _).
  apply (Hzero detector svc data_url response rep Hp Hrep).
  now rewrite Hscore.
Qed.

(** X8.  The endpoint raises HTTP errors only, with one of three status
    codes: 400 exactly for a request URL that is blank once stripped; 422
    when the domain check could read the URL and the page could not be
    fetched; 500 when the domain check could not read the URL (nothing is
    fetched then), or when the page was fetched and the analysis or the
    assembly of the response failed. *)
Theorem endpoint_errors (self : WebpagePhishingDetector) (svc : Services Tag)
  (data_url : string) :
  (forall e,
      predict_phishing self svc data_url = Raise e ->
      (status_of e = Some 400%Z /\ Str.strip data_url = "")
      \/ (status_of e = Some 422%Z /\ Str.strip data_url <> ""
          /\ (exists rep,
                 get_domain_reputation self (requested_url data_url) = Return rep)
          /\ exists e', fetch svc (requested_url data_url) = Raise e')
      \/ (status_of e = Some 500%Z /\ Str.strip data_url <> ""
          /\ ((exists e',
                  get_domain_reputation self (requested_url data_url) = Raise e')
              \/ ((exists rep,
                      get_domain_reputation self (requested_url data_url) = Return rep)
                  /\ exists soup, fetch svc (requested_url data_url) = Return soup))))
  /\ (Str.strip data_url = "" ->
      predict_phishing self svc data_url
      = Raise (HTTPException 400 "URL cannot be empty"))
  /\ (forall e',
         Str.strip data_url <> "" ->
         get_domain_reputation self (requested_url data_url) = Raise e' ->
         predict_phishing self svc data_url
         = Raise (HTTPException 500 ("Internal server error: " ++ exn_str e'))).
Proof.
  unfold predict_phishing. fold (requested_url data_url).
  set (u := requested_url data_url).
  destruct (String.eqb_spec (Str.strip data_url) "") as [E | Hne].
  - split; [ | split]; [ | reflexivity | contradiction].
    intros e Hp. injection Hp as <-. left. now split.
  - split; [ | split]; [ | contradiction | ].
    + intros e Hp. right.
      destruct (get_domain_reputation self u) as [rep | e'] eqn:Hrep.
      * destruct (fetch svc u) as [soup | e'] eqn:Hfetch.
        -- right.
           destruct (detect_webpage_phishing self svc u) as [result | e''] eqn:Hd.
           ++ rewrite (detect_verdict_has_no_error self svc u soup result Hfetch Hd)
                in Hp.
              destruct (build_response svc u result); [discriminate | ].
              injection Hp as <-. repeat split; eauto.
           ++ injection Hp as <-. repeat split; eauto.
        -- left.
           unfold detect_webpage_phishing, scrape_webpage in Hp.
           rewrite Hrep, Hfetch in Hp.
           cbn in Hp. injection Hp as <-. repeat split; eauto.
      * right. rewrite (detect_unreadable_url self svc u e' Hrep) in Hp.
        injection Hp as <-. repeat split; eauto.
    + intros e' _ Hrep. now rewrite (detect_unreadable_url self svc u e' Hrep).
Qed.

End Pipeline.

Lemma response_reflects_decision_witness :
  exists response,
    predict_phishing detector blank_services "http://free-prize.xyz" = Return response
    /\ url response = "http://free-prize.xyz"
    /\ NoDup (red_flags response)
    /\ (List.length (red_flags response) <= 4)%nat.
Proof.
  assert (exists response,
             predict_phishing detector blank_services "http://free-prize.xyz"
             = Return response) as [response Hr]
    by (eexists; vm_compute; reflexivity).
  exists response. split; [exact Hr | ].
  destruct (response_reflects_decision detector blank_services
              "http://free-prize.xyz" response Hr) as (Hu & _ & Hn & Hl & _).
  split; [exact Hu | split; [exact Hn | exact Hl]].
Defined.

Lemma trusted_host_is_never_reported_witness :
  exists response,
    predict_phishing detector alarmed_services "evil-github.com/login"
    = Return response
    /\ url response = "https://evil-github.com/login"
    /\ prediction response = 0%Z.
Proof.
  assert (exists response,
             predict_phishing detector alarmed_services "evil-github.com/login"
             = Return response) as [response Hr]
    by (eexists; vm_compute; reflexivity).
  exists response. split; [exact Hr | ].
  split.
  - pose proof Hr as Hu. vm_compute in Hu. injection Hu as <-. reflexivity.
  - apply (proj2 (@trusted_host_is_never_reported node node_tree)
             alarmed_services "evil-github.com/login" response "evil-" "github.com" Hr).
    + simpl. tauto.
    + vm_compute. reflexivity.
Defined.

Lemma endpoint_errors_witness :
  (predict_phishing detector unreachable_services " example.com "
   = Raise (HTTPException 422 "Analysis failed: Failed to scrape webpage")
   /\ Str.strip " example.com " <> ""
   /\ exists e', fetch unreachable_services (requested_url " example.com ") = Raise e')
  /\ predict_phishing detector blank_services "http://["
     = Raise (HTTPException 500 "Internal server error: Invalid IPv6 URL").
Proof.
  destruct (@endpoint_errors node node_tree detector unreachable_services
              " example.com ") as (Hclass & _ & _).
  destruct (@endpoint_errors node node_tree detector blank_services "http://[")
    as (_ & _ & Hraise).
  split.
  - split; [reflexivity | ].
    destruct (Hclass (HTTPException 422 "Analysis failed: Failed to scrape webpage")
                eq_refl)
      as [[Hs _] | [(_ & Hne & _ & Hf) | [Hs _]]].
    + discriminate Hs.
    + split; assumption.
    + discriminate Hs.
  - apply (Hraise (ValueError "Invalid IPv6 URL")); [discriminate | ].
    vm_compute. reflexivity.
Defined.

Lemma model_outage_still_gives_verdict_witness :
  exists response,
    predict_phishing detector
      (sample_services (Raise (ResponseError "connection refused")))
      "https://example.com"
    = Return response
    /\ hd_error (red_flags response) = Some "LLM error: connection refused".
Proof.
  assert (exists rep,
             get_domain_reputation detector "https://example.com" = Return rep)
    as [rep Hrep] by (eexists; vm_compute; reflexivity).
  destruct (@model_outage_still_gives_verdict node node_tree detector
              (sample_services (Raise (ResponseError "connection refused")))
              "https://example.com" rep twin_forms_page
              {| total_risk_score := 1.0%py;
                 risk_factors := [ ("forms_present", 0.7%py);
                                   ("password_fields", 0.6%py);
                                   ("suspicious_elements", 0.2%py) ] |}
              Hrep eq_refl eq_refl I)
    as (flag & reasoning & result & Hllm & _ & _ & _ & _ & _ & Hp).
  destruct (Hp "https://example.com" eq_refl ltac:(discriminate))
    as (response & Hr & _ & Hflag).
  exists response. split; [exact Hr | ].
  injection Hllm as <- _. exact Hflag.
Defined.

Lemma judgment_without_likelihood_is_fatal_witness :
  detect_webpage_phishing detector (sample_services (Return "{}")) "https://example.com"
  = Raise (KeyError "phishing_likelihood")
  /\ predict_phishing detector (sample_services (Return "{}")) "example.com"
     = Raise (HTTPException 500 "Internal server error: 'phishing_likelihood'")
  /\ llm_score_of (PyDict [("phishing_likelihood", PyStr "high")])
     = Raise (TypeError "unsupported operand type(s) for /: 'str' and 'float'").
Proof.
  assert (exists rep,
             get_domain_reputation detector "https://example.com" = Return rep)
    as [rep Hrep] by (eexists; vm_compute; reflexivity).
  destruct (@judgment_without_likelihood_is_fatal node node_tree detector
              (sample_services (Return "{}")) "https://example.com" rep
              twin_forms_page
              {| total_risk_score := 1.0%py;
                 risk_factors := [ ("forms_present", 0.7%py);
                                   ("password_fields", 0.6%py);
                                   ("suspicious_elements", 0.2%py) ] |}
              (KeyError "phishing_likelihood") Hrep eq_refl eq_refl eq_refl)
    as (Hd & Hp & _ & Htype).
  split; [exact Hd | split].
  - apply Hp; [reflexivity | discriminate].
  - exact (proj1 (Htype [("phishing_likelihood", PyStr "high")] (PyStr "high")
                    eq_refl I)).
Defined.

(* ================================================================== *)
(** * The scans of the extractor *)
(* ================================================================== *)

Section ScanFacts.
Context {Tag : Type} `{DocumentTree Tag}.

Lemma scan_script_first_pattern (acc : bool * list string) (script : Tag) :
  scan_script acc script =
  match first_pattern script with
  | Some pattern => (true, (snd acc ++ [pattern])%list)
  | None => acc
  end.
Proof. destruct acc as [js l]. reflexivity. Qed.

Lemma fold_scan_script (scripts : list Tag) (js : bool) (l : list string) :
  fold_left scan_script scripts (js, l)
  = ((js || existsb (fun script =>
                       match first_pattern script with
                       | Some _ => true
                       | None => false
                       end) scripts)%bool,
     (l ++ flat_map (fun script =>
                       match first_pattern script with
                       | Some pattern => [pattern]
                       | None => []
                       end) scripts)%list).
Proof.
  revert js l. induction scripts as [ | script scripts IH]; intros js l.
  - simpl. now rewrite Bool.orb_false_r, app_nil_r.
  - cbn [fold_left existsb flat_map]. rewrite scan_script_first_pattern.
    destruct (first_pattern script) as [pattern | ]; cbn [snd].
    + rewrite IH. cbn [orb]. rewrite Bool.orb_true_r, <- app_assoc. reflexivity.
    + rewrite IH. cbn [orb app]. reflexivity.
Qed.

Lemma fold_scan_form (forms : list Tag) (fields actions : list string) :
  fold_left scan_form forms (fields, actions)
  = ((fields ++ flat_map form_inputs forms)%list,
     (actions ++ filter (fun action => negb (String.eqb action ""))
                        (map form_action forms))%list).
Proof.
  revert fields actions. induction forms as [ | form forms IH]; intros fields actions.
  - simpl. now rewrite !app_nil_r.
  - cbn [fold_left flat_map map filter]. unfold scan_form at 2.
    fold (form_action form). fold (form_inputs form).
    rewrite IH, <- app_assoc.
    destruct (String.eqb (form_action form) ""); cbn [negb].
    + reflexivity.
    + now rewrite <- app_assoc.
Qed.

Lemma extract_scripts (self : WebpagePhishingDetector) (soup : Tag) :
  javascript_suspicious (extract_webpage_features self soup)
  = existsb (fun script =>
               match first_pattern script with Some _ => true | None => false end)
            (find_all soup (by_tag "script"))
  /\ suspicious_scripts (extract_webpage_features self soup)
     = list_set (flat_map (fun script =>
                             match first_pattern script with
                             | Some pattern => [pattern]
                             | None => []
                             end)
                          (find_all soup (by_tag "script"))).
Proof.
  unfold extract_webpage_features.
  destruct (fold_left scan_form _ _) as [fields actions].
  rewrite fold_scan_script. split; reflexivity.
Qed.

Lemma extract_forms (self : WebpagePhishingDetector) (soup : Tag) :
  input_fields (extract_webpage_features self soup)
  = flat_map form_inputs (find_all soup (by_tag "form"))
  /\ form_actions (extract_webpage_features self soup)
     = filter (fun action => negb (String.eqb action ""))
              (map form_action (find_all soup (by_tag "form")))
  /\ forms_count (extract_webpage_features self soup)
     = len (find_all soup (by_tag "form")).
Proof.
  unfold extract_webpage_features.
  rewrite fold_scan_form.
  destruct (fold_left scan_script _ _) as [js scripts].
  repeat split; reflexivity.
Qed.

(** X9.  The scan of the scripts: the [javascript_suspicious] flag is set
    exactly when a pattern was recorded, which is exactly when some script
    has one of the eleven patterns in its body or in its source address
    (both in lower case); the recorded patterns are the first pattern of
    each such script, so they are among the eleven and at most eleven. *)
Theorem script_scan_records_first_patterns (self : WebpagePhishingDetector)
  (soup : Tag) :
  let features := extract_webpage_features self soup in
  let scripts := find_all soup (by_tag "script") in
  (javascript_suspicious features = true <-> suspicious_scripts features <> [])
  /\ (javascript_suspicious features = true
      <-> exists script pattern,
            In script scripts /\ In pattern suspicious_js_patterns
            /\ (Str.contains pattern
                  (Str.lower match tag_string script with
                             | Some s => s
                             | None => EmptyString
                             end)
                || Str.contains pattern (Str.lower (get_or_empty script "src")))%bool
               = true)
  /\ (forall pattern,
         In pattern (suspicious_scripts features)
         <-> exists script, In script scripts /\ first_pattern script = Some pattern)
  /\ incl (suspicious_scripts features) suspicious_js_patterns
  /\ (List.length (suspicious_scripts features) <= 11)%nat.
Proof.
  intros features scripts.
  destruct (extract_scripts self soup) as [Hjs Hl].
  fold features scripts in Hjs, Hl.
  assert (forall pattern,
             In pattern (suspicious_scripts features)
             <-> exists script, In script scripts /\ first_pattern script = Some pattern)
    as Hmem.
  { intros pattern. rewrite Hl. unfold list_set. rewrite nodup_In, in_flat_map.
    split.
    - intros (script & Hin & Hp). exists script. split; trivial.
      destruct (first_pattern script) as [p | ]; simpl in Hp; [ | contradiction].
      destruct Hp as [-> | []]. reflexivity.
    - intros (script & Hin & Hp). exists script. split; trivial.
      rewrite Hp. simpl. tauto. }
  assert (javascript_suspicious features = true
          <-> exists script pattern,
                In script scripts /\ first_pattern script = Some pattern) as Hflag.
  { rewrite Hjs, existsb_exists. split.
    - intros (script & Hin & Hp).
      destruct (first_pattern script) as [p | ] eqn:E; [ | discriminate]. eauto.
    - intros (script & p & Hin & Hp). exists script. now rewrite Hp. }
  assert (incl (suspicious_scripts features) suspicious_js_patterns) as Hincl.
  { intros pattern Hin. apply Hmem in Hin as (script & _ & Hp).
    unfold first_pattern in Hp. now apply find_some in Hp as [Hp _]. }
  split; [ | split; [ | split; [exact Hmem | split; [exact Hincl | ]]]].
  - rewrite Hflag. split.
    + intros (script & p & Hin & Hp) Hnil.
      assert (In p (suspicious_scripts features)) as Hp' by (apply Hmem; eauto).
      rewrite Hnil in Hp'. contradiction.
    + intros Hne. destruct (suspicious_scripts features) as [ | p l] eqn:E;
        [contradiction | ].
      destruct (proj1 (Hmem p) (or_introl eq_refl)) as (script & Hin & Hp). eauto.
  - rewrite Hflag. split.
    + intros (script & p & Hin & Hp). exists script, p. split; trivial.
      unfold first_pattern in Hp. now apply find_some in Hp.
    + intros (script & p & Hin & Hp & Hc). exists script.
      destruct (first_pattern script) as [p' | ] eqn:E; [eauto | ].
      unfold first_pattern in E.
      pose proof (find_none _ _ E p Hp) as Hn. cbv beta in Hn. congruence.
  - change 11%nat with (List.length suspicious_js_patterns).
    apply NoDup_incl_length; [ | exact Hincl].
    rewrite Hl. apply NoDup_nodup.
Qed.

(** X10.  The scan of the forms: the input descriptors are those of the
    inputs inside the forms, form by form, and the form actions are the
    non-empty [action] attributes of the forms, in document order; so no
    action is the empty text and there are at most as many actions as
    forms.  On a page without forms both lists are empty, and the scorer
    then has neither a [forms_present] nor a [password_fields] factor,
    whatever inputs the page has outside forms. *)
Theorem form_scan_lists_inputs_and_actions (self : WebpagePhishingDetector)
  (soup : Tag) :
  let features := extract_webpage_features self soup in
  let forms := find_all soup (by_tag "form") in
  input_fields features = flat_map form_inputs forms
  /\ form_actions features
     = filter (fun action => negb (String.eqb action "")) (map form_action forms)
  /\ ~ In "" (form_actions features)
  /\ (len (form_actions features) <= forms_count features)%Z
  /\ (forms_count features = 0%Z ->
      input_fields features = []
      /\ form_actions features = []
      /\ forall r,
           calculate_content_risk_score features = Return r ->
           dict_get "password_fields" (risk_factors r) = None
           /\ dict_get "forms_present" (risk_factors r) = None).
Proof.
  intros features forms.
  destruct (extract_forms self soup) as (Hfields & Hactions & Hcount).
  fold features forms in Hfields, Hactions, Hcount.
  split; [exact Hfields | split; [exact Hactions | split; [ | split]]].
  - rewrite Hactions, filter_In. intros [_ E]. discriminate.
  - rewrite Hactions, Hcount. unfold len.
    pose proof (filter_length_le (fun action => negb (String.eqb action ""))
                  (map form_action forms)) as Hle.
    rewrite length_map in Hle. lia.
  - intros Hzero. rewrite Hcount in Hzero.
    assert (forms = []) as Hnil
      by (destruct forms; trivial; unfold len in Hzero; simpl in Hzero; lia).
    rewrite Hnil in Hfields, Hactions. simpl in Hfields, Hactions.
    split; [exact Hfields | split; [exact Hactions | ]].
    intros r Hr.
    assert (forms_count features = 0%Z) as Hc by (rewrite Hcount, Hnil; reflexivity).
    scorer_steps Hr. injection Hr as <-. cbn [risk_factors].
    split; lookup_trace; rewrite ?Hfields, ?Hc; reflexivity.
Qed.

Lemma length_snoc_if {A : Type} (b : bool) (l : list A) (x : A) :
  (List.length (if b then (l ++ [x])%list else l) <= List.length l + 1)%nat.
Proof. destruct b; rewrite ?length_app; simpl; lia. Qed.

Lemma extract_suspicious_elements_length (self : WebpagePhishingDetector)
  (soup : Tag) :
  (List.length (suspicious_elements (extract_webpage_features self soup)) <= 10)%nat.
Proof.
  unfold extract_webpage_features.
  destruct (fold_left scan_form _ _) as [fields actions].
  destruct (fold_left scan_script _ _) as [js scripts].
  cbn [suspicious_elements]. cbv zeta.
  rewrite fold_left_conditional_append.
  repeat match goal with
         | |- context [List.length (if ?b then (?l ++ [?x])%list else ?l)] =>
             pose proof (length_snoc_if b l x);
             generalize dependent (if b then (l ++ [x])%list else l); intros
         | H : context [List.length (if ?b then (?l ++ [?x])%list else ?l)] |- _ =>
             pose proof (length_snoc_if b l x);
             generalize dependent (if b then (l ++ [x])%list else l); intros
         end.
  match goal with
  | H : context [List.length (?a ++ map ?f ?l)%list] |- _ =>
      rewrite length_app, length_map in H
  end.
  match goal with
  | H : context [List.length (filter ?p sensitive_patterns)] |- _ =>
      pose proof (filter_length_le p sensitive_patterns) as Hs;
      change (List.length sensitive_patterns) with 5%nat in Hs;
      generalize dependent (List.length (filter p sensitive_patterns)); intros
  end.
  destruct (find_all soup (by_tag_attr "input" "type" (Exactly "password")));
    simpl in *; lia.
Qed.

Lemma extract_counts_small (self : WebpagePhishingDetector) (soup : Tag) :
  modest_document soup ->
  (len (suspicious_keywords self) < 2 ^ 53)%Z ->
  (len (social_engineering_phrases self) < 2 ^ 53)%Z ->
  (len (urgency_words self) < 2 ^ 53)%Z ->
  counts_small (extract_webpage_features self soup).
Proof.
  intros Hdoc Hk Hp Hu.
  pose proof (extract_suspicious_elements_length self soup) as He.
  unfold counts_small.
  generalize dependent (suspicious_elements (extract_webpage_features self soup)).
  intros elements He.
  unfold extract_webpage_features.
  destruct (fold_left scan_form _ _) as [fields actions].
  destruct (fold_left scan_script _ _) as [js scripts].
  cbv zeta. cbn [forms_count popup_indicators ads_count iframe_count
                 hidden_elements urgency_indicators suspicious_keywords_found
                 social_engineering_signals].
  set (text := Str.lower (get_text soup)).
  pose proof (filter_length_le (fun kw => Str.contains kw text)
                (suspicious_keywords self)) as Fk.
  pose proof (filter_length_le (fun phrase => Str.contains phrase text)
                (social_engineering_phrases self)) as Fp.
  pose proof (filter_length_le (fun word => Str.contains word text)
                (urgency_words self)) as Fu.
  repeat match goal with
         | |- context [len (find_all soup ?q)] =>
             pose proof (Hdoc q); pose proof (len_nonneg (find_all soup q));
             generalize dependent (len (find_all soup q)); intros
         end.
  unfold len in *. change (2 ^ 50)%Z with 1125899906842624%Z in *.
  change (2 ^ 53)%Z with 9007199254740992%Z in *.
  repeat split; lia.
Qed.

(** X11.  The scorer returns on the feature record of every document in
    which each query finds fewer than [2^50] elements: no count of the
    record is then too large for a float (the vocabularies bound the
    matched keywords, phrases and urgency words, and there are at most 10
    suspicious-element tags). *)
Theorem scorer_returns_on_extracted_features :
  (forall (self : WebpagePhishingDetector) (soup : Tag),
      modest_document soup ->
      (len (suspicious_keywords self) < 2 ^ 53)%Z ->
      (len (social_engineering_phrases self) < 2 ^ 53)%Z ->
      (len (urgency_words self) < 2 ^ 53)%Z ->
      exists r, calculate_content_risk_score (extract_webpage_features self soup)
                = Return r)
  /\ (forall soup : Tag,
         modest_document soup ->
         exists r, calculate_content_risk_score (extract_webpage_features detector soup)
                   = Return r).
Proof.
  split.
  - intros self soup Hdoc Hk Hp Hu.
    now apply calculate_content_risk_score_returns, extract_counts_small.
  - intros soup Hdoc.
    apply calculate_content_risk_score_returns, extract_counts_small; trivial;
      vm_compute; reflexivity.
Qed.

End ScanFacts.

Lemma form_scan_lists_inputs_and_actions_witness :
  suspicious_elements (extract_webpage_features detector formless_password_page)
  = ["password_fields:1"]
  /\ input_fields (extract_webpage_features detector formless_password_page) = []
  /\ forall r,
       calculate_content_risk_score
         (extract_webpage_features detector formless_password_page) = Return r ->
       dict_get "password_fields" (risk_factors r) = None
       /\ dict_get "forms_present" (risk_factors r) = None.
Proof.
  split; [reflexivity | ].
  destruct (@form_scan_lists_inputs_and_actions node node_tree detector
              formless_password_page) as (_ & _ & _ & _ & Hnone).
  destruct (Hnone eq_refl) as (Hfields & _ & Hfactors).
  split; [exact Hfields | exact Hfactors].
Defined.

Lemma filter_len_small (q : query) (soup : node) :
  (Z.of_nat (List.length (descendants soup)) < 2 ^ 50)%Z ->
  (len (find_all soup q) < 2 ^ 50)%Z.
Proof.
  intros Hsmall. unfold len. cbn [find_all node_tree].
  pose proof (filter_length_le (matches_query q) (descendants soup)). lia.
Qed.

Lemma scorer_returns_on_extracted_features_witness :
  exists r,
    calculate_content_risk_score (extract_webpage_features detector twin_forms_page)
    = Return r.
Proof.
  apply (proj2 (@scorer_returns_on_extracted_features node node_tree)).
  intros q. apply filter_len_small. vm_compute. reflexivity.
Defined.

(* ================================================================== *)
(** * The password factor, from the page to the score *)
(* ================================================================== *)

Lemma password_fields_stored (features : WebpageFeatures) (r : ContentAnalysis) :
  calculate_content_risk_score features = Return r ->
  dict_get "password_fields" (risk_factors r)
  = if existsb (fun field => Str.contains "password" field) (input_fields features)
    then Some 0.6%py else None.
Proof.
  intros H. scorer_steps H. injection H as <-. cbn [risk_factors].
  lookup_trace. rewrite nonempty_existsb.
  now destruct (existsb _ (input_fields features)).
Qed.

(** A descriptor contains "password" as soon as one of its three parts
    does. *)
Lemma descriptor_contains (input_type input_name input_placeholder : string) :
  Str.contains "password" input_type = true
  \/ Str.contains "password" input_name = true
  \/ Str.contains "password" input_placeholder = true ->
  Str.contains "password"
    (input_type ++ ":" ++ input_name ++ ":" ++ input_placeholder) = true.
Proof.
  intros [H | [H | H]].
  - now apply contains_app_l.
  - apply contains_app_r, (contains_app_r _ ":"), contains_app_l, H.
  - apply contains_app_r, (contains_app_r _ ":"), contains_app_r,
      (contains_app_r _ ":"), H.
Qed.

(** C10.  The [password_fields] factor is in the map, with the flat value
    0.6, exactly when some input descriptor contains the text "password".
    The extractor builds one descriptor [type:name:placeholder], in lower
    case, for each input of each form; so an input of a form whose type,
    name or placeholder contains "password", in any case of the letters,
    triggers the factor, and the factor is triggered by such inputs only.
    A page whose only input is a text field named [Password_Hint] gets
    the factor though it has no input of type password. *)
Theorem password_factor_on_substring :
  (forall features r,
      calculate_content_risk_score features = Return r ->
      dict_get "password_fields" (risk_factors r)
      = if existsb (fun field => Str.contains "password" field)
                   (input_fields features)
        then Some 0.6%py else None)
  /\ (forall (Tag : Type) (tree : DocumentTree Tag) (self : WebpagePhishingDetector)
             (soup form inp : Tag),
         In form (find_all soup (by_tag "form")) ->
         In inp (find_all form (by_tag "input")) ->
         Str.contains "password" (Str.lower (get_or_empty inp "type")) = true
         \/ Str.contains "password" (Str.lower (get_or_empty inp "name")) = true
         \/ Str.contains "password" (Str.lower (get_or_empty inp "placeholder")) = true ->
         In (input_descriptor inp) (input_fields (extract_webpage_features self soup))
         /\ Str.contains "password" (input_descriptor inp) = true
         /\ forall r,
              calculate_content_risk_score (extract_webpage_features self soup)
              = Return r ->
              dict_get "password_fields" (risk_factors r) = Some 0.6%py)
  /\ (forall (Tag : Type) (tree : DocumentTree Tag) (self : WebpagePhishingDetector)
             (soup : Tag) r,
         calculate_content_risk_score (extract_webpage_features self soup) = Return r ->
         dict_get "password_fields" (risk_factors r) <> None ->
         exists form inp,
           In form (find_all soup (by_tag "form"))
           /\ In inp (find_all form (by_tag "input"))
           /\ Str.contains "password" (input_descriptor inp) = true)
  /\ (find_all hint_form_page (by_tag_attr "input" "type" (Exactly "password")) = []
      /\ input_fields (extract_webpage_features detector hint_form_page)
         = ["text:password_hint:"]
      /\ exists r,
           calculate_content_risk_score (extract_webpage_features detector hint_form_page)
           = Return r
           /\ dict_get "password_fields" (risk_factors r) = Some 0.6%py).
Proof.
  split; [exact password_fields_stored | split; [ | split]].
  - intros Tag tree self soup form inp Hform Hinp Hpart.
    assert (In (input_descriptor inp)
              (input_fields (extract_webpage_features self soup))) as Hin.
    { rewrite (proj1 (extract_forms self soup)). apply in_flat_map.
      exists form. split; [exact Hform | ].
      unfold form_inputs. now apply in_map. }
    assert (Str.contains "password" (input_descriptor inp) = true) as Hdescr
      by (unfold input_descriptor; now apply descriptor_contains).
    split; [exact Hin | split; [exact Hdescr | ]].
    intros r Hr. rewrite (password_fields_stored _ r Hr).
    assert (existsb (fun field => Str.contains "password" field)
              (input_fields (extract_webpage_features self soup)) = true) as ->
      by (apply existsb_exists; eauto).
    reflexivity.
  - intros Tag tree self soup r Hr Hsome.
    rewrite (password_fields_stored _ r Hr) in Hsome.
    destruct (existsb _ (input_fields (extract_webpage_features self soup))) eqn:E;
      [ | contradiction].
    apply existsb_exists in E as (field & Hin & Hfield).
    rewrite (proj1 (extract_forms self soup)) in Hin.
    apply in_flat_map in Hin as (form & Hform & Hin).
    unfold form_inputs in Hin. apply in_map_iff in Hin as (inp & <- & Hinp).
    eauto.
  - split; [reflexivity | split; [reflexivity | ]].
    eexists. split; reflexivity.
Qed.

Lemma password_factor_on_substring_witness :
  exists r,
    calculate_content_risk_score (extract_webpage_features detector hint_form_page)
    = Return r
    /\ dict_get "password_fields" (risk_factors r) = Some 0.6%py.
Proof.
  destruct password_factor_on_substring as (_ & Hinput & _).
  assert (exists r,
             calculate_content_risk_score
               (extract_webpage_features detector hint_form_page) = Return r)
    as [r Hr] by (eexists; reflexivity).
  exists r. split; [exact Hr | ].
  refine (proj2 (proj2 (Hinput node node_tree detector hint_form_page
                          (Element "form" [("action", "/remind")]
                             [ Element "input"
                                 [("type", "text"); ("name", "Password_Hint")] [] ])
                          (Element "input"
                             [("type", "text"); ("name", "Password_Hint")] [])
                          _ _ _)) r Hr).
  - left. reflexivity.
  - left. reflexivity.
  - right. left. reflexivity.
Defined.

(* ================================================================== *)
(** * Text around the model's answer *)
(* ================================================================== *)

Lemma mem_char_lstrip (c : ascii) (s : string) :
  Str.mem_char c s = false -> Str.mem_char c (Str.lstrip s) = false.
Proof.
  induction s as [ | a s IH]; simpl; trivial.
  intros Hs. apply Bool.orb_false_iff in Hs as [Ha Hs].
  destruct (Str.is_space a); [auto | ]. simpl. now rewrite Ha, Hs.
Qed.

Lemma mem_char_rstrip (c : ascii) (s : string) :
  Str.mem_char c s = false -> Str.mem_char c (Str.rstrip s) = false.
Proof.
  induction s as [ | a s IH]; simpl; trivial.
  intros Hs. apply Bool.orb_false_iff in Hs as [Ha Hs]. specialize (IH Hs).
  destruct (Str.rstrip s) as [ | b r].
  - destruct (Str.is_space a); simpl; trivial. now rewrite Ha.
  - cbn [Str.mem_char] in *. now rewrite Ha, IH.
Qed.

Lemma lstrip_app_nonspace (a : string) (c : ascii) (b : string) :
  Str.is_space c = false ->
  Str.lstrip (a ++ String c b) = Str.lstrip a ++ String c b.
Proof.
  intros Hc. induction a as [ | d a IH]; simpl.
  - now rewrite Hc.
  - destruct (Str.is_space d); [exact IH | reflexivity].
Qed.

Lemma rstrip_app_nonspace (a : string) (c : ascii) (b : string) :
  Str.is_space c = false ->
  Str.rstrip (a ++ String c b) = a ++ String c (Str.rstrip b).
Proof.
  intros Hc. induction a as [ | d a IH]; simpl.
  - destruct (Str.rstrip b); [now rewrite Hc | reflexivity].
  - rewrite IH. destruct a; reflexivity.
Qed.

Lemma find_app_fresh (c : ascii) (a b : string) :
  Str.mem_char c a = false ->
  Str.find c (a ++ String c b) = Some (String.length a).
Proof.
  induction a as [ | d a IH]; simpl.
  - now rewrite Ascii.eqb_refl.
  - intros Ha. apply Bool.orb_false_iff in Ha as [Hd Ha].
    rewrite Hd, (IH Ha). reflexivity.
Qed.

Lemma rfind_fresh (c : ascii) (b : string) :
  Str.mem_char c b = false -> Str.rfind c b = None.
Proof.
  induction b as [ | d b IH]; simpl; trivial.
  intros Hb. apply Bool.orb_false_iff in Hb as [Hd Hb].
  now rewrite (IH Hb), Hd.
Qed.

Lemma rfind_app_fresh (c : ascii) (a b : string) :
  Str.mem_char c b = false ->
  Str.rfind c (a ++ String c b) = Some (String.length a).
Proof.
  intros Hb. induction a as [ | d a IH]; simpl.
  - now rewrite (rfind_fresh c b Hb), Ascii.eqb_refl.
  - now rewrite IH.
Qed.

Lemma drop_app_length (a b : string) : Str.drop (String.length a) (a ++ b) = b.
Proof. induction a as [ | c a IH]; simpl; trivial. Qed.

Lemma take_app_length (a b : string) : Str.take (String.length a) (a ++ b) = a.
Proof.
  induction a as [ | c a IH]; simpl; [reflexivity | now rewrite IH].
Qed.

Lemma length_append (a b : string) :
  String.length (a ++ b) = (String.length a + String.length b)%nat.
Proof. induction a as [ | c a IH]; simpl; congruence. Qed.

(** The braced part of an answer with text around the object *)
Lemma braced_strip (pre mid post : string) :
  Str.mem_char "{" pre = false -> Str.mem_char "}" post = false ->
  has_brace_pair (Str.strip (pre ++ "{" ++ mid ++ "}" ++ post)) = true
  /\ braced (Str.strip (pre ++ "{" ++ mid ++ "}" ++ post)) = "{" ++ mid ++ "}".
Proof.
  intros Hpre Hpost. unfold Str.strip.
  change (pre ++ "{" ++ mid ++ "}" ++ post)
    with (pre ++ String "{" (mid ++ String "}" post)).
  rewrite lstrip_app_nonspace by reflexivity.
  set (pre' := Str.lstrip pre).
  assert (Str.mem_char "{" pre' = false) as Hpre' by now apply mem_char_lstrip.
  change (pre' ++ String "{" (mid ++ String "}" post))
    with (pre' ++ (String "{" mid) ++ String "}" post).
  rewrite <- append_assoc.
  rewrite rstrip_app_nonspace by reflexivity.
  set (post' := Str.rstrip post).
  assert (Str.mem_char "}" post' = false) as Hpost' by now apply mem_char_rstrip.
  unfold has_brace_pair, braced.
  rewrite (rfind_app_fresh "}" _ post' Hpost').
  rewrite append_assoc. cbn [append].
  rewrite (find_app_fresh "{" pre' _ Hpre').
  split.
  - apply Nat.leb_le. rewrite length_append. lia.
  - unfold slice, index_of.
    rewrite Nat2Z.id, drop_app_length.
    replace (Z.to_nat (Z.of_nat (String.length (pre' ++ String "{" mid)) + 1
                       - Z.of_nat (String.length pre')))
      with (String.length (String "{" mid ++ "}"))
      by (rewrite !length_append; simpl; lia).
    replace (String "{" (mid ++ String "}" post'))
      with ((String "{" mid ++ "}") ++ post')
      by (simpl; now rewrite append_assoc).
    rewrite take_app_length. reflexivity.
Qed.


Section Chatter.
Context {Tag : Type}.

(** X12.  Text around the model's JSON object is ignored: when the answer
    is some text without an opening brace, then an object in braces, then
    some text without a closing brace, the adapter decodes exactly the
    object, blanks and other text around it playing no part; it returns
    the decoded value, or the degraded record when the object does not
    decode. *)
Theorem text_around_the_object_is_ignored (svc : Services Tag)
  (features : WebpageFeatures) (pre mid post : string) :
  llm_generate svc features = Return (pre ++ "{" ++ mid ++ "}" ++ post) ->
  Str.mem_char "{" pre = false ->
  Str.mem_char "}" post = false ->
  analyze_content_with_llm svc features
  = match json_loads svc ("{" ++ mid ++ "}") with
    | Return parsed => parsed
    | Raise e => degraded_judgment ("LLM error: " ++ exn_str e) "LLM analysis failed"
    end.
Proof.
  intros Hgen Hpre Hpost.
  destruct (braced_strip pre mid post Hpre Hpost) as [Hpair Hbraced].
  unfold analyze_content_with_llm. rewrite Hgen. cbn [bind].
  rewrite brace_condition, Hpair.
  fold (braced (Str.strip (pre ++ "{" ++ mid ++ "}" ++ post))).
  rewrite Hbraced.
  destruct (json_loads svc ("{" ++ mid ++ "}")); reflexivity.
Qed.

End Chatter.

Lemma text_around_the_object_is_ignored_witness :
  analyze_content_with_llm chatty_services quiet_page = PyDict [].
Proof.
  apply (text_around_the_object_is_ignored chatty_services quiet_page
           "  Sure! Here is the JSON: " "" " I hope it helps. ");
    reflexivity.
Defined.

(* ================================================================== *)
(** * The range of the scores *)
(* ================================================================== *)

Module Py64Bounds.
Import Py64 Py64Facts Py64Magnitude.

Lemma shr_1_even (m : Z) :
  (0 <= m)%Z ->
  shr_1 (Build_shr_record (m * 2) false false) = Build_shr_record m false false.
Proof.
  intros Hm. destruct m as [ | p | p]; try lia; try reflexivity.
  rewrite Z.mul_comm. reflexivity.
Qed.

Lemma iter_shr_1_exact (k : positive) :
  forall m : Z, (0 <= m)%Z ->
    iter_pos shr_1 k (Build_shr_record (m * 2 ^ Z.pos k) false false)
    = Build_shr_record m false false.
Proof.
  induction k as [k IH | k IH | ]; intros m Hm; cbn [iter_pos].
  - assert (0 < 2 ^ Z.pos k)%Z as Hpow by (apply Z.pow_pos_nonneg; lia).
    replace (m * 2 ^ Z.pos k~1)%Z with ((m * 2 ^ Z.pos k * 2 ^ Z.pos k) * 2)%Z.
    + rewrite shr_1_even by nia. rewrite IH by nia. now apply IH.
    + rewrite (Pos2Z.inj_xI k).
      replace (2 * Z.pos k + 1)%Z with (Z.pos k + Z.pos k + 1)%Z by lia.
      rewrite !Z.pow_add_r by lia. change (2 ^ 1)%Z with 2%Z. ring.
  - assert (0 < 2 ^ Z.pos k)%Z as Hpow by (apply Z.pow_pos_nonneg; lia).
    replace (m * 2 ^ Z.pos k~0)%Z with ((m * 2 ^ Z.pos k) * 2 ^ Z.pos k)%Z.
    + rewrite IH by nia. now apply IH.
    + rewrite (Pos2Z.inj_xO k).
      replace (2 * Z.pos k)%Z with (Z.pos k + Z.pos k)%Z by lia.
      rewrite Z.pow_add_r by lia. ring.
  - change (2 ^ 1)%Z with 2%Z. now apply shr_1_even.
Qed.

Lemma round_nearest_even_le (m : Z) (l : location) :
  (round_nearest_even m l <= m + 1)%Z.
Proof.
  destruct l as [ | [ | | ]]; simpl; try lia.
  destruct (Z.even m); lia.
Qed.

(** What the first step of a rounding does to a mantissa that has to lose
    [k] digits: the mantissa is divided by [2^k], and rounded up by one at
    most; it is not rounded at all when the division is exact. *)
Lemma shr_fexp_round (m e k : Z) :
  (0 <= m)%Z ->
  (fexp prec emax (Zdigits2 m + e) - e = k)%Z -> (0 <= k)%Z ->
  let mrs := fst (shr_fexp prec emax m e loc_Exact) in
  let m' := round_nearest_even (shr_m mrs) (loc_of_shr_record mrs) in
  snd (shr_fexp prec emax m e loc_Exact) = (e + k)%Z
  /\ (m / 2 ^ k <= m' <= m / 2 ^ k + 1)%Z
  /\ ((m / 2 ^ k * 2 ^ k = m)%Z -> m' = (m / 2 ^ k)%Z).
Proof.
  intros Hm Hk Hpos. unfold shr_fexp. rewrite Hk. unfold shr.
  destruct k as [ | k | k]; try lia; cbn [fst snd].
  - cbn [shr_record_of_loc shr_m loc_of_shr_record round_nearest_even].
    rewrite Z.div_1_r. repeat split; lia.
  - cbv zeta.
    pose proof (iter_shr_1_div k (shr_record_of_loc m loc_Exact)
                  ltac:(rewrite shr_record_of_loc_m; exact Hm)) as Hdiv.
    rewrite shr_record_of_loc_m in Hdiv.
    split; [reflexivity | split].
    + rewrite <- Hdiv. split; [apply round_nearest_even_ge | apply round_nearest_even_le].
    + intros Hexact.
      change (shr_record_of_loc m loc_Exact) with (Build_shr_record m false false).
      rewrite <- Hexact at 1 2.
      rewrite iter_shr_1_exact by (apply Z.div_pos; [exact Hm | apply Z.pow_pos_nonneg; lia]).
      reflexivity.
Qed.

(** The mantissa after any shift *)
Lemma shr_fexp_m (m e : Z) (l : location) :
  (0 <= m)%Z ->
  shr_m (fst (shr_fexp prec emax m e l))
  = (m / 2 ^ Z.max 0 (fexp prec emax (Zdigits2 m + e) - e))%Z
  /\ snd (shr_fexp prec emax m e l)
     = (e + Z.max 0 (fexp prec emax (Zdigits2 m + e) - e))%Z.
Proof.
  intros Hm. unfold shr_fexp, shr.
  destruct (fexp prec emax (Zdigits2 m + e) - e)%Z as [ | k | k]; cbn [fst snd].
  - rewrite shr_record_of_loc_m, Z.div_1_r. split; [reflexivity | lia].
  - rewrite iter_shr_1_div by (rewrite shr_record_of_loc_m; exact Hm).
    rewrite shr_record_of_loc_m. split; reflexivity.
  - rewrite shr_record_of_loc_m. change (Z.max 0 (Z.neg k)) with 0%Z.
    rewrite Z.div_1_r. split; [reflexivity | lia].
Qed.

Lemma digits2_pos_upper (p : positive) : (Z.pos p < 2 ^ Z.pos (digits2_pos p))%Z.
Proof.
  rewrite digits2_pos_size.
  pose proof (Pos.size_gt p) as Hlt.
  assert (Z.pos p < Z.pos (2 ^ Pos.size p))%Z as Hz by exact Hlt.
  now rewrite Pos2Z.inj_pow in Hz.
Qed.

(** The second step of a rounding, on a mantissa of at most [2^53]: a
    mantissa below [2^53] is kept, and [2^53] becomes [2^52] with the next
    exponent. *)
Lemma shr_fexp_carry (q : positive) (e : Z) :
  (emin prec emax <= e)%Z -> (Z.pos q <= 2 ^ 53)%Z ->
  (Z.pos q < 2 ^ 53
   /\ shr_m (fst (shr_fexp prec emax (Z.pos q) e loc_Exact)) = Z.pos q
   /\ snd (shr_fexp prec emax (Z.pos q) e loc_Exact) = e)%Z
  \/ (Z.pos q = 2 ^ 53
      /\ shr_m (fst (shr_fexp prec emax (Z.pos q) e loc_Exact)) = 2 ^ 52
      /\ snd (shr_fexp prec emax (Z.pos q) e loc_Exact) = e + 1)%Z.
Proof.
  intros He Hq.
  destruct (shr_fexp_m (Z.pos q) e loc_Exact ltac:(lia)) as [Hm Hs].
  rewrite Hm, Hs. cbn [Zdigits2].
  destruct (Z_lt_le_dec (Z.pos q) (2 ^ 53)) as [Hlt | Hge].
  - left. pose proof (digits2_pos_bound q Hlt) as Hd.
    assert (Z.max 0 (fexp prec emax (Z.pos (digits2_pos q) + e) - e) = 0)%Z as ->
      by (unfold fexp, emin, prec, emax in *; lia).
    rewrite Z.div_1_r. repeat split; lia.
  - right. assert (Z.pos q = 2 ^ 53)%Z as Hq' by lia.
    injection Hq' as ->.
    assert (Z.max 0 (fexp prec emax (Z.pos (digits2_pos 9007199254740992) + e) - e)
            = 1)%Z as ->
      by (unfold fexp, emin, prec, emax in *; simpl digits2_pos; lia).
    repeat split.
Qed.

(** Rounding a mantissa with any location does not go beyond a float in
    normal form that lies above the mantissa; when the mantissa is exact, it
    may also equal that float. *)
Lemma binary_round_aux_bound (P M : positive) (E F : Z) (l : location) :
  (E <= fexp prec emax (Z.pos (digits2_pos P) + E))%Z ->
  (2 ^ 52 <= Z.pos M < 2 ^ 53)%Z ->
  (emin prec emax <= F <= emax - prec)%Z ->
  (E <= F)%Z ->
  (Z.pos P < Z.pos M * 2 ^ (F - E)
   \/ (l = loc_Exact /\ Z.pos P <= Z.pos M * 2 ^ (F - E)))%Z ->
  leb (binary_round_aux prec emax false (Z.pos P) E l) (S754_finite false M F)
  = true.
Proof.
  intros Hk HM HF HEF Hbound.
  assert (Z.pos P <= Z.pos M * 2 ^ (F - E))%Z as Hle by lia.
  set (d := Z.pos (digits2_pos P)) in *.
  set (k := (fexp prec emax (d + E) - E)%Z).
  assert (0 <= k)%Z as Hk0 by (unfold k; lia).
  assert (d - 53 <= k)%Z as Hkd by (unfold k, fexp, emin, prec, emax; lia).
  assert (0 < 2 ^ k)%Z as Hpk by (apply Z.pow_pos_nonneg; lia).
  assert (0 < 2 ^ (F - E))%Z as Hpf by (apply Z.pow_pos_nonneg; lia).
  pose proof (digits2_pos_lower P) as Hlow. fold d in Hlow.
  pose proof (digits2_pos_upper P) as Hup. fold d in Hup.
  assert (1 <= d)%Z as Hd1 by (unfold d; lia).
  (* the exponent after the first step is at most [F] *)
  assert (E + k <= F)%Z as He1.
  { destruct (Z_le_gt_dec (E + k) F) as [ | Hgt]; trivial. exfalso.
    assert (k = d - 53)%Z as Hkeq
      by (unfold k, fexp, emin, prec, emax in *; lia).
    assert (2 ^ (F - E + 53) <= 2 ^ (d - 1))%Z as Hpow
      by (apply Z.pow_le_mono_r; lia).
    rewrite Z.pow_add_r in Hpow by lia.
    assert (Z.pos M * 2 ^ (F - E) < 2 ^ 53 * 2 ^ (F - E))%Z
      by (apply Z.mul_lt_mono_pos_r; lia).
    lia. }
  (* the mantissa after the first step *)
  assert (Z.pos P / 2 ^ k < 2 ^ 53)%Z as Hm1.
  { apply Z.div_lt_upper_bound; [exact Hpk | ].
    assert (2 ^ d <= 2 ^ (k + 53))%Z as Hpow by (apply Z.pow_le_mono_r; lia).
    rewrite Z.pow_add_r in Hpow by lia. lia. }
  assert (0 <= Z.pos P / 2 ^ k)%Z as Hq0 by (apply Z.div_pos; lia).
  set (m2 := round_nearest_even
               (shr_m (fst (shr_fexp prec emax (Z.pos P) E l)))
               (loc_of_shr_record (fst (shr_fexp prec emax (Z.pos P) E l)))).
  assert (snd (shr_fexp prec emax (Z.pos P) E l) = E + k
          /\ Z.pos P / 2 ^ k <= m2 <= Z.pos P / 2 ^ k + 1)%Z as [He Hr].
  { destruct (shr_fexp_m (Z.pos P) E l ltac:(lia)) as [Hm Hs].
    cbn [Zdigits2] in Hm, Hs. fold d in Hm, Hs. fold k in Hm, Hs.
    rewrite Z.max_r in Hm, Hs by exact Hk0.
    split; [exact Hs | ]. unfold m2. rewrite Hm.
    split; [apply round_nearest_even_ge | apply round_nearest_even_le]. }
  assert (E + k = F -> m2 <= Z.pos M)%Z as Hm2F.
  { intros HkF. replace (F - E)%Z with k in Hbound by lia.
    destruct Hbound as [Hlt | [-> Hle']].
    - assert (Z.pos P / 2 ^ k < Z.pos M)%Z
        by (apply Z.div_lt_upper_bound; lia).
      lia.
    - destruct (shr_fexp_round (Z.pos P) E k ltac:(lia) eq_refl Hk0)
        as (_ & _ & Hexact).
      fold m2 in Hexact.
      assert (Z.pos P / 2 ^ k <= Z.pos M)%Z
        by (apply Z.div_le_upper_bound; [exact Hpk | lia]).
      destruct (Z_lt_le_dec (Z.pos P / 2 ^ k) (Z.pos M)) as [ | Hge]; [lia | ].
      assert (Z.pos P / 2 ^ k = Z.pos M)%Z as Heq by lia.
      rewrite Hexact; [lia | ].
      pose proof (Z.mul_div_le (Z.pos P) (2 ^ k) Hpk). lia. }
  unfold binary_round_aux.
  destruct (shr_fexp prec emax (Z.pos P) E l) as [mrs e1].
  cbn [fst snd] in He, m2. subst e1. fold m2.
  assert (emin prec emax <= E + k)%Z as Hmin
    by (unfold k, fexp, emin, prec, emax; lia).
  clearbody m2.
  destruct m2 as [ | q | q]; try lia.
  - (* rounded to zero *)
    destruct (shr_fexp_m 0 (E + k) loc_Exact ltac:(lia)) as [H0 _].
    destruct (shr_fexp prec emax 0 (E + k) loc_Exact) as [mrs' e'].
    cbn [fst] in H0. rewrite H0, Z.div_0_l by (apply Z.pow_nonzero; lia).
    reflexivity.
  - destruct (shr_fexp_carry q (E + k) Hmin ltac:(lia))
      as [(Hq & Hm3 & He3) | (Hq & Hm3 & He3)];
      destruct (shr_fexp prec emax (Z.pos q) (E + k) loc_Exact) as [mrs' e'];
      cbn [fst snd] in Hm3, He3; rewrite Hm3; subst e'.
    + assert ((E + k <=? emax - prec)%Z = true) as -> by (apply Z.leb_le; lia).
      unfold leb, SFleb. cbn [SFcompare].
      destruct (Z.compare_spec (E + k) F) as [Heq | Hlt | Hgt]; try reflexivity;
        try lia.
      specialize (Hm2F Heq).
      change (Pos.compare_cont Eq q M) with (q ?= M)%positive.
      destruct (Pos.compare_spec q M) as [ | | HgtM]; try reflexivity.
      exfalso. apply Pos2Z.pos_lt_pos in HgtM.
      exact (proj1 (Z.le_ngt _ _) Hm2F HgtM).
    + assert (E + k < F)%Z as Hlt.
      { destruct (Z_lt_le_dec (E + k) F) as [ | Hge]; trivial.
        assert (E + k = F)%Z as Heq by lia. specialize (Hm2F Heq). lia. }
      change (2 ^ 52)%Z with (Z.pos 4503599627370496).
      assert ((E + k + 1 <=? emax - prec)%Z = true) as -> by (apply Z.leb_le; lia).
      unfold leb, SFleb. cbn [SFcompare].
      destruct (Z.compare_spec (E + k + 1) F) as [Heq | Hlt' | Hgt]; try reflexivity;
        try lia.
      change (Pos.compare_cont Eq 4503599627370496 M)
        with (4503599627370496 ?= M)%positive.
      destruct (Pos.compare_spec 4503599627370496 M) as [ | | HgtM]; try reflexivity.
      exfalso. apply Pos2Z.pos_lt_pos in HgtM.
      change (2 ^ 52)%Z with (Z.pos 4503599627370496) in HM.
      destruct HM as [HM _]. exact (proj1 (Z.le_ngt _ _) HM HgtM).
Qed.

(** Rounding does not go beyond a float in normal form that the exact
    value does not exceed. *)
Lemma binary_round_aux_le (P M : positive) (E F : Z) :
  (E <= fexp prec emax (Z.pos (digits2_pos P) + E))%Z ->
  (2 ^ 52 <= Z.pos M < 2 ^ 53)%Z ->
  (emin prec emax <= F <= emax - prec)%Z ->
  (E <= F)%Z ->
  (Z.pos P <= Z.pos M * 2 ^ (F - E))%Z ->
  leb (binary_round_aux prec emax false (Z.pos P) E loc_Exact) (S754_finite false M F)
  = true.
Proof.
  intros Hk HM HF HEF Hle.
  apply binary_round_aux_bound; trivial. right. now split.
Qed.

(** Rounding a positive mantissa gives a zero, an infinity, or a positive
    float whose mantissa is below [2^53]. *)
Lemma binary_round_aux_small (P : positive) (E : Z) :
  (E <= fexp prec emax (Z.pos (digits2_pos P) + E))%Z ->
  match binary_round_aux prec emax false (Z.pos P) E loc_Exact with
  | S754_infinity s => s = false
  | x => small_mantissa x
  end.
Proof.
  intros Hk.
  set (d := Z.pos (digits2_pos P)) in *.
  set (k := (fexp prec emax (d + E) - E)%Z).
  assert (0 <= k)%Z as Hk0 by (unfold k; lia).
  assert (d - 53 <= k)%Z as Hkd by (unfold k, fexp, emin, prec, emax; lia).
  assert (0 < 2 ^ k)%Z as Hpk by (apply Z.pow_pos_nonneg; lia).
  pose proof (digits2_pos_upper P) as Hup. fold d in Hup.
  assert (1 <= d)%Z as Hd1 by (unfold d; lia).
  assert (Z.pos P / 2 ^ k < 2 ^ 53)%Z as Hm1.
  { apply Z.div_lt_upper_bound; [exact Hpk | ].
    assert (2 ^ d <= 2 ^ (k + 53))%Z as Hpow by (apply Z.pow_le_mono_r; lia).
    rewrite Z.pow_add_r in Hpow by lia. lia. }
  assert (0 <= Z.pos P / 2 ^ k)%Z as Hq0 by (apply Z.div_pos; lia).
  assert (emin prec emax <= E + k)%Z as Hmin
    by (unfold k, fexp, emin, prec, emax; lia).
  unfold binary_round_aux.
  destruct (shr_fexp_round (Z.pos P) E k ltac:(lia) eq_refl Hk0) as (He & Hr & _).
  destruct (shr_fexp prec emax (Z.pos P) E loc_Exact) as [mrs e1].
  cbn [fst snd] in He, Hr. subst e1.
  destruct (round_nearest_even (shr_m mrs) (loc_of_shr_record mrs))
    as [ | q | q] eqn:Hm2; try lia.
  - destruct (shr_fexp_m 0 (E + k) loc_Exact ltac:(lia)) as [H0 _].
    destruct (shr_fexp prec emax 0 (E + k) loc_Exact) as [mrs' e'].
    cbn [fst] in H0. rewrite H0, Z.div_0_l by (apply Z.pow_nonzero; lia).
    exact I.
  - destruct (shr_fexp_carry q (E + k) Hmin ltac:(lia))
      as [(Hq & Hm3 & He3) | (Hq & Hm3 & He3)];
      destruct (shr_fexp prec emax (Z.pos q) (E + k) loc_Exact) as [mrs' e'];
      cbn [fst snd] in Hm3, He3; rewrite Hm3; subst e'.
    + destruct (E + k <=? emax - prec)%Z; [exact Hq | reflexivity].
    + change (2 ^ 52)%Z with (Z.pos 4503599627370496).
      destruct (E + k + 1 <=? emax - prec)%Z; [reflexivity | reflexivity].
Qed.

Lemma digits2_pos_mul_normal (mx mw : positive) :
  (2 ^ 52 <= Z.pos mw)%Z -> (53 <= Z.pos (digits2_pos (mx * mw)))%Z.
Proof.
  intros Hw. apply (digits2_pos_above (mx * mw) 52); [lia | ].
  rewrite Pos2Z.inj_mul. nia.
Qed.

(** The product of a positive float and a weight in normal form *)
Lemma mul_small (mx mw : positive) (ex ew : Z) :
  (2 ^ 52 <= Z.pos mw)%Z ->
  match mul (S754_finite false mx ex) (S754_finite false mw ew) with
  | S754_infinity s => s = false
  | x => small_mantissa x
  end.
Proof.
  intros Hw. unfold mul, SFmul. cbn [xorb].
  apply binary_round_aux_small.
  pose proof (digits2_pos_mul_normal mx mw Hw).
  unfold fexp, emin, prec, emax. lia.
Qed.

(** A float with a small mantissa that is not above a power of two, times
    a weight in normal form, is not above the weight times that power. *)
Lemma mul_le_pow2 (x : float) (mw : positive) (ew eb : Z) :
  small_mantissa x ->
  ltb (S754_finite false 4503599627370496 eb) x = false ->
  (2 ^ 52 <= Z.pos mw < 2 ^ 53)%Z ->
  (emin prec emax <= ew + eb + 52 <= emax - prec)%Z ->
  leb (mul x (S754_finite false mw ew)) (S754_finite false mw (ew + eb + 52)) = true.
Proof.
  intros Hx Hb Hw HF.
  destruct x as [s | s | | s mx ex]; simpl in Hx; try contradiction.
  - destruct s; reflexivity.
  - destruct s; [contradiction | ].
    unfold mul, SFmul. cbn [xorb].
    unfold ltb, SFltb in Hb. cbn [SFcompare] in Hb.
    assert (ex < eb \/ (ex = eb /\ Z.pos mx <= 2 ^ 52))%Z as Hcmp.
    { destruct (Z.compare_spec eb ex) as [Heq | Hlt | Hgt]; try discriminate.
      - right. split; [lia | ].
        change (Pos.compare_cont Eq 4503599627370496 mx)
          with (4503599627370496 ?= mx)%positive in Hb.
        destruct (Pos.compare_spec 4503599627370496 mx) as [Hq | Hlt | Hgt];
          try discriminate.
        + subst mx. reflexivity.
        + apply Pos2Z.pos_lt_pos in Hgt.
          change (2 ^ 52)%Z with (Z.pos 4503599627370496). now apply Z.lt_le_incl.
      - now left. }
    apply binary_round_aux_le; trivial.
    + pose proof (digits2_pos_mul_normal mx mw (proj1 Hw)).
      unfold fexp, emin, prec, emax. lia.
    + lia.
    + replace (ew + eb + 52 - (ex + ew))%Z with (eb + 52 - ex)%Z by lia.
      rewrite Pos2Z.inj_mul, Z.mul_comm.
      apply Z.mul_le_mono_nonneg_l; [lia | ].
      destruct Hcmp as [Hlt | [-> Hle]].
      * assert (2 ^ 53 <= 2 ^ (eb + 52 - ex))%Z by (apply Z.pow_le_mono_r; lia). lia.
      * replace (eb + 52 - eb)%Z with 52%Z by lia. exact Hle.
Qed.

Lemma iter_xO_value (d m : positive) :
  Z.pos (Pos.iter xO m d) = (Z.pos m * 2 ^ Z.pos d)%Z.
Proof.
  induction d as [ | d IH] using Pos.peano_ind.
  - simpl. lia.
  - rewrite Pos.iter_succ, Pos2Z.inj_xO, IH, Pos2Z.inj_succ, Z.pow_succ_r by lia.
    ring.
Qed.

(** Aligning a mantissa to a smaller exponent keeps the value. *)
Lemma shl_align_value (mx : positive) (ex ex' : Z) :
  snd (shl_align mx ex ex') = Z.min ex ex'
  /\ Z.pos (fst (shl_align mx ex ex'))
     = (Z.pos mx * 2 ^ (ex - Z.min ex ex'))%Z
  /\ Z.pos (digits2_pos (fst (shl_align mx ex ex')))
     = (Z.pos (digits2_pos mx) + (ex - Z.min ex ex'))%Z.
Proof.
  unfold shl_align.
  destruct (ex' - ex)%Z as [ | d | d] eqn:Hd; cbn [fst snd].
  - replace (Z.min ex ex') with ex by lia. rewrite Z.sub_diag, Z.mul_1_r.
    repeat split; lia.
  - replace (Z.min ex ex') with ex by lia. rewrite Z.sub_diag, Z.mul_1_r.
    repeat split; lia.
  - replace (Z.min ex ex') with ex' by lia.
    replace (ex - ex')%Z with (Z.pos d) by lia.
    rewrite iter_xO_value, digits2_pos_iter_xO. repeat split; lia.
Qed.

Lemma binary_round_le (p M : positive) (e F : Z) :
  (2 ^ 52 <= Z.pos M < 2 ^ 53)%Z ->
  (emin prec emax <= F <= emax - prec)%Z ->
  (e <= F)%Z ->
  (Z.pos p <= Z.pos M * 2 ^ (F - e))%Z ->
  leb (binary_round prec emax false p e) (S754_finite false M F) = true.
Proof.
  intros HM HF HeF Hle. unfold binary_round.
  set (e' := fexp prec emax (Z.pos (digits2_pos p) + e)).
  destruct (shl_align_value p e e') as (Hs & Hv & Hd).
  destruct (shl_align p e e') as [mz ez]. cbn [fst snd] in Hs, Hv, Hd. subst ez.
  assert (0 < 2 ^ (e - Z.min e e'))%Z as Hp1 by (apply Z.pow_pos_nonneg; lia).
  apply binary_round_aux_le; trivial.
  - rewrite Hd.
    replace (Z.pos (digits2_pos p) + (e - Z.min e e') + Z.min e e')%Z
      with (Z.pos (digits2_pos p) + e)%Z by lia.
    fold e'. lia.
  - lia.
  - rewrite Hv.
    replace (F - Z.min e e')%Z with ((F - e) + (e - Z.min e e'))%Z by lia.
    rewrite Z.pow_add_r, Z.mul_assoc by lia.
    apply Z.mul_le_mono_nonneg_r; lia.
Qed.

Lemma binary_round_small (p : positive) (e : Z) :
  small_or_inf (binary_round prec emax false p e).
Proof.
  unfold binary_round.
  set (e' := fexp prec emax (Z.pos (digits2_pos p) + e)).
  destruct (shl_align_value p e e') as (Hs & Hv & Hd).
  destruct (shl_align p e e') as [mz ez]. cbn [fst snd] in Hs, Hv, Hd. subst ez.
  assert (Z.min e e' <= fexp prec emax (Z.pos (digits2_pos mz) + Z.min e e'))%Z as Hk.
  { rewrite Hd.
    replace (Z.pos (digits2_pos p) + (e - Z.min e e') + Z.min e e')%Z
      with (Z.pos (digits2_pos p) + e)%Z by lia.
    fold e'. lia. }
  pose proof (binary_round_aux_small mz (Z.min e e') Hk) as Hr.
  destruct (binary_round_aux prec emax false (Z.pos mz) (Z.min e e') loc_Exact);
    exact Hr.
Qed.

(** What it is, for a float with a small mantissa, not to be above a power
    of two. *)
Lemma not_above_pow2 (mx : positive) (ex eb : Z) :
  (Z.pos mx < 2 ^ 53)%Z ->
  ltb (S754_finite false 4503599627370496 eb) (S754_finite false mx ex) = false ->
  (ex <= eb)%Z /\ (Z.pos mx <= 2 ^ (eb + 52 - ex))%Z.
Proof.
  intros Hx Hb. unfold ltb, SFltb in Hb. cbn [SFcompare] in Hb.
  destruct (Z.compare_spec eb ex) as [Heq | Hlt | Hgt]; try discriminate.
  - subst ex. split; [lia | ]. replace (eb + 52 - eb)%Z with 52%Z by lia.
    change (Pos.compare_cont Eq 4503599627370496 mx)
      with (4503599627370496 ?= mx)%positive in Hb.
    destruct (Pos.compare_spec 4503599627370496 mx) as [Hq | Hlt | Hgt];
      try discriminate.
    + subst mx. reflexivity.
    + apply Pos2Z.pos_lt_pos in Hgt.
      change (2 ^ 52)%Z with (Z.pos 4503599627370496). now apply Z.lt_le_incl.
  - split; [lia | ].
    assert (2 ^ 53 <= 2 ^ (eb + 52 - ex))%Z by (apply Z.pow_le_mono_r; lia). lia.
Qed.

Lemma leb_not_ltb (a b : float) : leb a b = true -> ltb b a = false.
Proof.
  unfold leb, ltb, SFleb, SFltb. rewrite (compare_antisym b a).
  destruct (SFcompare a b) as [[ | | ] | ]; simpl; congruence.
Qed.

Lemma below_next_pow2 (x : float) (eb : Z) :
  small_mantissa x ->
  ltb (S754_finite false 4503599627370496 eb) x = false ->
  leb x (S754_finite false 4503599627370496 (eb + 1)) = true.
Proof.
  intros Hx Hb. destruct x as [s | s | | s mx ex]; simpl in Hx; try contradiction.
  - destruct s; reflexivity.
  - destruct s; [contradiction | ].
    destruct (not_above_pow2 mx ex eb Hx Hb) as [He _].
    unfold leb, SFleb. cbn [SFcompare].
    assert ((ex ?= eb + 1)%Z = Lt) as -> by (apply Z.compare_lt_iff; lia).
    reflexivity.
Qed.

(** The sum of two floats that are not above a power of two is not above
    the next power. *)
Lemma add_le_pow2 (x y : float) (eb : Z) :
  small_mantissa x -> small_mantissa y ->
  ltb (S754_finite false 4503599627370496 eb) x = false ->
  ltb (S754_finite false 4503599627370496 eb) y = false ->
  (emin prec emax <= eb + 1 <= emax - prec)%Z ->
  leb (add x y) (S754_finite false 4503599627370496 (eb + 1)) = true.
Proof.
  intros Hx Hy Hbx Hby HF.
  destruct x as [sx | sx | | sx mx ex]; simpl in Hx; try contradiction.
  - destruct y as [sy | sy | | sy my ey]; simpl in Hy; try contradiction.
    + destruct sx, sy; reflexivity.
    + destruct sy; [contradiction | ]. now apply (below_next_pow2 _ eb).
  - destruct sx; [contradiction | ].
    destruct y as [sy | sy | | sy my ey]; simpl in Hy; try contradiction.
    + now apply (below_next_pow2 _ eb).
    + destruct sy; [contradiction | ].
      destruct (not_above_pow2 mx ex eb Hx Hbx) as [Hex Hmx].
      destruct (not_above_pow2 my ey eb Hy Hby) as [Hey Hmy].
      unfold add, SFadd. cbv zeta. cbn [cond_Zopp].
      set (ez := Z.min ex ey).
      destruct (shl_align_value mx ex ez) as (_ & Hvx & _).
      destruct (shl_align_value my ey ez) as (_ & Hvy & _).
      replace (Z.min ex ez) with ez in Hvx by (unfold ez; lia).
      replace (Z.min ey ez) with ez in Hvy by (unfold ez; lia).
      destruct (shl_align mx ex ez) as [ax ?], (shl_align my ey ez) as [ay ?].
      cbn [fst] in *. cbn [Z.add binary_normalize].
      apply binary_round_le.
      * split; [discriminate | reflexivity].
      * exact HF.
      * unfold ez; lia.
      * rewrite Pos2Z.inj_add, Hvx, Hvy.
        assert (0 < 2 ^ (ex - ez))%Z by (apply Z.pow_pos_nonneg; unfold ez; lia).
        assert (0 < 2 ^ (ey - ez))%Z by (apply Z.pow_pos_nonneg; unfold ez; lia).
        assert (Z.pos mx * 2 ^ (ex - ez) <= 2 ^ (eb + 52 - ez))%Z as Hx'.
        { replace (eb + 52 - ez)%Z with ((eb + 52 - ex) + (ex - ez))%Z by lia.
          rewrite Z.pow_add_r by (unfold ez; lia).
          apply Z.mul_le_mono_nonneg_r; lia. }
        assert (Z.pos my * 2 ^ (ey - ez) <= 2 ^ (eb + 52 - ez))%Z as Hy'.
        { replace (eb + 52 - ez)%Z with ((eb + 52 - ey) + (ey - ez))%Z by lia.
          rewrite Z.pow_add_r by (unfold ez; lia).
          apply Z.mul_le_mono_nonneg_r; lia. }
        change (Z.pos 4503599627370496) with (2 ^ 52)%Z.
        rewrite <- Z.pow_add_r by (unfold ez; lia).
        replace (52 + (eb + 1 - ez))%Z with (Z.succ (eb + 52 - ez)) by lia.
        rewrite Z.pow_succ_r by (unfold ez; lia). lia.
Qed.

(** Sums of such floats keep a small mantissa, or overflow. *)
Lemma add_small (x y : float) :
  small_or_inf x -> small_mantissa y -> small_or_inf (add x y).
Proof.
  intros Hx Hy.
  destruct x as [sx | sx | | sx mx ex]; simpl in Hx; try contradiction.
  - destruct y as [sy | sy | | sy my ey]; simpl in Hy; try contradiction.
    + destruct sx, sy; exact I.
    + exact Hy.
  - subst sx.
    destruct y as [sy | sy | | sy my ey]; simpl in Hy; try contradiction;
      reflexivity.
  - destruct sx; [contradiction | ].
    destruct y as [sy | sy | | sy my ey]; simpl in Hy; try contradiction.
    + exact Hx.
    + destruct sy; [contradiction | ].
      unfold add, SFadd. cbv zeta. cbn [cond_Zopp].
      destruct (shl_align mx ex (Z.min ex ey)) as [ax ?],
               (shl_align my ey (Z.min ex ey)) as [ay ?].
      cbn [fst Z.add binary_normalize]. apply binary_round_small.
Qed.

(** The quotient and the exponent a division of an int of at most 14 digits
    by 100 starts from. *)
Lemma div_core_by_100 (p : positive) :
  (Z.pos p <= 10000)%Z ->
  let s := (60 - Z.pos (digits2_pos p))%Z in
  SFdiv_core_binary prec emax (Z.pos p) 0 100 0
  = ((Z.pos p * 2 ^ s / 100)%Z, (- s)%Z,
     new_location 100 (Z.pos p * 2 ^ s mod 100))
  /\ (0 < s)%Z /\ (46 <= s)%Z.
Proof.
  intros Hp s.
  pose proof (digits2_pos_lower p) as Hlow.
  set (d := Z.pos (digits2_pos p)) in *.
  assert (1 <= d)%Z as Hd1 by (unfold d; lia).
  assert (d <= 14)%Z as Hd.
  { destruct (Z_le_gt_dec d 14) as [ | Hgt]; trivial. exfalso.
    assert (2 ^ 14 <= 2 ^ (d - 1))%Z by (apply Z.pow_le_mono_r; lia).
    lia. }
  split; [ | unfold s; lia].
  unfold SFdiv_core_binary.
  change (Zdigits2 (Z.pos p)) with d. change (Zdigits2 100) with 7%Z.
  replace (Z.min (fexp prec emax (d + 0 - (7 + 0))) (0 - 0))%Z with (- s)%Z
    by (unfold s, fexp, emin, prec, emax; lia).
  replace (0 - 0 - - s)%Z with s by lia.
  cbv zeta.
  assert (match s with
          | 0 => Z.pos p
          | Z.pos _ => Z.shiftl (Z.pos p) s
          | Z.neg _ => 0
          end = Z.pos p * 2 ^ s)%Z as ->.
  { destruct s as [ | k | k] eqn:Hs; try (unfold s in Hs; lia).
    apply Z.shiftl_mul_pow2. lia. }
  unfold Z.div, Z.modulo.
  destruct (Z.div_eucl (Z.pos p * 2 ^ s) 100) as [q r]. reflexivity.
Qed.

(** The floats nearest to the hundredths from 0.01 to 100.00 are between 0
    and 100. *)
Lemma ratio_hundredths (q : Z) :
  (0 < q <= 10000)%Z ->
  (0.0 <=? Py64.ratio q 100)%py = true /\ (Py64.ratio q 100 <=? 100.0)%py = true.
Proof.
  intros Hq.
  assert ((Py64.ratio q 100 <=? 100.0)%py = true) as Hle.
  { destruct (Z.eq_dec q 10000) as [-> | Hne]; [vm_compute; reflexivity | ].
    destruct q as [ | p | p]; try lia.
    unfold ratio. change (Z.abs (Z.pos p)) with (Z.pos p).
    change (Z.pos p <? 0)%Z with false.
    destruct (div_core_by_100 p ltac:(lia)) as (-> & Hs0 & Hs).
    set (s := (60 - Z.pos (digits2_pos p))%Z) in *.
    pose proof (digits2_pos_lower p) as Hlow.
    assert (0 < 2 ^ s)%Z as Hps by (apply Z.pow_pos_nonneg; lia).
    assert (2 ^ 59 <= Z.pos p * 2 ^ s)%Z as Hnum.
    { replace 59%Z with ((Z.pos (digits2_pos p) - 1) + s)%Z by (unfold s; lia).
      rewrite Z.pow_add_r by lia.
      apply Z.mul_le_mono_nonneg_r; lia. }
    assert (2 ^ 52 <= Z.pos p * 2 ^ s / 100)%Z as Hq52
      by (apply Z.div_le_lower_bound; lia).
    destruct (Z.pos p * 2 ^ s / 100)%Z as [ | Q | Q] eqn:HQ; try lia.
    pose proof (digits2_pos_above Q 52 ltac:(lia) Hq52) as HdQ.
    apply binary_round_aux_bound.
    - unfold fexp, emin, prec, emax. lia.
    - split; [discriminate | reflexivity].
    - unfold emin, prec, emax. lia.
    - lia.
    - left. rewrite <- HQ.
      apply Z.div_lt_upper_bound; [lia | ].
      replace (-46 - - s)%Z with (s - 46)%Z by lia.
      assert (2 ^ s = 2 ^ 46 * 2 ^ (s - 46))%Z as Hsplit.
      { rewrite <- Z.pow_add_r by lia. f_equal. lia. }
      assert (0 < 2 ^ (s - 46))%Z by (apply Z.pow_pos_nonneg; lia).
      rewrite Hsplit.
      change (Z.pos 7036874417766400) with (100 * 2 ^ 46)%Z.
      nia. }
  split; [ | exact Hle].
  assert (signed false (Py64.ratio q 100)) as Hs.
  { destruct q as [ | p | p]; try lia. unfold ratio.
    destruct (SFdiv_core_binary prec emax (Z.abs (Z.pos p)) 0 100 0)
      as [[mz ez] lz] eqn:Hcore.
    change (Z.pos p <? 0)%Z with false.
    apply binary_round_aux_signed.
    destruct (div_core_by_100 p ltac:(lia)) as (Hc & Hs0 & _).
    change (Z.abs (Z.pos p)) with (Z.pos p) in Hcore.
    rewrite Hc in Hcore.
    pose proof (f_equal (fun t => fst (fst t)) Hcore) as Hmz.
    cbn [fst] in Hmz. rewrite <- Hmz.
    apply Z.div_pos; [ | lia].
    apply Z.mul_nonneg_nonneg; [lia | apply Z.pow_nonneg; lia]. }
  destruct (Py64.ratio q 100) as [s | s | | s m e]; simpl in Hs;
    try contradiction; subst; reflexivity.
Qed.

End Py64Bounds.


Lemma sub_number (x : Py64.float) (s : bool) (m : positive) (e : Z) :
  Py64.is_nan x = false -> Py64.is_nan (x - S754_finite s m e)%py = false.
Proof.
  intros Hx. destruct x as [sx | sx | | sx mx ex]; try discriminate; try reflexivity.
  unfold Py64.sub, SFsub.
  match goal with
  | |- Py64.is_nan (binary_normalize _ _ ?z _ _) = false => destruct z as [ | p | p]
  end; cbn [binary_normalize]; trivial.
  - pose proof (Py64Facts.binary_round_signed false p (Z.min ex e)) as Hs.
    destruct (binary_round Py64.prec Py64.emax false p (Z.min ex e));
      simpl in Hs; trivial; contradiction.
  - pose proof (Py64Facts.binary_round_signed true p (Z.min ex e)) as Hs.
    destruct (binary_round Py64.prec Py64.emax true p (Z.min ex e));
      simpl in Hs; trivial; contradiction.
Qed.

(** [min(abs(y) * 2, 1.0) * 100] is between 0 and 100 for every number
    [y]. *)
Lemma percent_of_distance (y : Py64.float) :
  Py64.is_nan y = false ->
  (0.0 <=? Py64.min (Py64.abs y * 2.0) 1.0 * 100.0)%py = true
  /\ (Py64.min (Py64.abs y * 2.0) 1.0 * 100.0 <=? 100.0)%py = true.
Proof.
  intros Hy. destruct y as [s | s | | s m e]; try discriminate;
    try (split; reflexivity).
  cbn [Py64.abs SFabs].
  pose proof (Py64Bounds.mul_small m 4503599627370496 e (-51) ltac:(simpl; lia))
    as Ha.
  change (S754_finite false 4503599627370496 (-51)) with 2.0%py in Ha.
  destruct (S754_finite false m e * 2.0)%py as [sa | sa | | sa ma ea] eqn:Hprod;
    simpl in Ha; try contradiction.
  - destruct sa; split; reflexivity.
  - subst sa. split; reflexivity.
  - destruct sa; [contradiction | ].
    unfold Py64.min.
    destruct (Py64.ltb 1.0%py (S754_finite false ma ea)) eqn:Hlt;
      [split; reflexivity | ].
    split.
    + rewrite <- Py64Facts.nonneg_leb. now apply mul_nonneg.
    + exact (Py64Bounds.mul_le_pow2 (S754_finite false ma ea) 7036874417766400
               (-46) (-52) Ha Hlt ltac:(simpl; lia)
               ltac:(unfold emin, Py64.prec, Py64.emax; lia)).
Qed.

Lemma combined_score_nonneg (content_score llm_score reputation : Py64.float) :
  Py64.nonneg content_score = true -> Py64.nonneg llm_score = true ->
  Py64.nonneg (combined_risk_score (decide content_score llm_score reputation)) = true.
Proof.
  intros Hc Hl. pose proof (blend_nonneg content_score llm_score Hc Hl) as Hb.
  unfold decide. cbn [combined_risk_score].
  destruct (reputation =? 0.0)%py; [now apply Py64Facts.nonneg_min | ].
  destruct (0.8 <=? reputation)%py; [ | exact Hb].
  apply Py64Facts.nonneg_min; [ | reflexivity].
  now apply Py64Facts.add_nonneg.
Qed.

(** X13.  The confidence of a verdict is a percentage: it lies between 0
    and 100 whenever the combined score is a number, as it is for all
    non-negative scores. *)
Theorem confidence_is_a_percentage (content_score llm_score reputation : Py64.float) :
  (Py64.is_nan (combined_risk_score (decide content_score llm_score reputation))
   = false ->
   (0.0 <=? confidence (decide content_score llm_score reputation))%py = true
   /\ (confidence (decide content_score llm_score reputation) <=? 100.0)%py = true)
  /\ (Py64.nonneg content_score = true -> Py64.nonneg llm_score = true ->
      (0.0 <=? confidence (decide content_score llm_score reputation))%py = true
      /\ (confidence (decide content_score llm_score reputation) <=? 100.0)%py = true).
Proof.
  assert (Py64.is_nan (combined_risk_score (decide content_score llm_score reputation))
          = false ->
          (0.0 <=? confidence (decide content_score llm_score reputation))%py = true
          /\ (confidence (decide content_score llm_score reputation) <=? 100.0)%py
             = true) as Hnum.
  { intros Hn. apply percent_of_distance, sub_number, Hn. }
  split; [exact Hnum | ].
  intros Hc Hl. apply Hnum, Py64Facts.nonneg_number.
  now apply combined_score_nonneg.
Qed.

Lemma confidence_is_a_percentage_witness :
  (0.0 <=? confidence (decide 1.0%py 0.8%py 0.8%py))%py = true
  /\ (confidence (decide 1.0%py 0.8%py 0.8%py) <=? 100.0)%py = true.
Proof.
  apply (proj2 (confidence_is_a_percentage 1.0%py 0.8%py 0.8%py)); reflexivity.
Defined.

Lemma small_mantissa_nonneg (x : Py64.float) :
  small_mantissa x -> Py64.nonneg x = true.
Proof.
  destruct x as [s | s | | s m e]; simpl; try contradiction; trivial.
  destruct s; [contradiction | reflexivity].
Qed.

(** Half of a float in [0, 1] is in [0, 0.5]. *)
Lemma half_of_unit (x : Py64.float) :
  small_mantissa x -> (x <=? 1.0)%py = true ->
  small_mantissa (x * 0.50)%py /\ (0.5 <? x * 0.50)%py = false.
Proof.
  intros Hx Hle.
  pose proof (Py64Bounds.mul_le_pow2 x 4503599627370496 (-53) (-52) Hx
                (Py64Bounds.leb_not_ltb _ _ Hle)
                ltac:(split; [discriminate | reflexivity])
                ltac:(unfold emin, Py64.prec, Py64.emax; lia)) as Hhalf.
  change (S754_finite false 4503599627370496 (-53 + -52 + 52)) with 0.5%py in Hhalf.
  change (S754_finite false 4503599627370496 (-53)) with 0.50%py in Hhalf.
  split; [ | now apply Py64Bounds.leb_not_ltb].
  destruct x as [s | s | | s m e]; simpl in Hx; try contradiction.
  - destruct s; exact I.
  - destruct s; [contradiction | ].
    pose proof (Py64Bounds.mul_small m 4503599627370496 e (-53) ltac:(discriminate))
      as Hs.
    change (S754_finite false 4503599627370496 (-53)) with 0.50%py in Hs.
    destruct (S754_finite false m e * 0.50)%py as [ | s' | | ]; try exact Hs.
    subst s'. discriminate Hhalf.
Qed.

(** The blend of two scores in [0, 1] is at most 1. *)
Lemma blend_le_one (content_score llm_score : Py64.float) :
  small_mantissa content_score -> small_mantissa llm_score ->
  (content_score <=? 1.0)%py = true -> (llm_score <=? 1.0)%py = true ->
  (blend content_score llm_score <=? 1.0)%py = true.
Proof.
  intros Hc Hl Hc1 Hl1.
  destruct (half_of_unit content_score Hc Hc1) as [Hcs Hch].
  destruct (half_of_unit llm_score Hl Hl1) as [Hls Hlh].
  exact (Py64Bounds.add_le_pow2 _ _ (-53) Hcs Hls Hch Hlh
           ltac:(unfold emin, Py64.prec, Py64.emax; lia)).
Qed.

Lemma combined_score_le_one (content_score llm_score reputation : Py64.float) :
  small_mantissa content_score -> small_mantissa llm_score ->
  (content_score <=? 1.0)%py = true -> (llm_score <=? 1.0)%py = true ->
  (combined_risk_score (decide content_score llm_score reputation) <=? 1.0)%py = true.
Proof.
  intros Hc Hl Hc1 Hl1.
  pose proof (blend_le_one _ _ Hc Hl Hc1 Hl1) as Hb.
  pose proof (blend_nonneg _ _ (small_mantissa_nonneg _ Hc)
                (small_mantissa_nonneg _ Hl)) as Nb.
  unfold decide. cbn [combined_risk_score].
  destruct (reputation =? 0.0)%py.
  - unfold Py64.min. destruct (0.2 <? blend content_score llm_score)%py;
      [reflexivity | exact Hb].
  - destruct (0.8 <=? reputation)%py; [ | exact Hb].
    apply Py64Facts.min_le_r; [ | reflexivity].
    apply Py64Facts.nonneg_number, Py64Facts.add_nonneg; [exact Nb | reflexivity].
Qed.

(** X14.  For a heuristic total and a model score that are floats in
    [0, 1] the combined score is in [0, 1], whatever the reputation: the
    blend of the two halves is at most 1, the cap of a trusted domain only
    lowers it and the boost of a suspicious one stops at 1. *)
Theorem combined_score_in_unit_interval
  (content_score llm_score reputation : Py64.float) :
  small_mantissa content_score -> small_mantissa llm_score ->
  (content_score <=? 1.0)%py = true -> (llm_score <=? 1.0)%py = true ->
  (0.0 <=? combined_risk_score (decide content_score llm_score reputation))%py = true
  /\ (combined_risk_score (decide content_score llm_score reputation) <=? 1.0)%py
     = true
  /\ (blend content_score llm_score <=? 1.0)%py = true.
Proof.
  intros Hc Hl Hc1 Hl1. split; [ | split].
  - rewrite <- Py64Facts.nonneg_leb.
    apply combined_score_nonneg; now apply small_mantissa_nonneg.
  - now apply combined_score_le_one.
  - now apply blend_le_one.
Qed.

Lemma combined_score_in_unit_interval_witness :
  (0.0 <=? combined_risk_score (decide 1.0%py 1.0%py 0.5%py))%py = true
  /\ (combined_risk_score (decide 1.0%py 1.0%py 0.5%py) <=? 1.0)%py = true.
Proof.
  destruct (combined_score_in_unit_interval 1.0%py 1.0%py 0.5%py)
    as (Hlow & Hhigh & _); try reflexivity.
  split; [exact Hlow | exact Hhigh].
Defined.

Lemma min_small (a cap : Py64.float) :
  small_or_inf a -> small_mantissa cap -> small_mantissa (Py64.min a cap).
Proof.
  intros Ha Hcap. unfold Py64.min.
  destruct (Py64.ltb cap a) eqn:L; [exact Hcap | ].
  destruct a as [s | s | | s m e]; simpl in Ha; try contradiction; trivial.
  subst s. destruct cap as [sc | sc | | sc mc ec]; simpl in Hcap;
    try contradiction; try discriminate.
Qed.

Lemma capped_small_mantissa (n : Z) (mw : positive) (ew : Z) (cap v : Py64.float) :
  (0 < n)%Z -> (2 ^ 52 <= Z.pos mw)%Z -> small_mantissa cap ->
  capped n (S754_finite false mw ew) cap = Return v -> small_mantissa v.
Proof.
  intros Hn Hw Hcap E. apply capped_Return in E. subst v.
  apply min_small; [ | exact Hcap].
  pose proof (Py64Facts.of_Z_signed n Hn) as Hs.
  destruct (Py64.of_Z n) as [s | s | | s m e]; simpl in Hs; try contradiction;
    subst s; try reflexivity.
  pose proof (Py64Bounds.mul_small m mw e ew Hw) as Hm.
  destruct (S754_finite false m e * S754_finite false mw ew)%py; exact Hm.
Qed.

Lemma factor_small (name : string) (trigger : bool) (value : outcome Py64.float)
  (st st' : Py64.float * dict Py64.float) :
  (trigger = true -> forall v, value = Return v -> small_mantissa v) ->
  small_or_inf (fst st) ->
  factor name trigger value st = Return st' ->
  small_or_inf (fst st').
Proof.
  intros Hv Hst E.
  apply factor_inv in E as [[_ ->] | [Ht (v & Hval & ->)]]; trivial.
  simpl. apply Py64Bounds.add_small; eauto.
Qed.

(** The total of the scorer is a float in [0, 1] with a small mantissa. *)
Lemma calculate_content_risk_score_small (features : WebpageFeatures)
  (r : ContentAnalysis) :
  calculate_content_risk_score features = Return r ->
  small_mantissa (total_risk_score r)
  /\ (total_risk_score r <=? 1.0)%py = true.
Proof.
  intros H. scorer_steps H. injection H as <-. cbn [total_risk_score].
  assert (small_or_inf (fst (0.0%py, @nil (string * Py64.float)))) as N
    by exact I.
  repeat
    match goal with
    | E : factor _ ?t ?value ?st = Return ?st', N : small_or_inf (fst ?st) |- _ =>
        let N' := fresh "N" in
        assert (small_or_inf (fst st')) as N'
          by (refine (factor_small _ _ _ _ _ _ N E);
              intros Ht v Hv;
              first [ injection Hv as <-; simpl; reflexivity
                    | eapply capped_small_mantissa; [ | | | exact Hv];
                      [ first [ apply Z.ltb_lt in Ht | apply nonempty_len in Ht ]; lia
                      | discriminate | simpl; reflexivity ] ]);
        clear E N
    end.
  match goal with N : small_or_inf (fst ?st) |- _ => set (a := fst st) in * end.
  split; [apply min_small; [assumption | reflexivity] | ].
  unfold Py64.min. destruct (Py64.ltb 1.0%py a) eqn:L; [reflexivity | ].
  apply Py64Facts.not_ltb_leb; trivial.
  destruct a as [s | s | | s m e]; trivial.
  match goal with N : small_or_inf S754_nan |- _ => contradiction N end.
Qed.

(** The model score of an int likelihood between 0 and 100 *)
Lemma int_likelihood_score (n : Z) :
  (0 <= n <= 100)%Z ->
  exists x, div_100 (PyInt n) = Return x
            /\ small_mantissa x /\ (x <=? 1.0)%py = true.
Proof.
  intros Hn.
  assert (Forall (fun n => exists x, div_100 (PyInt n) = Return x
                                     /\ small_mantissa x /\ (x <=? 1.0)%py = true)
            (map Z.of_nat (seq 0 101))) as Hall.
  { cbn [seq map].
    repeat (constructor;
            [ eexists; split;
              [ vm_compute; reflexivity
              | split; [first [exact I | reflexivity] | reflexivity] ]
            | ]).
    constructor. }
  rewrite Forall_forall in Hall. apply Hall.
  apply in_map_iff. exists (Z.to_nat n). split; [lia | ].
  apply in_seq. lia.
Qed.

Section VerdictRange.
Context {Tag : Type} `{DocumentTree Tag}.

(** X15.  Every verdict of the pipeline whose model judgment gives an int
    likelihood between 0 and 100 (the degraded record's 50 included) has a
    combined risk score in [0, 1] and a confidence in [0, 100]. *)
Theorem verdict_scores_in_range (self : WebpagePhishingDetector)
  (svc : Services Tag) (u : string) (result : dict pyval) (judgment : pyval)
  (n : Z) :
  detect_webpage_phishing self svc u = Return result ->
  dict_get "error" result = None ->
  dict_get "llm_analysis" result = Some judgment ->
  subscript judgment "phishing_likelihood" = Return (PyInt n) ->
  (0 <= n <= 100)%Z ->
  exists score conf,
    dict_get "combined_risk_score" result = Some (PyFloat score)
    /\ (0.0 <=? score)%py = true /\ (score <=? 1.0)%py = true
    /\ dict_get "confidence" result = Some (PyFloat conf)
    /\ (0.0 <=? conf)%py = true /\ (conf <=? 100.0)%py = true.
Proof.
  intros Hd Herr Hllm Hsub Hn.
  destruct (get_domain_reputation self u) as [rep | e] eqn:Hrep.
  2: { rewrite (detect_unreadable_url self svc u e Hrep) in Hd. discriminate. }
  destruct (fetch svc u) as [soup | e] eqn:Hfetch.
  2: { unfold detect_webpage_phishing, scrape_webpage in Hd.
       rewrite Hrep, Hfetch in Hd. injection Hd as <-. discriminate Herr. }
  rewrite (detect_on_fetched_page self svc u rep soup Hrep Hfetch) in Hd.
  cbv zeta in Hd.
  apply bind_Return in Hd as (ca & Hca & Hd).
  apply bind_Return in Hd as (likelihood & Hlik & Hd).
  apply bind_Return in Hd as (llm_score & Hscore & Hd).
  injection Hd as <-.
  cbn [dict_get String.eqb Ascii.eqb Bool.eqb] in Hllm |- *.
  injection Hllm as <-. rewrite Hsub in Hlik. injection Hlik as <-.
  destruct (int_likelihood_score n Hn) as (x & Hx & Hsmall & Hle).
  rewrite Hx in Hscore. injection Hscore as <-.
  destruct (calculate_content_risk_score_small _ _ Hca) as [Hcs Hc1].
  pose proof (combined_score_nonneg (total_risk_score ca) x (reputation_score rep)
                (small_mantissa_nonneg _ Hcs) (small_mantissa_nonneg _ Hsmall))
    as Hpos.
  pose proof (combined_score_le_one (total_risk_score ca) x (reputation_score rep)
                Hcs Hsmall Hc1 Hle) as Hhigh.
  destruct (percent_of_distance _
              (sub_number _ false 4503599627370496 (-53)
                 (Py64Facts.nonneg_number _ Hpos))) as [Hclow Hchigh].
  eexists. eexists.
  split; [reflexivity | ].
  split; [now rewrite <- Py64Facts.nonneg_leb | ].
  split; [exact Hhigh | ].
  split; [reflexivity | ].
  split; [exact Hclow | exact Hchigh].
Qed.

End VerdictRange.

Lemma verdict_scores_in_range_witness :
  exists result score conf,
    detect_webpage_phishing detector blank_services "http://free-prize.xyz"
    = Return result
    /\ dict_get "combined_risk_score" result = Some (PyFloat score)
    /\ (0.0 <=? score)%py = true /\ (score <=? 1.0)%py = true
    /\ dict_get "confidence" result = Some (PyFloat conf)
    /\ (0.0 <=? conf)%py = true /\ (conf <=? 100.0)%py = true.
Proof.
  assert (exists result,
             detect_webpage_phishing detector blank_services "http://free-prize.xyz"
             = Return result) as [result Hr]
    by (eexists; vm_compute; reflexivity).
  pose proof Hr as Hv. vm_compute in Hv. injection Hv as Hv.
  assert (dict_get "error" result = None) as Herr by (rewrite <- Hv; reflexivity).
  assert (dict_get "llm_analysis" result
          = Some (degraded_judgment "LLM parsing failed"
                    "Could not parse LLM response")) as Hllm
    by (rewrite <- Hv; reflexivity).
  destruct (@verdict_scores_in_range node node_tree detector blank_services
              "http://free-prize.xyz" result
              (degraded_judgment "LLM parsing failed" "Could not parse LLM response")
              50 Hr Herr Hllm eq_refl ltac:(lia))
    as (score & conf & Hrange).
  exists result, score, conf. split; [exact Hr | exact Hrange].
Defined.

(** ** The risk score of a response *)

(** [hundredths] of a float that is at most 100 is at most 10000. *)
Lemma hundredths_le (m : positive) (e : Z) :
  (e < 0)%Z -> (Z.pos m <= 100 * 2 ^ (- e))%Z ->
  (0 <= hundredths m e <= 10000)%Z.
Proof.
  intros He Hm. unfold hundredths.
  destruct (Z.leb_spec 0 e) as [ | _]; [lia | ].
  set (den := (2 ^ (- e))%Z) in *.
  assert (0 < den)%Z as Hden by (apply Z.pow_pos_nonneg; lia).
  set (num := (Z.pos m * 100)%Z).
  assert (0 <= num <= 10000 * den)%Z as Hnum by (unfold num; lia).
  pose proof (Z.div_mod num den ltac:(lia)) as Hdm.
  pose proof (Z.mod_pos_bound num den Hden) as Hr.
  assert (0 <= num / den)%Z as Hq0 by (apply Z.div_pos; lia).
  assert (num / den <= 10000)%Z as Hq.
  { apply Z.div_le_upper_bound; lia. }
  assert (num / den = 10000 -> num mod den = 0)%Z as Hfull by nia.
  destruct (2 * (num mod den) ?= den)%Z eqn:C.
  - destruct (Z.even (num / den)); [lia | ].
    apply Z.compare_eq in C.
    destruct (Z.eq_dec (num / den) 10000) as [E | ]; [ | lia].
    specialize (Hfull E). lia.
  - lia.
  - apply Z.compare_gt_iff in C.
    destruct (Z.eq_dec (num / den) 10000) as [E | ]; [ | lia].
    specialize (Hfull E). lia.
Qed.

(** [round(y, 2)] of a float between 0 and 100 is between 0 and 100. *)
Lemma round_2_percent (y : Py64.float) :
  small_mantissa y -> (y <=? 100.0)%py = true ->
  (0.0 <=? round_2 y)%py = true /\ (round_2 y <=? 100.0)%py = true.
Proof.
  intros Hy Hle. destruct y as [s | s | | s m e]; simpl in Hy; try contradiction.
  - destruct s; split; reflexivity.
  - destruct s; [contradiction | ].
    assert (e <= -46 /\ Z.pos m <= 100 * 2 ^ (- e))%Z as [He Hm].
    { unfold Py64.leb, SFleb in Hle. cbn [SFcompare] in Hle.
      destruct (Z.compare_spec e (-46)) as [Heq | Hlt | Hgt]; try discriminate.
      - subst e. split; [lia | ].
        pose proof (Pos.compare_spec m 7036874417766400) as Hc.
        unfold Pos.compare in Hc. revert Hle.
        destruct Hc as [Hq | Hlt | Hgt]; intros Hle; try discriminate.
        + subst m. discriminate.
        + apply Pos2Z.pos_lt_pos in Hlt.
          change (100 * 2 ^ (- -46))%Z with (Z.pos 7036874417766400).
          now apply Z.lt_le_incl.
      - split; [lia | ].
        assert (2 ^ 47 <= 2 ^ (- e))%Z by (apply Z.pow_le_mono_r; lia).
        change (2 ^ 53)%Z with (64 * 2 ^ 47)%Z in Hy. lia. }
    unfold round_2.
    destruct (Z.leb_spec 0 e) as [ | _]; [lia | ].
    pose proof (hundredths_le m e ltac:(lia) Hm) as Hq.
    destruct (Z.eqb_spec (hundredths m e) 0) as [ | Hne]; [split; reflexivity | ].
    apply Py64Bounds.ratio_hundredths. lia.
Qed.

Lemma combined_score_small (content_score llm_score reputation : Py64.float) :
  small_mantissa content_score -> small_mantissa llm_score ->
  (content_score <=? 1.0)%py = true -> (llm_score <=? 1.0)%py = true ->
  small_mantissa (combined_risk_score (decide content_score llm_score reputation)).
Proof.
  intros Hc Hl Hc1 Hl1.
  destruct (half_of_unit content_score Hc Hc1) as [Hcs _].
  destruct (half_of_unit llm_score Hl Hl1) as [Hls _].
  assert (small_or_inf (blend content_score llm_score)) as Hb.
  { unfold blend. apply Py64Bounds.add_small; [ | exact Hls].
    destruct (content_score * 0.50)%py; solve [exact Hcs | contradiction]. }
  pose proof (blend_le_one _ _ Hc Hl Hc1 Hl1) as Hb1.
  unfold decide. cbn [combined_risk_score].
  destruct (reputation =? 0.0)%py; [apply min_small; [exact Hb | reflexivity] | ].
  destruct (0.8 <=? reputation)%py.
  - apply min_small; [ | reflexivity].
    apply Py64Bounds.add_small; [exact Hb | reflexivity].
  - destruct (blend content_score llm_score) as [ | s | | ]; try exact Hb.
    simpl in Hb. subst s. discriminate Hb1.
Qed.

(** A score in [0, 1], times 100 and rounded to two decimals, is in
    [0, 100]. *)
Lemma risk_score_percent (score : Py64.float) :
  small_mantissa score -> (score <=? 1.0)%py = true ->
  (0.0 <=? round_2 (score * 100.0))%py = true
  /\ (round_2 (score * 100.0) <=? 100.0)%py = true.
Proof.
  intros Hs Hle.
  pose proof (Py64Bounds.mul_le_pow2 score 7036874417766400 (-46) (-52) Hs
                (Py64Bounds.leb_not_ltb _ _ Hle)
                ltac:(split; [discriminate | reflexivity])
                ltac:(unfold emin, Py64.prec, Py64.emax; lia)) as Hy.
  change (S754_finite false 7036874417766400 (-46 + -52 + 52)) with 100.0%py in Hy.
  change (S754_finite false 7036874417766400 (-46)) with 100.0%py in Hy.
  apply round_2_percent; [ | exact Hy].
  destruct score as [s | s | | s m e]; simpl in Hs; try contradiction.
  - destruct s; exact I.
  - destruct s; [contradiction | ].
    pose proof (Py64Bounds.mul_small m 7036874417766400 e (-46) ltac:(discriminate))
      as Hm.
    change (S754_finite false 7036874417766400 (-46)) with 100.0%py in Hm.
    destruct (S754_finite false m e * 100.0)%py as [ | s' | | ]; try exact Hm.
    simpl in Hm. subst s'. discriminate Hy.
Qed.

Section ResponseRange.
Context {Tag : Type} `{DocumentTree Tag}.

(** X19.  The [risk_score] of a response is on the 0-100 scale: it lies in
    [0, 100] whenever the model judgment of the analysed page gives an int
    likelihood between 0 and 100. *)
Theorem risk_score_is_a_percentage (self : WebpagePhishingDetector)
  (svc : Services Tag) (data_url : string) (response : PhishingResponse) :
  predict_phishing self svc data_url = Return response ->
  (forall soup,
      fetch svc (requested_url data_url) = Return soup ->
      exists n,
        subscript (analyze_content_with_llm svc (extract_webpage_features self soup))
          "phishing_likelihood" = Return (PyInt n)
        /\ (0 <= n <= 100)%Z) ->
  (0.0 <=? risk_score response)%py = true
  /\ (risk_score response <=? 100.0)%py = true.
Proof.
  intros Hp Hint.
  destruct (predict_phishing_Return self svc data_url response Hp)
    as (_ & rep & soup & ca & llm_score & _ & Hfetch & Hca & Hscore & _ & _ & ->).
  destruct (Hint soup Hfetch) as (n & Hsub & Hn).
  unfold llm_score_of in Hscore. rewrite Hsub in Hscore. cbn [bind] in Hscore.
  destruct (int_likelihood_score n Hn) as (x & Hx & Hsmall & Hle).
  rewrite Hx in Hscore. injection Hscore as <-.
  destruct (calculate_content_risk_score_small _ _ Hca) as [Hcs Hc1].
  cbv zeta. cbn [risk_score].
  apply risk_score_percent.
  - now apply combined_score_small.
  - now apply combined_score_le_one.
Qed.

End ResponseRange.

Lemma risk_score_is_a_percentage_witness :
  exists response,
    predict_phishing detector blank_services "http://free-prize.xyz" = Return response
    /\ (0.0 <=? risk_score response)%py = true
    /\ (risk_score response <=? 100.0)%py = true.
Proof.
  assert (exists response,
             predict_phishing detector blank_services "http://free-prize.xyz"
             = Return response) as [response Hr]
    by (eexists; vm_compute; reflexivity).
  exists response. split; [exact Hr | ].
  apply (@risk_score_is_a_percentage node node_tree detector blank_services
           "http://free-prize.xyz" response Hr).
  intros soup Hsoup. injection Hsoup as <-.
  exists 50%Z. split; [reflexivity | lia].
Defined.

(* ================================================================== *)
(** * The order of the red flags *)
(* ================================================================== *)

Lemma first_values_from_prefix (seen a b : list pyval) :
  exists tail,
    first_values_from seen (a ++ b) = (first_values_from seen a ++ tail)%list.
Proof.
  revert seen. induction a as [ | x a IH]; intros seen; cbn [app first_values_from].
  - now exists (first_values_from seen b).
  - destruct (existsb (py_eqb x) seen).
    + apply IH.
    + destruct (IH (x :: seen)) as [tail ->]. now exists tail.
Qed.

Lemma firstn_first_values_prefix (n : nat) (flags : list string) (others : list pyval) :
  (n <= List.length (first_seen flags))%nat ->
  firstn n (first_values (map PyStr flags ++ others))
  = map PyStr (firstn n (first_seen flags)).
Proof.
  intros Hlen. unfold first_values, first_seen in *.
  destruct (first_values_from_prefix [] (map PyStr flags) others) as [tail ->].
  pose proof (first_values_from_strs [] flags) as Hstrs. cbn [map] in Hstrs.
  rewrite Hstrs, firstn_app, length_map.
  replace (n - List.length (first_seen_from [] flags))%nat with 0%nat by lia.
  cbn [firstn]. now rewrite app_nil_r, firstn_map.
Qed.

(** The candidates start with the items of the model's red flags. *)
Lemma collect_red_flags_prefix (result llm : dict pyval) (flags : pyval)
  (items out : list pyval) :
  dict_get "llm_analysis" result = Some (PyDict llm) ->
  dict_get "content_red_flags" llm = Some flags ->
  py_iter flags = Return items ->
  collect_red_flags result = Return out ->
  exists others, out = firstn 4 (first_values (items ++ others)).
Proof.
  intros Hllm Hflags Hitems Hout.
  unfold collect_red_flags, get_dict in Hout. rewrite Hllm in Hout.
  unfold extend_from at 1 in Hout. rewrite Hflags, Hitems in Hout.
  cbn [bind app map] in Hout. rewrite map_id in Hout.
  apply bind_Return in Hout as (f2 & H2 & Hout).
  apply bind_Return in Hout as (f3 & H3 & Hout).
  apply bind_Return in Hout as (keys & Hkeys & Hout).
  apply Return_eq in Hout. subst out.
  apply from_keys_first_values in Hkeys. cbn [app] in Hkeys. subst keys.
  assert (exists t2, f2 = (items ++ t2)%list) as [t2 ->].
  { unfold extend_from in H2.
    destruct (dict_get "primary_tactics" llm) as [v | ].
    - destruct (py_iter v) as [ts | ]; [ | discriminate].
      apply Return_eq in H2. subst f2. eauto.
    - apply Return_eq in H2. subst f2. exists []. now rewrite app_nil_r. }
  assert (exists t3, f3 = (items ++ t3)%list) as [t3 ->].
  { repeat match type of H3 with
           | context [if ?b then _ else _] =>
               match type of b with bool => destruct b end
           end;
      try (apply bind_Return in H3 as (reasons & _ & H3));
      apply Return_eq in H3; subst f3; rewrite <- ?app_assoc; eauto. }
  eauto.
Qed.

(** X16.  The model's red flags come first, so four distinct ones fill the
    response: when the judgment lists at least four distinct red flags the
    response shows the first four of them and nothing else; no tactic, no
    heuristic factor and no domain reason is shown. *)
Theorem model_flags_come_first (result llm : dict pyval) (flags : list string)
  (out : list pyval) :
  dict_get "llm_analysis" result = Some (PyDict llm) ->
  dict_get "content_red_flags" llm = Some (py_strs flags) ->
  (4 <= List.length (first_seen flags))%nat ->
  collect_red_flags result = Return out ->
  out = map PyStr (firstn 4 (first_seen flags)).
Proof.
  intros Hllm Hflags Hlen Hout.
  destruct (collect_red_flags_prefix result llm (py_strs flags) (map PyStr flags) out
              Hllm Hflags eq_refl Hout) as [others ->].
  now apply firstn_first_values_prefix.
Qed.

Lemma model_flags_come_first_witness :
  collect_red_flags crowded_verdict
  = Return (map PyStr [ "Asks for a password"; "Urgent wording"; "Mismatched brand";
                        "Hidden form" ]).
Proof.
  assert (exists out, collect_red_flags crowded_verdict = Return out) as [out Hout]
    by (eexists; reflexivity).
  rewrite Hout. f_equal.
  refine (model_flags_come_first crowded_verdict
            [ ("content_red_flags",
               py_strs ["Asks for a password"; "Urgent wording";
                        "Asks for a password"; "Mismatched brand";
                        "Hidden form"; "Odd address"]);
              ("primary_tactics", py_strs ["urgency"]) ]
            ["Asks for a password"; "Urgent wording"; "Asks for a password";
             "Mismatched brand"; "Hidden form"; "Odd address"] out
            eq_refl eq_refl _ Hout).
  vm_compute. lia.
Defined.

(* ================================================================== *)
(** * The URL the endpoint analyses *)
(* ================================================================== *)

Lemma lstrip_head (s : string) :
  match Str.lstrip s with
  | EmptyString => True
  | String c _ => Str.is_space c = false
  end.
Proof.
  induction s as [ | c s IH]; simpl; trivial.
  destruct (Str.is_space c) eqn:E; [exact IH | simpl; exact E].
Qed.

Lemma rstrip_idem (s : string) : Str.rstrip (Str.rstrip s) = Str.rstrip s.
Proof.
  induction s as [ | c s IH]; simpl; trivial.
  destruct (Str.rstrip s) as [ | d r] eqn:Hr.
  - destruct (Str.is_space c) eqn:E; simpl; trivial. now rewrite E.
  - cbn [Str.rstrip] in IH |- *. rewrite IH. reflexivity.
Qed.

(** [s.strip().strip()] is [s.strip()]. *)
Lemma strip_idem (s : string) : Str.strip (Str.strip s) = Str.strip s.
Proof.
  unfold Str.strip. pose proof (lstrip_head s) as Hh.
  destruct (Str.lstrip s) as [ | c t]; [reflexivity | ].
  assert (exists r, Str.rstrip (String c t) = String c r) as [r Hr].
  { simpl. destruct (Str.rstrip t); [rewrite Hh | ]; eauto. }
  rewrite Hr. cbn [Str.lstrip]. rewrite Hh, <- Hr. apply rstrip_idem.
Qed.

(** X17.  The URL the endpoint analyses is a fixed point of its own
    preparation: stripped again it is unchanged, and it already names a
    protocol; so a request for the [url] of a response is analysed under
    that very URL. *)
Theorem requested_url_is_stable (data_url : string) :
  Str.strip (requested_url data_url) = requested_url data_url
  /\ requested_url (requested_url data_url) = requested_url data_url.
Proof.
  assert (Str.strip (requested_url data_url) = requested_url data_url) as Hs.
  { unfold requested_url.
    destruct (Str.startswith "http://" (Str.strip data_url)
              || Str.startswith "https://" (Str.strip data_url))%bool.
    - apply strip_idem.
    - unfold Str.strip at 1.
      change ("https://" ++ Str.strip data_url)
        with (String "h" ("ttps://" ++ Str.strip data_url)).
      cbn [Str.lstrip]. change (Str.is_space "h") with false. cbv iota.
      change (String "h" ("ttps://" ++ Str.strip data_url))
        with ("https:/" ++ String "/" (Str.strip data_url)).
      rewrite rstrip_app_nonspace by reflexivity.
      unfold Str.strip. now rewrite rstrip_idem. }
  split; [exact Hs | ].
  unfold requested_url at 1. rewrite Hs.
  destruct (requested_url_protocol data_url) as [-> | ->];
    [reflexivity | now rewrite Bool.orb_true_r].
Qed.

(* ================================================================== *)
(** * The total and the factor map *)
(* ================================================================== *)

Lemma dict_set_fresh {V : Type} (k : string) (v : V) (d : dict V) :
  dict_get k d = None -> dict_set k v d = (d ++ [(k, v)])%list.
Proof.
  induction d as [ | [k0 v0] d IH]; simpl; trivial.
  destruct (String.eqb k0 k); [discriminate | ].
  intros Hd. now rewrite IH.
Qed.

Lemma factor_sum (name : string) (trigger : bool) (value : outcome Py64.float)
  (st st' : Py64.float * dict Py64.float) :
  factor name trigger value st = Return st' ->
  dict_get name (snd st) = None ->
  fst st = sum_values (snd st) ->
  fst st' = sum_values (snd st').
Proof.
  intros E Hfresh Hsum.
  apply factor_inv in E as [[_ ->] | [_ (v & _ & ->)]]; trivial.
  cbn [fst snd]. rewrite (dict_set_fresh _ _ _ Hfresh).
  unfold sum_values. rewrite fold_left_app. cbn [fold_left snd].
  now rewrite Hsum.
Qed.

(** X18.  The total the scorer returns is the sum of the factors it
    stores, added in the order of the map, clamped to 1.0: the total and
    the factor map of one result never disagree. *)
Theorem total_is_the_clamped_sum (features : WebpageFeatures) (r : ContentAnalysis) :
  calculate_content_risk_score features = Return r ->
  total_risk_score r = Py64.min (sum_values (risk_factors r)) 1.0%py.
Proof.
  intros H. scorer_steps H. injection H as <-.
  cbn [total_risk_score risk_factors]. f_equal.
  assert (fst (0.0%py, @nil (string * Py64.float))
          = sum_values (snd (0.0%py, @nil (string * Py64.float)))) as S
    by reflexivity.
  repeat
    match goal with
    | E : factor ?name _ _ ?st = Return ?st', S : fst ?st = sum_values (snd ?st)
      |- _ =>
        let S' := fresh "S" in
        assert (fst st' = sum_values (snd st')) as S'
          by (refine (factor_sum _ _ _ _ _ E _ S); lookup_trace; reflexivity);
        clear S
    end.
  assumption.
Qed.

Lemma total_is_the_clamped_sum_witness :
  exists r,
    calculate_content_risk_score busy_page = Return r
    /\ total_risk_score r = Py64.min (sum_values (risk_factors r)) 1.0%py
    /\ sum_values (risk_factors r) = 2.1%py.
Proof.
  eexists. split; [reflexivity | ].
  split; [ | reflexivity].
  exact (total_is_the_clamped_sum busy_page _ eq_refl).
Defined.

(* ================================================================== *)
(** * Agreement with the machine's floats *)
(* ================================================================== *)

(** The decimal constants of the code, read by the [%py] notation, are the
    binary64 values the kernel's own floats have for the same literals, and
    the decision's arithmetic on a sample gives the same result on both. *)
Module MachineFloats.
Import Stdlib.Floats.Floats.

#[local] Set Warnings "-inexact-float".

Lemma constants_are_machine_floats :
  map Prim2SF
    [0.35; 0.7; 0.6; 0.15; 0.25; 0.2; 0.5; 0.1; 0.4; 0.06; 1.0; 0.0;
     100.0; 2.0; 0.8; 0.50; 0.10; 0.40]%float
  = [0.35; 0.7; 0.6; 0.15; 0.25; 0.2; 0.5; 0.1; 0.4; 0.06; 1.0; 0.0;
     100.0; 2.0; 0.8; 0.50; 0.10; 0.40]%py.
Proof. vm_compute. reflexivity. Qed.

Lemma decision_on_machine_floats :
  let combined_score := ((1.0 * 0.50) + ((80.0 / 100.0) * 0.50))%float in
  Prim2SF combined_score = combined_risk_score (decide 1.0%py 0.8%py 0.5%py)
  /\ Prim2SF
       ((let distance := abs (combined_score - 0.5) * 2.0 in
         if 1.0 <? distance then 1.0 else distance) * 100.0)%float
     = confidence (decide 1.0%py 0.8%py 0.5%py).
Proof. vm_compute. split; reflexivity. Qed.

End MachineFloats.
